(** * dap-js: identifiers, digests, compact signatures and registrations

  A shallow embedding of the TypeScript sources of dap-js
  ([src/urn.ts], [src/dap.ts], [src/registration-id.ts], [src/crypto.ts],
  [src/registration.ts]) and the properties of those sources.

  Conventions of the embedding.
  - A JavaScript string is a [string]: a sequence of code units, here the
    code units below 256.
  - A [Uint8Array] is a [list byte].
  - A function that may throw returns a [result]: [Ok v] or [Throw e],
    where [e] records the class of the thrown object and its message.
  - A [Promise] is the [result] of the awaited computation; the sources
    await each call in sequence. *)

From Stdlib Require Import Strings.String Strings.Ascii Strings.Byte.
From Stdlib Require Import List Bool Arith ZArith NArith Lia DecimalString.
From Stdlib Require Import Permutation Sorted.
Import ListNotations.

Local Open Scope list_scope.
Local Open Scope string_scope.

(* ================================================================== *)
(** * Exceptions *)

(** The classes of the objects the sources throw.  [Error], [TypeError] and
  [SyntaxError] are the built-in classes; the others are declared in the
  sources, each extending [Error] and setting [name]. *)
Inductive ErrorName : Type :=
| Error
| TypeError
| SyntaxError
| InvalidUrn
| InvalidDap
| InvalidRegistrationId
| InvalidJws
| InvalidDapRegistration.

Record exn : Type := mkExn { name : ErrorName; message : string }.

Inductive result (A : Type) : Type :=
| Ok (a : A)
| Throw (e : exn).
Arguments Ok {A} a.
Arguments Throw {A} e.

Definition bind {A B : Type} (r : result A) (k : A -> result B) : result B :=
match r with
| Ok a => k a
| Throw e => Throw e
end.

Notation "x <- r ;; k" := (bind r (fun x => k))
(at level 61, r at next level, right associativity).

(** [message ?? dflt], as in the constructors of the error classes. *)
Definition orDefault (m : option string) (dflt : string) : string :=
match m with
| Some s => s
| None => dflt
end.

Definition ErrorName_eqb (a b : ErrorName) : bool :=
match a, b with
| Error, Error | TypeError, TypeError | SyntaxError, SyntaxError
| InvalidUrn, InvalidUrn | InvalidDap, InvalidDap
| InvalidRegistrationId, InvalidRegistrationId
| InvalidJws, InvalidJws
| InvalidDapRegistration, InvalidDapRegistration => true
| _, _ => false
end.

(** [throws r n]: the computation failed with an object of class [n]. *)
Definition throws {A : Type} (r : result A) (n : ErrorName) : bool :=
match r with
| Ok _ => false
| Throw e => ErrorName_eqb (name e) n
end.

(* ================================================================== *)
(** * Strings *)

Module Str.

(** [s.includes(c)] for a one-character [c]. *)
Fixpoint includes (s : string) (c : ascii) : bool :=
  match s with
  | EmptyString => false
  | String a s' => (a =? c)%char || includes s' c
  end.

(** All code units of [s] satisfy [p]. *)
Fixpoint every (p : ascii -> bool) (s : string) : bool :=
  match s with
  | EmptyString => true
  | String a s' => p a && every p s'
  end.

(** [s.split(sep)] for a one-character separator: the pieces between the
    occurrences of [sep]; never empty, [""] splits to [[""]]. *)
Fixpoint split (sep : ascii) (s : string) : list string :=
  match s with
  | EmptyString => [EmptyString]
  | String c s' =>
      if (c =? sep)%char then EmptyString :: split sep s'
      else match split sep s' with
           | h :: t => String c h :: t
           | [] => [String c EmptyString]
           end
  end.

(** [s.startsWith(p)] together with the rest of [s] after [p]. *)
Fixpoint stripPrefix (p s : string) : option string :=
  match p, s with
  | EmptyString, _ => Some s
  | String a p', String b s' =>
      if (a =? b)%char then stripPrefix p' s' else None
  | String _ _, EmptyString => None
  end.

(** [s.slice(0, n)]. *)
Fixpoint take (n : nat) (s : string) : string :=
  match n, s with
  | O, _ => EmptyString
  | S n', String c s' => String c (take n' s')
  | S _, EmptyString => EmptyString
  end.

(** [s.replace(c, "")] with a one-character string pattern: only the first
    occurrence is removed. *)
Fixpoint removeFirst (c : ascii) (s : string) : string :=
  match s with
  | EmptyString => EmptyString
  | String a s' => if (a =? c)%char then s' else String a (removeFirst c s')
  end.

(** The text of [s] before the first occurrence of [sep]; all of [s] when
    there is none. *)
Fixpoint before (sep : ascii) (s : string) : string :=
  match s with
  | EmptyString => EmptyString
  | String c s' => if (c =? sep)%char then EmptyString else String c (before sep s')
  end.

(** The number of occurrences of [c] in [s]. *)
Fixpoint count (c : ascii) (s : string) : nat :=
  match s with
  | EmptyString => O
  | String a s' => if (a =? c)%char then S (count c s') else count c s'
  end.

(** [hay.includes(needle)]. *)
Fixpoint contains (needle hay : string) : bool :=
  match stripPrefix needle hay with
  | Some _ => true
  | None => match hay with
            | EmptyString => false
            | String _ hay' => contains needle hay'
            end
  end.

End Str.

(* ================================================================== *)
(** * Regular expressions

  The two patterns of the sources, [URN_PATTERN] and [DAP_REGEX], are
  anchored at both ends and are sequences of literal text and capturing
  groups [(C+)] over a character class [C].  [RegExp] is the backtracking
  matcher of that fragment: [+] is greedy, and gives characters back one
  at a time when the rest of the pattern fails. *)

Module RegExp.

Inductive charclass : Type :=
| NoneOf (excluded : string)   (* [^...] *)
| Dot.                         (* .  without the s flag *)

(** The line terminators [.] does not match, among the code units below
    256: LF and CR. *)
Definition isLineTerminator (c : ascii) : bool :=
  ((c =? "010")%char || (c =? "013")%char).

Definition classMatches (cc : charclass) (c : ascii) : bool :=
  match cc with
  | NoneOf excluded => negb (Str.includes excluded c)
  | Dot => negb (isLineTerminator c)
  end.

Inductive atom : Type :=
| Lit (text : string)
| GroupPlus (cc : charclass).

(** A pattern [^ a1 a2 ... an $]. *)
Definition pattern := list atom.

(** [(C+)] followed by the continuation [k]: the longest run first, then
    shorter ones.  [acc] is the text the group has consumed so far. *)
Fixpoint plus (cc : charclass) (k : string -> option (list string))
         (acc s : string) : option (list string) :=
  match s with
  | EmptyString => None
  | String c s' =>
      if classMatches cc c then
        let acc' := acc ++ String c EmptyString in
        match plus cc k acc' s' with
        | Some caps => Some caps
        | None =>
            match k s' with
            | Some caps => Some (acc' :: caps)
            | None => None
            end
        end
      else None
  end.

(** The captures of the groups, in order, when [s] matches from its first
    to its last character. *)
Fixpoint captures (p : pattern) (s : string) : option (list string) :=
  match p with
  | [] => if (s =? "")%string then Some [] else None
  | Lit text :: p' =>
      match Str.stripPrefix text s with
      | Some s' => captures p' s'
      | None => None
      end
  | GroupPlus cc :: p' => plus cc (captures p') EmptyString s
  end.

(** [s.match(p)]: the match array, the whole match at index 0 then the
    captures, or [None] for [null]. *)
Definition match_ (s : string) (p : pattern) : option (list string) :=
  match captures p s with
  | Some caps => Some (s :: caps)
  | None => None
  end.

(** Reading index [i] of a match array in a destructuring pattern. *)
Definition at_ (m : list string) (i : nat) : string := nth i m EmptyString.

End RegExp.

(* ================================================================== *)
(** * [src/urn.ts] *)

Module Urn.

Definition PREFIX : string := "urn:".
Definition SEPARATOR : string := ":".

(** [new RegExp(`^${PREFIX}([^${SEPARATOR}]+)${SEPARATOR}(.+)$`)] *)
Definition URN_PATTERN : RegExp.pattern :=
  [RegExp.Lit PREFIX; RegExp.GroupPlus (RegExp.NoneOf SEPARATOR);
   RegExp.Lit SEPARATOR; RegExp.GroupPlus RegExp.Dot].

Record t : Type := mk { nid : string; nss : string; urn : string }.

(** The constructor: it stores its arguments and the formatted text. *)
Definition new (nid nss : string) : t :=
  {| nid := nid; nss := nss; urn := PREFIX ++ nid ++ ":" ++ nss |}.

Definition toString (u : t) : string := urn u.

Definition InvalidUrn_new (m : option string) : exn :=
  mkExn InvalidUrn (orDefault m "Invalid URN").

Definition parse (urn : string) : result t :=
  match RegExp.match_ urn URN_PATTERN with
  | None => Throw (InvalidUrn_new None)
  | Some m => Ok (new (RegExp.at_ m 1) (RegExp.at_ m 2))
  end.

(** The grammar of [URN_PATTERN] in words: [s] is ["urn:"], a non-empty
    [nid] without [":"], [":"], and a non-empty [nss] without line
    terminator. *)
Definition Grammar (s nid nss : string) : Prop :=
  s = "urn:" ++ nid ++ ":" ++ nss /\
  nid <> "" /\ Str.includes nid ":" = false /\
  nss <> "" /\
  Str.every (fun c => negb (RegExp.isLineTerminator c)) nss = true.

End Urn.

(* ================================================================== *)
(** * [src/dap.ts] *)

Module Dap.

Definition PREFIX : string := "@".
Definition SEPARATOR : string := "/".

(** [new RegExp(`^${PREFIX}([^${PREFIX}${SEPARATOR}]+)${SEPARATOR}([^${PREFIX}${SEPARATOR}]+)$`)] *)
Definition DAP_REGEX : RegExp.pattern :=
  [RegExp.Lit PREFIX; RegExp.GroupPlus (RegExp.NoneOf (PREFIX ++ SEPARATOR));
   RegExp.Lit SEPARATOR; RegExp.GroupPlus (RegExp.NoneOf (PREFIX ++ SEPARATOR))].

Record t : Type := new { handle : string; domain : string }.

Definition toString (d : t) : string :=
  PREFIX ++ handle d ++ SEPARATOR ++ domain d.

Definition InvalidDap_new (m : option string) : exn :=
  mkExn InvalidDap (orDefault m "Invalid DAP").

Definition parse (dap : string) : result t :=
  match RegExp.match_ dap DAP_REGEX with
  | None => Throw (InvalidDap_new None)
  | Some m => Ok (new (RegExp.at_ m 1) (RegExp.at_ m 2))
  end.

(** The grammar [^@([^@/]+)/([^@/]+)$] in words: [s] is ["@"], a non-empty
    handle, ["/"], a non-empty domain, and neither segment contains ["@"]
    or ["/"]. *)
Definition segment (x : string) : Prop :=
  x <> "" /\ Str.includes x "@" = false /\ Str.includes x "/" = false.

Definition Grammar (s h d : string) : Prop :=
  s = "@" ++ h ++ "/" ++ d /\ segment h /\ segment d.

End Dap.

(* ================================================================== *)
(** * Numbers and positional notation *)

(** A JavaScript number that holds an integer, or [NaN].  The integers the
    sources handle are below 2^53, where a double is exact. *)
Inductive number : Type :=
| Num (z : Z)
| NaN.

Module Radix.
Local Open Scope N_scope.

(** The [len] least significant digits of [n] in base [b], most significant
    first. *)
Fixpoint toDigits (b : N) (len : nat) (n : N) : list N :=
  match len with
  | O => []
  | S len' => toDigits b len' (n / b) ++ [n mod b]
  end.

(** The number a digit sequence denotes, most significant digit first. *)
Definition ofDigits (b : N) (ds : list N) : N :=
  fold_left (fun acc d => acc * b + d) ds 0%N.

(** The byte of value [n mod 256]. *)
Definition byteOfN (n : N) : byte :=
  match Byte.of_N (n mod 256) with
  | Some x => x
  | None => x00
  end.

(** The value of a letter or digit as a digit, as [parseInt] reads it. *)
Definition digitValue (c : ascii) : option N :=
  let n := N_of_ascii c in
  if ((48 <=? n) && (n <=? 57))%N then Some (n - 48)%N
  else if ((97 <=? n) && (n <=? 122))%N then Some (n - 87)%N
  else if ((65 <=? n) && (n <=? 90))%N then Some (n - 55)%N
  else None.

(** The white space [parseInt] skips, among the code units below 256. *)
Definition isWhiteSpace (c : ascii) : bool :=
  let n := N_of_ascii c in
  ((n =? 9) || (n =? 10) || (n =? 11) || (n =? 12) || (n =? 13) ||
   (n =? 32) || (n =? 160))%N.

Fixpoint trimStart (s : string) : string :=
  match s with
  | EmptyString => EmptyString
  | String c s' => if isWhiteSpace c then trimStart s' else s
  end.

(** The value of the longest prefix of [s] made of digits of the radix;
    [acc] is [None] until a digit is read. *)
Fixpoint parseDigits (radix : N) (s : string) (acc : option N) : option N :=
  match s with
  | EmptyString => acc
  | String c s' =>
      match digitValue c with
      | Some d =>
          if (d <? radix)%N then
            parseDigits radix s'
              (Some (match acc with
                     | Some a => a * radix + d
                     | None => d
                     end)%N)
          else acc
      | None => acc
      end
  end.

(** [parseInt(s, 16)]: leading white space, a sign, an optional [0x], then
    the longest run of hexadecimal digits; [NaN] when there is none. *)
Definition parseInt16 (s : string) : number :=
  let s1 := trimStart s in
  let '(negative, s2) :=
    match s1 with
    | String c r =>
        if (c =? "-")%char then (true, r)
        else if (c =? "+")%char then (false, r)
        else (false, s1)
    | EmptyString => (false, s1)
    end in
  let s3 :=
    match s2 with
    | String c0 (String c1 r) =>
        if (c0 =? "0")%char && ((c1 =? "x")%char || (c1 =? "X")%char)
        then r else s2
    | _ => s2
    end in
  match parseDigits 16 s3 None with
  | None => NaN
  | Some v => Num (if negative then - Z.of_N v else Z.of_N v)
  end.

Definition hexAlphabet : list ascii := list_ascii_of_string "0123456789abcdef".

Definition hexChar (d : N) : ascii := nth (N.to_nat d) hexAlphabet "0"%char.

(** Two lowercase hexadecimal digits per byte. *)
Fixpoint hex (bytes : list byte) : string :=
  match bytes with
  | [] => EmptyString
  | x :: rest =>
      String (hexChar (Byte.to_N x / 16)) (String (hexChar (Byte.to_N x mod 16)) (hex rest))
  end.

(** [String(n)] for a natural number. *)
Definition decimal (n : N) : string := NilZero.string_of_uint (N.to_uint n).

End Radix.

(* ================================================================== *)
(** * TypeID ([typeid-js])

    [registration-id.ts] imports [typeid] and [TypeID] from the package
    [typeid-js], which is not part of the sources. *)

Module TypeID.
Local Open Scope N_scope.

(** Modelled from the spec: the identifier is a type prefix, ["_"], and a
    base32-like encoding; the encoding has a fixed length and a fixed
    character set (section 4.1), and the first 48 bits of the encoded value
    are the creation time in milliseconds (sections 3 and 9).  The encoding
    is the one of the TypeID format: 26 characters of the alphabet below
    for a 128-bit value. *)
Definition alphabet : list ascii :=
  list_ascii_of_string "0123456789abcdefghjkmnpqrstvwxyz".

Definition digitChar (d : N) : ascii := nth (N.to_nat d) alphabet "0"%char.

Fixpoint indexOf (c : ascii) (l : list ascii) : option N :=
  match l with
  | [] => None
  | a :: l' =>
      if (a =? c)%char then Some 0%N
      else option_map N.succ (indexOf c l')
  end.

Definition charDigit (c : ascii) : option N := indexOf c alphabet.

Fixpoint mapM {A B : Type} (f : A -> option B) (l : list A) : option (list B) :=
  match l with
  | [] => Some []
  | a :: l' =>
      match f a, mapM f l' with
      | Some x, Some r => Some (x :: r)
      | _, _ => None
      end
  end.

(** Modelled from the spec: 16 bytes to 26 characters. *)
Definition encode (bytes : list byte) : string :=
  string_of_list_ascii
    (map digitChar
       (Radix.toDigits 32 26 (Radix.ofDigits 256 (map Byte.to_N bytes)))).

(** Modelled from the spec: the inverse of [encode]; [None] for a string
    that is not 26 characters of the alphabet or that encodes more than 128
    bits. *)
Definition decode (s : string) : option (list byte) :=
  if negb (String.length s =? 26)%nat then None
  else
    match mapM charDigit (list_ascii_of_string s) with
    | None => None
    | Some ds =>
        let n := Radix.ofDigits 32 ds in
        if (n <? 2 ^ 128)%N
        then Some (map Radix.byteOfN (Radix.toDigits 256 16 n))
        else None
    end.

Record t : Type := mk { prefix : string; suffix : string }.

Definition getType (id : t) : string := prefix id.

(** Modelled from the spec: ["reg_" + encoding]; an identifier without a
    type is its encoding alone. *)
Definition toString (id : t) : string :=
  if (prefix id =? "")%string then suffix id
  else prefix id ++ "_" ++ suffix id.

(** The text before and after the last occurrence of [sep]. *)
Fixpoint splitLast (sep : ascii) (s : string) : option (string * string) :=
  match s with
  | EmptyString => None
  | String c s' =>
      match splitLast sep s' with
      | Some (p, q) => Some (String c p, q)
      | None => if (c =? sep)%char then Some (EmptyString, s') else None
      end
  end.

(** The type prefix and the encoding of an identifier string. *)
Definition parts (str : string) : string * string :=
  match splitLast "_" str with
  | Some (p, q) => (p, q)
  | None => (EmptyString, str)
  end.

Definition invalidLength (got : nat) : exn :=
  mkExn Error ("Invalid length. Suffix should have 26 characters, got "
               ++ Radix.decimal (N.of_nat got)).

Definition invalidCharacters : exn :=
  mkExn Error "Invalid base32 character".

Definition invalidPrefix : exn :=
  mkExn Error "Invalid prefix. Must be at most 63 ascii letters [a-z_]".

Definition invalidFirstCharacter : exn :=
  mkExn Error "Invalid suffix. First character must be in the range [0-7]".

Definition emptyPrefix (str : string) : exn :=
  mkExn Error ("Invalid TypeID. Prefix cannot be empty when there's a separator: "
               ++ str).

Definition emptySuffix : exn :=
  mkExn Error "Invalid TypeID. Suffix cannot be empty".

Definition isLowerAtoZ (c : ascii) : bool :=
  let code := N_of_ascii c in (96 <? code) && (code <? 123).

Fixpoint lastChar (s : string) : option ascii :=
  match s with
  | EmptyString => None
  | String c EmptyString => Some c
  | String _ s' => lastChar s'
  end.

(** Modelled from the spec: the type is a prefix of lowercase letters
    (section 3, the fixed prefix ["reg"]).  The test of the package, which
    is not under [src/]: at most 63 characters, each a lowercase letter or
    ["_"], the first and the last a letter; the empty prefix passes. *)
Definition isValidPrefix (p : string) : bool :=
  (String.length p <=? 63)%nat
  && Str.every (fun c => isLowerAtoZ c || (c =? "_")%char) p
  && match p, lastChar p with
     | String first _, Some last => isLowerAtoZ first && isLowerAtoZ last
     | _, _ => true
     end.

(** [suffix[0] > "7"]: the first character is above ["7"]. *)
Definition firstAbove7 (s : string) : bool :=
  match s with
  | EmptyString => false
  | String c _ => 55 <? N_of_ascii c
  end.

(** Modelled from the spec: [new TypeID(prefix, suffix)] for a suffix that
    is not empty.  The failures of section 4.1, in the order the package
    tests them: the prefix, the length of the encoding (the cause the test
    suite expects, ["Invalid length"]), its first character, its character
    set. *)
Definition construct (p s : string) : result t :=
  if negb (isValidPrefix p) then Throw invalidPrefix
  else if negb (String.length s =? 26)%nat
       then Throw (invalidLength (String.length s))
  else if firstAbove7 s then Throw invalidFirstCharacter
  else match decode s with
       | None => Throw invalidCharacters
       | Some _ => Ok (mk p s)
       end.

(** Modelled from the spec: [TypeID.fromString(str)].  The text is cut at
    its last ["_"]; a separator with nothing before it and an empty
    encoding are failures of their own, before the constructor runs. *)
Definition fromString (str : string) : result t :=
  match splitLast "_" str with
  | Some (p, s) =>
      if (p =? "")%string then Throw (emptyPrefix str)
      else if (s =? "")%string then Throw emptySuffix
      else construct p s
  | None =>
      if (str =? "")%string then Throw emptySuffix
      else construct EmptyString str
  end.

(** The canonical text of a UUID: 8-4-4-4-12 hexadecimal digits. *)
Definition stringify (bytes : list byte) : string :=
  Radix.hex (firstn 4 bytes) ++ "-" ++
  Radix.hex (firstn 2 (skipn 4 bytes)) ++ "-" ++
  Radix.hex (firstn 2 (skipn 6 bytes)) ++ "-" ++
  Radix.hex (firstn 2 (skipn 8 bytes)) ++ "-" ++
  Radix.hex (skipn 10 bytes).

(** Modelled from the spec: [toUUID] is the UUID text of the 128-bit value
    the suffix encodes. *)
Definition toUUID (id : t) : result string :=
  match decode (suffix id) with
  | Some bytes => Ok (stringify bytes)
  | None => Throw invalidCharacters
  end.

(** The first [n] elements of [l], padded with [d]. *)
Fixpoint pad {A : Type} (n : nat) (d : A) (l : list A) : list A :=
  match n with
  | O => []
  | S n' =>
      match l with
      | [] => d :: pad n' d []
      | a :: l' => a :: pad n' d l'
      end
  end.

(** Modelled from the spec: a fresh identifier has the wall-clock time in
    milliseconds in its 48 most significant bits, and random bits in the
    other 80.  [now] is the clock and [random] the random source at the
    call. *)
Definition uuidBytes (now : N) (random : list byte) : list byte :=
  map Radix.byteOfN (Radix.toDigits 256 6 now) ++ pad 10 x00 random.

Definition typeid (prefix : string) (now : N) (random : list byte) : t :=
  mk prefix (encode (uuidBytes now random)).

End TypeID.

(* ================================================================== *)
(** * [src/registration-id.ts] *)

Module RegistrationId.

Record t : Type := new { value : TypeID.t }.

(** [now] and [random] are the clock and the random source [typeid] reads. *)
Definition create (now : N) (random : list byte) : t :=
  new (TypeID.typeid "reg" now random).

Definition extractTimestamp (r : t) : result number :=
  uuid <- TypeID.toUUID (value r) ;;
  let timestampHex := Str.removeFirst "-" (Str.take 13 uuid) in
  let timestampMilliseconds := Radix.parseInt16 timestampHex in
  Ok timestampMilliseconds.

(** [new Date(timestamp)] holds the time value it is given. *)
Definition extractDate (r : t) : result number := extractTimestamp r.

Definition toString (r : t) : string := TypeID.toString (value r).

Definition InvalidRegistrationId_new (m : option string) : exn :=
  mkExn InvalidRegistrationId (orDefault m "Invalid Registration ID").

Definition prefixMustBeReg : string :=
  "Registration ID prefix must be " ++ String "034" "reg" ++ String "034" "".

(** The [try] block: every exception thrown inside it is caught, also the
    [InvalidRegistrationId] thrown for the prefix. *)
Definition parse_try (id : string) : result t :=
  parsed <- TypeID.fromString id ;;
  if negb (TypeID.getType parsed =? "reg")%string
  then Throw (InvalidRegistrationId_new (Some prefixMustBeReg))
  else Ok (new parsed).

Definition parse (id : string) : result t :=
  match parse_try id with
  | Ok r => Ok r
  | Throw error => Throw (InvalidRegistrationId_new (Some (message error)))
  end.


(** The cause [RegistrationId.parse] reports for a type other than [reg]. *)
Definition prefixCause : exn :=
  mkExn InvalidRegistrationId prefixMustBeReg.

End RegistrationId.

(* ================================================================== *)
(** * JSON values *)

(** The values [JSON.parse] returns and [JSON.stringify] accepts.  The
    members of an object are listed in the order the object enumerates
    them, and its keys are distinct.  Numbers are the integers of
    magnitude below 10^21, the ones [JSON.stringify] writes in decimal
    digits; fractions and larger numbers are outside the model. *)
#[local] Unset Elimination Schemes.
Inductive json : Type :=
| JNull
| JBool (b : bool)
| JNumber (z : Z)
| JString (s : string)
| JArray (items : list json)
| JObject (members : list (string * json)).
#[local] Set Elimination Schemes.

Module JSON.

(** The value of the member [key] of an object, [None] for [undefined]. *)
Fixpoint lookup (key : string) (members : list (string * json)) : option json :=
  match members with
  | [] => None
  | (k, v) :: rest => if (k =? key)%string then Some v else lookup key rest
  end.

Definition hexDigit4 (n : N) : string :=
  String.string_of_list_ascii
    (map Radix.hexChar (Radix.toDigits 16 4 n)).

(** The text of one code unit inside a JSON string literal. *)
Definition escapeChar (c : ascii) : string :=
  let n := N_of_ascii c in
  if (n =? 34)%N then String "\" (String "034" EmptyString)
  else if (n =? 92)%N then "\\"
  else if (n =? 8)%N then "\b"
  else if (n =? 12)%N then "\f"
  else if (n =? 10)%N then "\n"
  else if (n =? 13)%N then "\r"
  else if (n =? 9)%N then "\t"
  else if (n <? 32)%N then "\u" ++ hexDigit4 n
  else String c EmptyString.

Fixpoint escape (s : string) : string :=
  match s with
  | EmptyString => EmptyString
  | String c s' => escapeChar c ++ escape s'
  end.

(** [JSON.stringify(s)] for a string. *)
Definition quote (s : string) : string :=
  String "034" (escape s ++ String "034" EmptyString).

(** [String(z)] for an integer of magnitude below 10^21. *)
Definition numberToString (z : Z) : string :=
  match z with
  | Zneg p => "-" ++ Radix.decimal (Npos p)
  | _ => Radix.decimal (Z.to_N z)
  end.

(** [parts.join(",")]. *)
Fixpoint join (parts : list string) : string :=
  match parts with
  | [] => EmptyString
  | [p] => p
  | p :: rest => p ++ "," ++ join rest
  end.

(** [JSON.stringify(v)], without indentation. *)
Fixpoint stringify (v : json) : string :=
  match v with
  | JNull => "null"
  | JBool true => "true"
  | JBool false => "false"
  | JNumber z => numberToString z
  | JString s => quote s
  | JArray items => "[" ++ join (map stringify items) ++ "]"
  | JObject members =>
      "{" ++ join (map (fun kv => quote (fst kv) ++ ":" ++ stringify (snd kv))
                       members) ++ "}"
  end.

End JSON.

(* ================================================================== *)
(** * [Convert] ([@web5/common]) and the hash ([@web5/crypto]) *)

Module Utf8.
Local Open Scope N_scope.

(** [new TextEncoder().encode(s)]: one byte for a code unit below 128, two
    for the others below 256. *)
Fixpoint encode (s : string) : list byte :=
  match s with
  | EmptyString => []
  | String c s' =>
      let n := N_of_ascii c in
      if n <? 128 then Radix.byteOfN n :: encode s'
      else Radix.byteOfN (192 + n / 64) :: Radix.byteOfN (128 + n mod 64)
           :: encode s'
  end.

End Utf8.

Module Base64Url.
Local Open Scope N_scope.

(** Modelled from the spec: base64url without padding (section 4.3, step
    2), the encoding of RFC 4648 section 5. *)
Definition alphabet : list ascii :=
  list_ascii_of_string
    "ABCDEFGHIJKLMNOPQRSTUVWXYZabcdefghijklmnopqrstuvwxyz0123456789-_".

Definition sextetChar (d : N) : ascii := nth (N.to_nat d) alphabet "A"%char.

Definition charSextet (c : ascii) : option N := TypeID.indexOf c alphabet.

(** The 6-bit groups of a byte sequence; the last group is filled with
    zero bits. *)
Fixpoint sextets (bytes : list byte) : list N :=
  match bytes with
  | [] => []
  | [a] =>
      let n := Byte.to_N a * 16 in
      [n / 64; n mod 64]
  | [a; b] =>
      let n := (Byte.to_N a * 256 + Byte.to_N b) * 4 in
      [n / 4096; n / 64 mod 64; n mod 64]
  | a :: b :: c :: rest =>
      let n := Byte.to_N a * 65536 + Byte.to_N b * 256 + Byte.to_N c in
      n / 262144 :: n / 4096 mod 64 :: n / 64 mod 64 :: n mod 64
      :: sextets rest
  end.

(** [Convert.uint8Array(bytes).toBase64Url()] *)
Definition encode (bytes : list byte) : string :=
  string_of_list_ascii (map sextetChar (sextets bytes)).

(** The bytes of a sequence of sextets; [None] for a length that no byte
    sequence encodes to, and for left-over bits that are not zero. *)
Fixpoint decodeSextets (ds : list N) : option (list byte) :=
  match ds with
  | [] => Some []
  | [_] => None
  | [d0; d1] =>
      let n := d0 * 64 + d1 in
      if n mod 16 =? 0 then Some [Radix.byteOfN (n / 16)] else None
  | [d0; d1; d2] =>
      let n := (d0 * 64 + d1) * 64 + d2 in
      if n mod 4 =? 0
      then Some [Radix.byteOfN (n / 1024); Radix.byteOfN (n / 4)]
      else None
  | d0 :: d1 :: d2 :: d3 :: rest =>
      let n := ((d0 * 64 + d1) * 64 + d2) * 64 + d3 in
      match decodeSextets rest with
      | Some bytes =>
          Some (Radix.byteOfN (n / 65536) :: Radix.byteOfN (n / 256)
                :: Radix.byteOfN n :: bytes)
      | None => None
      end
  end.

(** The text without the ["="] at its end. *)
Fixpoint stripPadding (s : string) : string :=
  match s with
  | EmptyString => EmptyString
  | String c s' =>
      match stripPadding s' with
      | EmptyString =>
          if (c =? "=")%char then EmptyString else String c EmptyString
      | rest => String c rest
      end
  end.

Definition nonBase64UrlCharacter : exn :=
  mkExn SyntaxError "Non-base64url character".

Definition unexpectedEndOfData : exn :=
  mkExn SyntaxError "Unexpected end of data".

(** [Convert.base64Url(s).toUint8Array()], of [@web5/common], which is not
    under [src/].  The decoder drops the ["="] at the end of the text,
    throws a [SyntaxError] at a character outside the alphabet, and after
    the last character throws a [SyntaxError] when the bits left over are
    a whole character or are not zero. *)
Definition decode (s : string) : result (list byte) :=
  match TypeID.mapM charSextet (list_ascii_of_string (stripPadding s)) with
  | Some ds =>
      match decodeSextets ds with
      | Some bytes => Ok bytes
      | None => Throw unexpectedEndOfData
      end
  | None => Throw nonBase64UrlCharacter
  end.

End Base64Url.

Module Sha256.
Local Open Scope N_scope.

(** Modelled from the spec: the fixed 256-bit hash of section 4.2, step 2;
    [Sha256.digest] of [@web5/crypto] is SHA-256 (FIPS 180-4).  A word is a
    number below 2^32. *)
Definition w32 (n : N) : N := n mod 4294967296.

Definition add (a b : N) : N := w32 (a + b).

Definition rotr (k : N) (x : N) : N :=
  N.lor (N.shiftr x k) (w32 (N.shiftl x (32 - k))).

Definition shr (k : N) (x : N) : N := N.shiftr x k.

Definition complement (x : N) : N := 4294967295 - x.

Definition Ch (x y z : N) : N :=
  N.lxor (N.land x y) (N.land (complement x) z).

Definition Maj (x y z : N) : N :=
  N.lxor (N.lxor (N.land x y) (N.land x z)) (N.land y z).

Definition Sigma0 (x : N) : N :=
  N.lxor (N.lxor (rotr 2 x) (rotr 13 x)) (rotr 22 x).

Definition Sigma1 (x : N) : N :=
  N.lxor (N.lxor (rotr 6 x) (rotr 11 x)) (rotr 25 x).

Definition sigma0 (x : N) : N :=
  N.lxor (N.lxor (rotr 7 x) (rotr 18 x)) (shr 3 x).

Definition sigma1 (x : N) : N :=
  N.lxor (N.lxor (rotr 17 x) (rotr 19 x)) (shr 10 x).

(** The first prime numbers. *)
Definition isPrime (n : N) : bool :=
  (2 <=? n) &&
  forallb (fun d => negb (n mod d =? 0))
          (map N.of_nat (seq 2 (N.to_nat n - 2))).

Definition primes (count : nat) : list N :=
  firstn count (filter isPrime (map N.of_nat (seq 0 400))).

(** The integer cube root, one bit at a time from bit [bits - 1] down. *)
Fixpoint cubeRoot (bits : nat) (n : N) (root : N) : N :=
  match bits with
  | O => root
  | S bits' =>
      let candidate := root + 2 ^ N.of_nat bits' in
      cubeRoot bits' n
               (if candidate * candidate * candidate <=? n then candidate else root)
  end.

(** The round constants: the first 32 bits of the fractional parts of the
    cube roots of the first 64 primes. *)
Definition K : list N :=
  Eval vm_compute in
    map (fun p => w32 (cubeRoot 36 (p * 2 ^ 96) 0)) (primes 64).

(** The eight working variables [a] to [h]. *)
Record state : Type := mkState {
  sa : N; sb : N; sc : N; sd : N; se : N; sf : N; sg : N; sh : N
}.

(** The initial hash value: the first 32 bits of the fractional parts of
    the square roots of the first 8 primes. *)
Definition H0 : state :=
  Eval vm_compute in
    match map (fun p => w32 (N.sqrt (p * 2 ^ 64))) (primes 8) with
    | [a; b; c; d; e; f; g; h] => mkState a b c d e f g h
    | _ => mkState 0 0 0 0 0 0 0 0
    end.

(** The message, a one bit, zero bits, and the length in bits on 64 bits:
    a multiple of 64 bytes. *)
Definition padding (len : nat) : list byte :=
  let zeros := ((64 - (len + 9) mod 64) mod 64)%nat in
  x80 :: repeat x00 zeros
  ++ map Radix.byteOfN (Radix.toDigits 256 8 (8 * N.of_nat len)).

Definition pad (msg : list byte) : list byte := msg ++ padding (length msg).

Definition blocks (padded : list byte) : list (list byte) :=
  map (fun i => firstn 64 (skipn (64 * i) padded))
      (seq 0 (length padded / 64)).

(** The sixteen words of a block, most significant byte first. *)
Fixpoint words (block : list byte) : list N :=
  match block with
  | a :: b :: c :: d :: rest =>
      Radix.ofDigits 256 (map Byte.to_N [a; b; c; d]) :: words rest
  | _ => []
  end.

(** The message schedule, most recent word first: [recent] holds
    [W(t-1), W(t-2), ...]; [n] more words are added. *)
Fixpoint extend (n : nat) (recent : list N) : list N :=
  match n with
  | O => recent
  | S n' =>
      let w := add (add (sigma1 (nth 1 recent 0)) (nth 6 recent 0))
                   (add (sigma0 (nth 14 recent 0)) (nth 15 recent 0)) in
      extend n' (w :: recent)
  end.

Definition schedule (block : list byte) : list N :=
  rev (extend 48 (rev (words block))).

Definition round (s : state) (kw : N * N) : state :=
  let t1 := add (add (add (sh s) (Sigma1 (se s))) (Ch (se s) (sf s) (sg s)))
                (add (fst kw) (snd kw)) in
  let t2 := add (Sigma0 (sa s)) (Maj (sa s) (sb s) (sc s)) in
  mkState (add t1 t2) (sa s) (sb s) (sc s) (add (sd s) t1) (se s) (sf s) (sg s).

Definition compress (s : state) (block : list byte) : state :=
  let r := fold_left round (combine K (schedule block)) s in
  mkState (add (sa s) (sa r)) (add (sb s) (sb r)) (add (sc s) (sc r))
          (add (sd s) (sd r)) (add (se s) (se r)) (add (sf s) (sf r))
          (add (sg s) (sg r)) (add (sh s) (sh r)).

Definition wordBytes (w : N) : list byte :=
  map Radix.byteOfN (Radix.toDigits 256 4 w).

Definition output (s : state) : list byte :=
  wordBytes (sa s) ++ wordBytes (sb s) ++ wordBytes (sc s) ++ wordBytes (sd s)
  ++ wordBytes (se s) ++ wordBytes (sf s) ++ wordBytes (sg s) ++ wordBytes (sh s).

(** [Sha256.digest({ data })] *)
Definition digest (data : list byte) : list byte :=
  output (fold_left compress (blocks (pad data)) H0).

End Sha256.

Module Canonicalize.

(** Modelled from the spec: [canonicalize] serializes a payload with its
    keys sorted and without insignificant white space (section 4.2, step
    1).  The function is the one of [@web5/crypto], which is not under
    [src/].  Where the package does less than the words of the spec, the
    definitions follow the package: it rebuilds an object from its keys in
    sorted order, with the values rebuilt the same way, and returns every
    other value, a sequence among them, as it is; so an object inside a
    sequence keeps the order of its keys. *)

(** [Object.keys(obj).sort()]: insertion by the order of the code units. *)
Fixpoint insert (kv : string * json) (sorted : list (string * json))
  : list (string * json) :=
  match sorted with
  | [] => [kv]
  | x :: rest =>
      if String.leb (fst kv) (fst x) then kv :: sorted
      else x :: insert kv rest
  end.

Definition sortMembers (members : list (string * json)) : list (string * json) :=
  fold_right insert [] members.

(** The number of a key that is an array index: the decimal text,
    without sign or leading zero, of an integer up to 2^32 - 2. *)
Definition arrayIndex (k : string) : option N :=
  match Radix.parseDigits 10 k None with
  | Some n =>
      if (n <=? 4294967294)%N && (Radix.decimal n =? k)%string
      then Some n else None
  | None => None
  end.

Fixpoint insertIndex (n : N) (kv : string * json)
         (sorted : list (N * (string * json))) : list (N * (string * json)) :=
  match sorted with
  | [] => [(n, kv)]
  | x :: rest =>
      if (n <=? fst x)%N then (n, kv) :: sorted
      else x :: insertIndex n kv rest
  end.

(** The members of a list whose key is an array index, in ascending order
    of the index. *)
Fixpoint indexMembers (members : list (string * json))
  : list (N * (string * json)) :=
  match members with
  | [] => []
  | kv :: rest =>
      match arrayIndex (fst kv) with
      | Some n => insertIndex n kv (indexMembers rest)
      | None => indexMembers rest
      end
  end.

Definition isArrayIndex (kv : string * json) : bool :=
  match arrayIndex (fst kv) with
  | Some _ => true
  | None => false
  end.

(** The order in which an object enumerates the members assigned to it in
    the order of [members]: the array indices first, in ascending order,
    then the other keys in the order of assignment. *)
Definition ownKeysOrder (members : list (string * json))
  : list (string * json) :=
  map snd (indexMembers members)
  ++ filter (fun kv => negb (isArrayIndex kv)) members.

(** [acc[key] = value] defines a member, but for the key ["__proto__"],
    which the assignment reads as the prototype of [acc]. *)
Definition definesMember (kv : string * json) : bool :=
  negb (fst kv =? "__proto__")%string.

(** [sortObjProperties(obj)] *)
Fixpoint sortKeys (v : json) : json :=
  match v with
  | JObject members =>
      JObject
        (ownKeysOrder
           (sortMembers
              (filter definesMember
                 (map (fun kv => (fst kv, sortKeys (snd kv))) members))))
  | _ => v
  end.

Definition canonicalize (v : json) : string := JSON.stringify (sortKeys v).

#[local] Unset Elimination Schemes.

(** Every object, at every nesting level, has distinct keys: what a
    JavaScript object is. *)
Inductive DistinctKeys : json -> Prop :=
| DK_null : DistinctKeys JNull
| DK_bool b : DistinctKeys (JBool b)
| DK_number z : DistinctKeys (JNumber z)
| DK_string s : DistinctKeys (JString s)
| DK_array items :
    Forall DistinctKeys items -> DistinctKeys (JArray items)
| DK_object members :
    NoDup (map fst members) ->
    Forall (fun kv => DistinctKeys (snd kv)) members ->
    DistinctKeys (JObject members).

(** Structural equality up to the order of the keys of objects, at every
    nesting level: the members of an object may be permuted, the elements
    of a sequence stay in place. *)
Inductive SameUpToKeyOrder : json -> json -> Prop :=
| SK_null : SameUpToKeyOrder JNull JNull
| SK_bool b : SameUpToKeyOrder (JBool b) (JBool b)
| SK_number z : SameUpToKeyOrder (JNumber z) (JNumber z)
| SK_string s : SameUpToKeyOrder (JString s) (JString s)
| SK_array items1 items2 :
    Forall2 SameUpToKeyOrder items1 items2 ->
    SameUpToKeyOrder (JArray items1) (JArray items2)
| SK_object members1 permuted members2 :
    Permutation members1 permuted ->
    Forall2 (fun a b => fst a = fst b /\ SameUpToKeyOrder (snd a) (snd b))
            permuted members2 ->
    SameUpToKeyOrder (JObject members1) (JObject members2).

(** The same up to the order of the keys of the objects that are reached
    through objects only: a sequence, and every other value that is not an
    object, is the same on both sides. *)
Inductive SameUpToKeyOrderOutsideSequences : json -> json -> Prop :=
| SO_same v : SameUpToKeyOrderOutsideSequences v v
| SO_object members1 permuted members2 :
    Permutation members1 permuted ->
    Forall2 (fun a b => fst a = fst b /\
                        SameUpToKeyOrderOutsideSequences (snd a) (snd b))
            permuted members2 ->
    SameUpToKeyOrderOutsideSequences (JObject members1) (JObject members2).

#[local] Set Elimination Schemes.

End Canonicalize.

(* ================================================================== *)
(** * The capabilities the sources import

    Keys, signers, the DID resolver, the key manager and the JSON reader
    are outside the sources.  A [Platform] fixes the ones that are
    process-wide; a [BearerDid] is passed to [sign]. *)

(** What [signer.sign({ data })] and [did.getSigner()] give. *)
Record Signer : Type := mkSigner {
  algorithm : string;
  keyId : string;
  signBytes : list byte -> result (list byte)
}.

Record BearerDid : Type := mkBearerDid {
  uri : string;
  getSigner : result Signer
}.

(** The [contentStream] of a dereferencing result, as
    [isDidVerificationMethod] and [publicKeyJwk] read it. *)
Inductive contentStream (Jwk : Type) : Type :=
| NoContent
| OtherResource
| VerificationMethod (publicKeyJwk : option Jwk).
Arguments NoContent {Jwk}.
Arguments OtherResource {Jwk}.
Arguments VerificationMethod {Jwk} publicKeyJwk.

Class Platform : Type := {
  Jwk : Type;
  (** [isPublicJwk(jwk)] of [@web5/crypto] *)
  isPublicJwk : Jwk -> bool;
  (** [(await DidResolver.dereference(kid)).contentStream] *)
  dereference : string -> contentStream Jwk;
  (** [keyManager.verify({ key, data, signature })] *)
  keyManagerVerify : Jwk -> list byte -> list byte -> result bool;
  (** [JSON.parse(text)] *)
  JSON_parse : string -> result json;
  (** [Convert.base64Url(text).toObject()] *)
  base64UrlToObject : string -> result json
}.

Definition dq : string := String "034" EmptyString.

(* ================================================================== *)
(** * [src/crypto.ts] *)

Module Crypto.

Definition InvalidJws_new (m : option string) : exn :=
  mkExn InvalidJws (orDefault m "Invalid JWS").

(** [Crypto.digest(payload)] *)
Definition digest (payload : json) : list byte :=
  let canonicalized := Canonicalize.canonicalize payload in
  let canonicalizedBytes := Utf8.encode canonicalized in
  Sha256.digest canonicalizedBytes.

(** [Convert.object(obj).toBase64Url()] *)
Definition objectToBase64Url (obj : json) : string :=
  Base64Url.encode (Utf8.encode (JSON.stringify obj)).

Definition jwsHeaderOf (signer : Signer) : json :=
  JObject [("alg", JString (algorithm signer)); ("kid", JString (keyId signer))].

(** [Crypto.sign({ did, payload, detached })] *)
Definition sign (did : BearerDid) (payload : list byte) (detached : bool)
  : result string :=
  signer <- getSigner did ;;
  let jwsHeader := jwsHeaderOf signer in
  let jwsHeaderBase64Url := objectToBase64Url jwsHeader in
  let payloadBase64Url := Base64Url.encode payload in
  let toSign := jwsHeaderBase64Url ++ "." ++ payloadBase64Url in
  let toSignBytes := Utf8.encode toSign in
  signatureBytes <- signBytes signer toSignBytes ;;
  let signatureBase64Url := Base64Url.encode signatureBytes in
  if detached
  then Ok (jwsHeaderBase64Url ++ ".." ++ signatureBase64Url)
  else Ok (jwsHeaderBase64Url ++ "." ++ payloadBase64Url ++ "."
           ++ signatureBase64Url).

Definition msgNotString : string :=
  "Signature verification failed: Expected Compact JWS in string format".
Definition msgNotThreeParts : string :=
  "Signature verification failed: Expected Compact JWS with 3 parts".
Definition msgPayloadNotEmpty : string :=
  "Signature verification failed: Expected detached JWS with empty payload".
Definition msgInvalidHeader : string :=
  "Signature verification failed: Invalid JWS header".
Definition msgMissingAlg : string :=
  "Signature verification failed: Missing or invalid algorithm (" ++ dq
  ++ "alg" ++ dq ++ ") in JWS header".
Definition msgMissingKid : string :=
  "Signature verification failed: Missing or invalid key ID (" ++ dq
  ++ "kid" ++ dq ++ ") in JWS header".
Definition msgNotVerificationMethod : string :=
  "Signature verification failed: Expected key id (" ++ dq ++ "kid" ++ dq
  ++ ") in JWS header to dereference to a DID Document Verification Method".
Definition msgNoPublicKeyJwk : string :=
  "Signature verification failed: Expected kid in JWS header to dereference to a DID Document Verification Method with publicKeyJwk".
Definition msgIntegrity : string :=
  "Signature verification failed: Integrity mismatch".

(** The messages of the [InvalidJws] failures of [verify]. *)
Definition invalidJwsCauses : list string :=
  [msgNotString; msgNotThreeParts; msgPayloadNotEmpty; msgInvalidHeader;
   msgMissingAlg; msgMissingKid; msgNotVerificationMethod; msgIntegrity].

(** Reading the property [key] of a parsed header: a [TypeError] on
    [null], [None] ([undefined]) when the value has no such property.  The
    keys read are ["alg"] and ["kid"], which no array, string, number or
    boolean has. *)
Definition getProperty (v : json) (key : string) : result (option json) :=
  match v with
  | JNull => Throw (mkExn TypeError ("Cannot read properties of null (reading '"
                                     ++ key ++ "')"))
  | JObject members => Ok (JSON.lookup key members)
  | _ => Ok None
  end.

(** [!x || typeof x !== 'string'] is false exactly on a non-empty string. *)
Definition nonEmptyString (x : option json) : option string :=
  match x with
  | Some (JString s) => if (s =? "")%string then None else Some s
  | _ => None
  end.

(** [Convert.base64Url(text).toUint8Array()] *)
Definition base64UrlToUint8Array (text : string) : result (list byte) :=
  Base64Url.decode text.

Section Verify.
Context {P : Platform}.

(** [Crypto.verify({ jws, detachedPayload })].  [jws] is any value: the
    function tests its type. *)
Definition verify (jws : json) (detachedPayload : option (list byte))
  : result string :=
  match jws with
  | JString jws =>
      let parts := Str.split "." jws in
      let jwsHeaderBase64Url := nth 0 parts EmptyString in
      let payloadBase64Url := nth 1 parts EmptyString in
      let signatureBase64Url := nth 2 parts EmptyString in
      if negb (length parts =? 3)%nat
      then Throw (InvalidJws_new (Some msgNotThreeParts))
      else
        payloadBase64Url <-
          match detachedPayload with
          | Some detached =>
              if negb (String.length payloadBase64Url =? 0)%nat
              then Throw (InvalidJws_new (Some msgPayloadNotEmpty))
              else Ok (Base64Url.encode detached)
          | None => Ok payloadBase64Url
          end ;;
        jwsHeader <-
          match base64UrlToObject jwsHeaderBase64Url with
          | Ok header => Ok header
          | Throw _ => Throw (InvalidJws_new (Some msgInvalidHeader))
          end ;;
        alg <- getProperty jwsHeader "alg" ;;
        match nonEmptyString alg with
        | None => Throw (InvalidJws_new (Some msgMissingAlg))
        | Some _ =>
            kid <- getProperty jwsHeader "kid" ;;
            match nonEmptyString kid with
            | None => Throw (InvalidJws_new (Some msgMissingKid))
            | Some kid =>
                match dereference kid with
                | VerificationMethod publicKeyJwk =>
                    match publicKeyJwk with
                    | Some key =>
                        if negb (isPublicJwk key)
                        then Throw (mkExn Error msgNoPublicKeyJwk)
                        else
                          let signedData :=
                            jwsHeaderBase64Url ++ "." ++ payloadBase64Url in
                          let signedDataBytes := Utf8.encode signedData in
                          signatureBytes <-
                            base64UrlToUint8Array signatureBase64Url ;;
                          isValidSignature <-
                            keyManagerVerify key signedDataBytes signatureBytes ;;
                          if negb isValidSignature
                          then Throw (InvalidJws_new (Some msgIntegrity))
                          else Ok (nth 0 (Str.split "#" kid) EmptyString)
                    | None => Throw (mkExn Error msgNoPublicKeyJwk)
                    end
                | _ => Throw (InvalidJws_new (Some msgNotVerificationMethod))
                end
            end
        end
  | _ => Throw (InvalidJws_new (Some msgNotString))
  end.

End Verify.

End Crypto.

(* ================================================================== *)
(** * [src/registration.ts] *)

Module DapRegistration.

(** [RegistrationModel] and [RegistrationRequest].  A member that is absent
    reads as [undefined]: [None] for the signature. *)
Record RegistrationModel : Type := mkModel {
  m_id : string;
  m_handle : string;
  m_did : string;
  m_domain : string;
  m_signature : option string
}.

Record t : Type := new {
  id : RegistrationId.t;
  handle : string;
  did : string;
  domain : string;
  signature : option string
}.

Definition InvalidDapRegistration_new (m : option string) : exn :=
  mkExn InvalidDapRegistration (orDefault m "Invalid DAP Registration").

Definition msgSignatureMissing : string :=
  "Invalid DAP Registration: Signature is missing".
Definition msgWrongSigner : string :=
  "Invalid DAP Registration: Expected registration to be signed by the specified DID".

(** The object [computeDigest] hashes. *)
Definition payload (r : t) : json :=
  JObject [("id", JString (RegistrationId.toString (id r)));
           ("handle", JString (handle r));
           ("did", JString (did r));
           ("domain", JString (domain r))].

Definition computeDigest (r : t) : list byte := Crypto.digest (payload r).

(** [validate()] has an empty body. *)
Definition validate (r : t) : result unit := Ok tt.

(** [DapRegistration.create({ handle, did, domain })]; [now] and [random]
    are what [RegistrationId.create] reads. *)
Definition create (handle did domain : string) (now : N) (random : list byte)
  : result t :=
  let id := RegistrationId.create now random in
  let registration := new id handle did domain None in
  _ <- validate registration ;;
  Ok registration.

(** [toJSON()]: the object [JSON.stringify] serializes; a member whose
    value is [undefined] is not serialized. *)
Definition toJSON (r : t) : json :=
  JObject ([("id", JString (RegistrationId.toString (id r)));
            ("handle", JString (handle r));
            ("did", JString (did r));
            ("domain", JString (domain r))]
           ++ match signature r with
              | Some s => [("signature", JString s)]
              | None => []
              end).

(** [JSON.stringify(registration)] *)
Definition serialize (r : t) : string := JSON.stringify (toJSON r).

Definition readString (v : option json) : option string :=
  match v with
  | Some (JString s) => Some s
  | _ => None
  end.

(** The parsed value read at the declared type [RegistrationRequest]:
    [None] when it is not an object whose members have the declared
    types. *)
Definition asRegistrationRequest (v : json) : option RegistrationModel :=
  match v with
  | JObject members =>
      match readString (JSON.lookup "id" members),
            readString (JSON.lookup "handle" members),
            readString (JSON.lookup "did" members),
            readString (JSON.lookup "domain" members) with
      | Some i, Some h, Some d, Some dom =>
          match JSON.lookup "signature" members with
          | None => Some (mkModel i h d dom None)
          | Some (JString s) => Some (mkModel i h d dom (Some s))
          | Some _ => None
          end
      | _, _, _, _ => None
      end
  | _ => None
  end.

Section WithPlatform.
Context {P : Platform}.

(** [sign(did)]: the record after the assignment to [this.signature]. *)
Definition sign (r : t) (signer : BearerDid) : result t :=
  let payload := computeDigest r in
  jws <- Crypto.sign signer payload true ;;
  Ok (new (id r) (handle r) (did r) (domain r) (Some jws)).

Definition verify (r : t) : result string :=
  match signature r with
  | None => Throw (InvalidDapRegistration_new (Some msgSignatureMissing))
  | Some jws =>
      let payload := computeDigest r in
      signerDid <- Crypto.verify (JString jws) (Some payload) ;;
      if negb (did r =? signerDid)%string
      then Throw (InvalidDapRegistration_new (Some msgWrongSigner))
      else Ok signerDid
  end.

(** [#rawToRegistrationRequest(rawRequest)]: only [JSON.parse] is inside
    the [try]. *)
Definition rawToRegistrationRequest (rawRequest : string + RegistrationModel)
  : result (option RegistrationModel) :=
  match rawRequest with
  | inl text =>
      match JSON_parse text with
      | Ok v => Ok (asRegistrationRequest v)
      | Throw error =>
          Throw (InvalidDapRegistration_new
                   (Some ("Failed to parse DAP registration: " ++ message error)))
      end
  | inr request => Ok (Some request)
  end.

(** The text parses to [null]. *)
Definition isNullRequest (rawRequest : string + RegistrationModel) : bool :=
  match rawRequest with
  | inl text =>
      match JSON_parse text with
      | Ok JNull => true
      | _ => false
      end
  | inr _ => false
  end.

(** [DapRegistration.parse(rawRequest)].  A text that parses to a value
    outside the declared type [RegistrationRequest] is followed for
    [null], where reading [jsonRegistration.id] throws a [TypeError]; for
    the other such values the result is [None]: they are outside the
    model. *)
Definition parse (rawRequest : string + RegistrationModel)
  : option (result t) :=
  match rawToRegistrationRequest rawRequest with
  | Throw e => Some (Throw e)
  | Ok None =>
      if isNullRequest rawRequest
      then Some (Throw (mkExn TypeError
                          "Cannot read properties of null (reading 'id')"))
      else None
  | Ok (Some jsonRegistration) =>
      Some (id <- RegistrationId.parse (m_id jsonRegistration) ;;
            let registration :=
              new id (m_handle jsonRegistration) (m_did jsonRegistration)
                  (m_domain jsonRegistration) (m_signature jsonRegistration) in
            _ <- verify registration ;;
            Ok registration)
  end.

End WithPlatform.

End DapRegistration.

(* ================================================================== *)
(** * Test doubles

    A platform to run the sources on: a reader of JSON text, a decoder of
    UTF-8, a resolver with a fixed table, and a keyed hash in the place of
    the signature algorithm.  The properties below that are stated for
    every platform are run on this one. *)

Module JsonReader.
Local Open Scope N_scope.

Definition isWhiteSpace (c : ascii) : bool :=
  let n := N_of_ascii c in
  (n =? 32) || (n =? 9) || (n =? 10) || (n =? 13).

Fixpoint skipWhiteSpace (s : string) : string :=
  match s with
  | EmptyString => EmptyString
  | String c s' => if isWhiteSpace c then skipWhiteSpace s' else s
  end.

Definition hexValue (c : ascii) : option N :=
  match Radix.digitValue c with
  | Some d => if d <? 16 then Some d else None
  | None => None
  end.

(** The character of a one-letter escape. *)
Definition simpleEscape (e : ascii) : option ascii :=
  let n := N_of_ascii e in
  if n =? 34 then Some "034"%char
  else if n =? 92 then Some "\"%char
  else if n =? 47 then Some "/"%char
  else if n =? 98 then Some "008"%char
  else if n =? 102 then Some "012"%char
  else if n =? 110 then Some "010"%char
  else if n =? 114 then Some "013"%char
  else if n =? 116 then Some "009"%char
  else None.

Definition consChar (c : ascii) (r : option (string * string))
  : option (string * string) :=
  match r with
  | Some (str, rest) => Some (String c str, rest)
  | None => None
  end.

(** The text of a string literal after its opening quote, and the rest of
    the input after its closing quote. *)
Fixpoint readString (s : string) : option (string * string) :=
  match s with
  | EmptyString => None
  | String c s' =>
      let n := N_of_ascii c in
      if n =? 34 then Some (EmptyString, s')
      else if n =? 92 then
        match s' with
        | String "u" (String h1 (String h2 (String h3 (String h4 s'')))) =>
            match hexValue h1, hexValue h2, hexValue h3, hexValue h4 with
            | Some d1, Some d2, Some d3, Some d4 =>
                let code := Radix.ofDigits 16 [d1; d2; d3; d4] in
                if code <? 256 then consChar (ascii_of_N code) (readString s'')
                else None
            | _, _, _, _ => None
            end
        | String e s'' =>
            match simpleEscape e with
            | Some x => consChar x (readString s'')
            | None => None
            end
        | EmptyString => None
        end
      else if n <? 32 then None
      else consChar c (readString s')
  end.

Definition isDigit (c : ascii) : bool :=
  let n := N_of_ascii c in (48 <=? n) && (n <=? 57).

Fixpoint readDigits (s : string) (acc : N) : N * string :=
  match s with
  | EmptyString => (acc, s)
  | String c s' =>
      if isDigit c then readDigits s' (acc * 10 + (N_of_ascii c - 48))
      else (acc, s)
  end.

(** An integer literal; a fraction or an exponent is refused. *)
Definition readNatural (s : string) : option (N * string) :=
  match s with
  | String c s' =>
      if isDigit c then
        let '(n, rest) :=
          if (c =? "0")%char then (0, s') else readDigits s 0 in
        match rest with
        | String d _ =>
            if isDigit d || (d =? ".")%char || (d =? "e")%char || (d =? "E")%char
            then None else Some (n, rest)
        | EmptyString => Some (n, rest)
        end
      else None
  | EmptyString => None
  end.

(** Assigning a member of the object under construction: a key that is
    already there keeps its place and takes the new value. *)
Fixpoint setMember (key : string) (v : json) (members : list (string * json))
  : list (string * json) :=
  match members with
  | [] => [(key, v)]
  | (k, x) :: rest =>
      if (k =? key)%string then (k, v) :: rest
      else (k, x) :: setMember key v rest
  end.

Fixpoint readValue (fuel : nat) (s : string) : option (json * string) :=
  match fuel with
  | O => None
  | S fuel' =>
      match skipWhiteSpace s with
      | String "{" rest =>
          match skipWhiteSpace rest with
          | String "}" rest' => Some (JObject [], rest')
          | _ => readMembers fuel' [] rest
          end
      | String "[" rest =>
          match skipWhiteSpace rest with
          | String "]" rest' => Some (JArray [], rest')
          | _ => readElements fuel' [] rest
          end
      | String "034" rest =>
          match readString rest with
          | Some (str, rest') => Some (JString str, rest')
          | None => None
          end
      | String "-" rest =>
          match readNatural rest with
          | Some (n, rest') => Some (JNumber (- Z.of_N n), rest')
          | None => None
          end
      | String _ _ as s0 =>
          match Str.stripPrefix "null" s0, Str.stripPrefix "true" s0,
                Str.stripPrefix "false" s0 with
          | Some rest', _, _ => Some (JNull, rest')
          | _, Some rest', _ => Some (JBool true, rest')
          | _, _, Some rest' => Some (JBool false, rest')
          | None, None, None =>
              match readNatural s0 with
              | Some (n, rest') => Some (JNumber (Z.of_N n), rest')
              | None => None
              end
          end
      | EmptyString => None
      end
  end

with readElements (fuel : nat) (acc : list json) (s : string)
  : option (json * string) :=
  match fuel with
  | O => None
  | S fuel' =>
      match readValue fuel' s with
      | Some (v, rest) =>
          match skipWhiteSpace rest with
          | String "," rest' => readElements fuel' (acc ++ [v]) rest'
          | String "]" rest' => Some (JArray (acc ++ [v]), rest')
          | _ => None
          end
      | None => None
      end
  end

with readMembers (fuel : nat) (acc : list (string * json)) (s : string)
  : option (json * string) :=
  match fuel with
  | O => None
  | S fuel' =>
      match skipWhiteSpace s with
      | String "034" rest =>
          match readString rest with
          | Some (key, rest') =>
              match skipWhiteSpace rest' with
              | String ":" rest'' =>
                  match readValue fuel' rest'' with
                  | Some (v, rest3) =>
                      match skipWhiteSpace rest3 with
                      | String "," rest4 =>
                          readMembers fuel' (setMember key v acc) rest4
                      | String "}" rest4 =>
                          Some (JObject (setMember key v acc), rest4)
                      | _ => None
                      end
                  | None => None
                  end
              | _ => None
              end
          | None => None
          end
      | _ => None
      end
  end.

Definition syntaxError : exn := mkExn SyntaxError "Unexpected token in JSON".

Definition parse (text : string) : result json :=
  match readValue (2 * String.length text + 2) text with
  | Some (v, rest) =>
      match skipWhiteSpace rest with
      | EmptyString => Ok v
      | _ => Throw syntaxError
      end
  | None => Throw syntaxError
  end.

(** The text of UTF-8 bytes, for the code points below 256. *)
Fixpoint utf8Decode (bytes : list byte) : option string :=
  match bytes with
  | [] => Some EmptyString
  | b :: rest =>
      let n := Byte.to_N b in
      if n <? 128 then
        match utf8Decode rest with
        | Some s => Some (String (ascii_of_N n) s)
        | None => None
        end
      else if (n =? 194) || (n =? 195) then
        match rest with
        | c :: rest' =>
            let m := Byte.to_N c in
            if (128 <=? m) && (m <? 192) then
              match utf8Decode rest' with
              | Some s => Some (String (ascii_of_N ((n - 192) * 64 + (m - 128))) s)
              | None => None
              end
            else None
        | [] => None
        end
      else None
  end.

Definition base64UrlToObject (text : string) : result json :=
  match Base64Url.decode text with
  | Ok bytes =>
      match utf8Decode bytes with
      | Some s => parse s
      | None => Throw syntaxError
      end
  | Throw e => Throw e
  end.

End JsonReader.

Module TestDoubles.

Definition aliceKey : list byte := [x61; x6c; x69; x63; x65].

(** A keyed hash in the place of a signature: the signature of [data]
    under [key] is the hash of the key followed by the data, and the same
    key verifies it. *)
Definition toySign (key data : list byte) : list byte :=
  Sha256.digest (key ++ data).

Definition bytesEqb (a b : list byte) : bool :=
  if list_eq_dec Byte.byte_eq_dec a b then true else false.

Definition toyVerify (key data sig : list byte) : result bool :=
  Ok (bytesEqb sig (toySign key data)).

(** The resolver: a key for Alice, a verification method without
    [publicKeyJwk], a resource that is no verification method, and nothing
    for any other key id. *)
Definition resolve (kid : string) : contentStream (list byte) :=
  if (kid =? "did:example:alice#0")%string then VerificationMethod (Some aliceKey)
  else if (kid =? "did:example:multibase#0")%string then VerificationMethod None
  else if (kid =? "did:example:alice#service")%string then OtherResource
  else NoContent.

Definition platform : Platform := {|
  Jwk := list byte;
  isPublicJwk := fun key => negb (length key =? 0)%nat;
  dereference := resolve;
  keyManagerVerify := toyVerify;
  JSON_parse := JsonReader.parse;
  base64UrlToObject := JsonReader.base64UrlToObject
|}.

Definition aliceSigner : Signer :=
  mkSigner "HS256" "did:example:alice#0"
           (fun data => Ok (toySign aliceKey data)).

Definition alice : BearerDid := mkBearerDid "did:example:alice" (Ok aliceSigner).

(** A registration for Alice, created when the clock reads
    2021-07-15T00:00:00.000Z. *)
Definition unsignedRegistration : DapRegistration.t :=
  Eval vm_compute in
    DapRegistration.new (RegistrationId.create 1626307200000 [x07])
                        "alice" "did:example:alice" "domain.com" None.

(** The registration after [sign(alice)]. *)
Definition signedRegistration : DapRegistration.t :=
  Eval vm_compute in
    match @DapRegistration.sign unsignedRegistration alice with
    | Ok r => r
    | Throw _ => unsignedRegistration
    end.

(** A registration that names Bob and that Alice signed. *)
Definition forgedRegistration : DapRegistration.t :=
  Eval vm_compute in
    match @DapRegistration.sign
            (DapRegistration.new (RegistrationId.create 1626307200000 [x07])
                                 "bob" "did:example:bob" "domain.com" None)
            alice with
    | Ok r => r
    | Throw _ => unsignedRegistration
    end.

(** The compact JWS of Alice over the bytes 1, 2, 3, and its detached
    form. *)
Definition aliceJws : string :=
  Eval vm_compute in
    match Crypto.sign alice [x01; x02; x03] false with
    | Ok jws => jws
    | Throw _ => EmptyString
    end.

Definition aliceDetachedJws : string :=
  Eval vm_compute in
    match Crypto.sign alice [x01; x02; x03] true with
    | Ok jws => jws
    | Throw _ => EmptyString
    end.

End TestDoubles.
(* ================================================================== *)
(** * Properties *)

(** ** Strings *)

Module StrFacts.
Import Str.

Lemma append_assoc (a b c : string) : (a ++ b) ++ c = a ++ (b ++ c).
Proof. induction a as [|x a IH]; simpl; [reflexivity | now rewrite IH]. Qed.

Lemma append_nil_r (a : string) : a ++ "" = a.
Proof. induction a as [|x a IH]; simpl; [reflexivity | now rewrite IH]. Qed.

Lemma stripPrefix_append (p s : string) : stripPrefix p (p ++ s) = Some s.
Proof.
  induction p as [|x p IH]; simpl; [reflexivity|].
  now rewrite Ascii.eqb_refl.
Qed.

Lemma stripPrefix_sound (p s r : string) :
  stripPrefix p s = Some r -> s = p ++ r.
Proof.
  revert s; induction p as [|x p IH]; intros s H; simpl in *.
  - now injection H.
  - destruct s as [|y s]; [discriminate|].
    destruct (Ascii.eqb_spec x y) as [->|]; [|discriminate].
    now rewrite (IH _ H).
Qed.

Lemma split_no_sep (sep : ascii) (s : string) :
  includes s sep = false -> split sep s = [s].
Proof.
  induction s as [|a s IH]; simpl; [reflexivity|].
  intros H. apply orb_false_iff in H as [Ha Hs].
  rewrite Ha, (IH Hs). reflexivity.
Qed.

Lemma split_at_sep (sep : ascii) (a b : string) :
  includes a sep = false ->
  split sep (a ++ String sep b) = a :: split sep b.
Proof.
  induction a as [|x a IH]; simpl; intros H.
  - now rewrite Ascii.eqb_refl.
  - apply orb_false_iff in H as [Hx Ha].
    rewrite Hx, (IH Ha). reflexivity.
Qed.

Lemma split_not_nil (sep : ascii) (s : string) : split sep s <> [].
Proof.
  induction s as [|c s IH]; simpl; [discriminate|].
  destruct (c =? sep)%char; [discriminate|].
  destruct (split sep s); discriminate.
Qed.

(** The first piece of a split is the text before the first separator. *)
Lemma split_first (sep : ascii) (s : string) :
  nth 0 (split sep s) EmptyString = before sep s.
Proof.
  induction s as [|c s IH]; simpl; [reflexivity|].
  destruct (c =? sep)%char; [reflexivity|].
  pose proof (split_not_nil sep s) as Hne.
  destruct (split sep s) as [|h t]; [contradiction|].
  simpl in *. now rewrite IH.
Qed.

(** A detached compact JWS has three parts, the one in the middle empty. *)
Lemma split_detached (h s : string) :
  includes h "." = false -> includes s "." = false ->
  split "." (h ++ ".." ++ s) = [h; EmptyString; s].
Proof.
  intros Hh Hs.
  change (h ++ ".." ++ s) with (h ++ String "." (String "." s)).
  rewrite split_at_sep by exact Hh.
  change (String "." s) with ("" ++ String "." s).
  rewrite split_at_sep by reflexivity.
  now rewrite split_no_sep.
Qed.

End StrFacts.

(** ** The matcher on a run of the class followed by its continuation *)

Module RegExpFacts.
Import RegExp.

(** A run [w] of the class, then text on which the group cannot go on and
    the continuation succeeds: the group captures exactly [w]. *)
Lemma plus_complete cc k (w : string) :
  forall acc rest caps,
    w <> "" ->
    Str.every (classMatches cc) w = true ->
    (forall acc', plus cc k acc' rest = None) ->
    k rest = Some caps ->
    plus cc k acc (w ++ rest) = Some ((acc ++ w) :: caps).
Proof.
  induction w as [|c w IH]; intros acc rest caps Hne Hall Hstop Hk.
  - contradiction.
  - simpl in Hall. apply andb_true_iff in Hall as [Hc Hw].
    simpl. rewrite Hc.
    destruct w as [|c' w'].
    + simpl. rewrite Hstop, Hk. reflexivity.
    + rewrite (IH (acc ++ String c "") rest caps); try easy.
      now rewrite StrFacts.append_assoc.
Qed.

(** Whatever the group captures is a non-empty run of the class, and the
    continuation succeeded on the rest. *)
Lemma plus_sound cc k (s : string) :
  forall acc r,
    plus cc k acc s = Some r ->
    exists w rest caps,
      s = w ++ rest /\ w <> "" /\ Str.every (classMatches cc) w = true /\
      k rest = Some caps /\ r = (acc ++ w) :: caps.
Proof.
  induction s as [|c s IH]; intros acc r H; simpl in H; [discriminate|].
  destruct (classMatches cc c) eqn:Hc; [|discriminate].
  destruct (plus cc k (acc ++ String c "") s) eqn:Hp.
  - injection H as <-.
    destruct (IH _ _ Hp) as (w & rest & caps & -> & Hne & Hall & Hk & ->).
    exists (String c w), rest, caps. simpl. rewrite Hc, Hall.
    repeat split; try easy. now rewrite StrFacts.append_assoc.
  - destruct (k s) as [caps|] eqn:Hk; [|discriminate].
    injection H as <-.
    exists (String c ""), s, caps. simpl. rewrite Hc. repeat split; easy.
Qed.

Lemma plus_stops_at_mismatch cc k acc c s :
  classMatches cc c = false -> plus cc k acc (String c s) = None.
Proof. intros H. simpl. now rewrite H. Qed.

End RegExpFacts.

(* ================================================================== *)
(** ** Urn and Dap *)

Module GrammarFacts.
Import RegExp.

Lemma every_noneOf_one (x : string) (c : ascii) :
  Str.every (classMatches (NoneOf (String c ""))) x = true <->
  Str.includes x c = false.
Proof.
  induction x as [|a x IH]; simpl; [tauto|].
  rewrite andb_true_iff, orb_false_iff, IH, orb_false_r, negb_true_iff.
  now rewrite (Ascii.eqb_sym c a).
Qed.

Lemma every_noneOf_two (x : string) (c1 c2 : ascii) :
  Str.every (classMatches (NoneOf (String c1 (String c2 "")))) x = true <->
  Str.includes x c1 = false /\ Str.includes x c2 = false.
Proof.
  induction x as [|a x IH]; simpl; [tauto|].
  rewrite andb_true_iff, !orb_false_iff, IH, orb_false_r, negb_true_iff.
  rewrite orb_false_iff, (Ascii.eqb_sym c1 a), (Ascii.eqb_sym c2 a). tauto.
Qed.

(** The end of the input: the pattern is exhausted exactly on [""]. *)
Lemma captures_end_inv (s : string) caps : captures [] s = Some caps -> s = "" /\ caps = [].
Proof.
  simpl. destruct (String.eqb_spec s ""); [|discriminate].
  intros H; injection H as <-. now split.
Qed.

Lemma captures_lit (text : string) p (s : string) :
  captures (Lit text :: p) (text ++ s) = captures p s.
Proof. simpl. now rewrite StrFacts.stripPrefix_append. Qed.

(** A final group [(C+)$] captures the whole rest when it is a non-empty
    run of the class. *)
Lemma captures_last_group cc (w : string) :
  w <> "" -> Str.every (classMatches cc) w = true ->
  captures [GroupPlus cc] w = Some [w].
Proof.
  intros Hne Hall.
  rewrite <- (StrFacts.append_nil_r w) at 1.
  change (captures [GroupPlus cc] (w ++ ""))
    with (plus cc (captures []) "" (w ++ "")).
  now rewrite (RegExpFacts.plus_complete cc (captures []) w "" "" []).
Qed.

(** A group [(C+)] before the literal [c], on a run of the class that
    excludes [c]. *)
Lemma captures_group_then_lit cc (c : ascii) p (w rest : string) caps :
  w <> "" -> Str.every (classMatches cc) w = true ->
  classMatches cc c = false ->
  captures (Lit (String c "") :: p) (String c rest) = Some caps ->
  captures (GroupPlus cc :: Lit (String c "") :: p) (w ++ String c rest)
  = Some (w :: caps).
Proof.
  intros Hne Hall Hc Hk.
  change (captures (GroupPlus cc :: Lit (String c "") :: p) (w ++ String c rest))
    with (plus cc (captures (Lit (String c "") :: p)) "" (w ++ String c rest)).
  rewrite (RegExpFacts.plus_complete cc _ w "" (String c rest) caps); try easy.
  intros acc'. now apply RegExpFacts.plus_stops_at_mismatch.
Qed.

Lemma Urn_parse_complete (nid nss : string) :
  nid <> "" -> Str.includes nid ":" = false ->
  nss <> "" -> Str.every (fun c => negb (isLineTerminator c)) nss = true ->
  Urn.parse ("urn:" ++ nid ++ ":" ++ nss) = Ok (Urn.new nid nss).
Proof.
  intros Hnid Hcolon Hnss Hline.
  unfold Urn.parse, match_, Urn.URN_PATTERN, Urn.PREFIX, Urn.SEPARATOR.
  rewrite captures_lit.
  change (":" ++ nss) with (String ":" nss).
  rewrite (captures_group_then_lit _ _ _ _ _ [nss]); try easy.
  - now apply every_noneOf_one.
  - change (String ":" nss) with (":" ++ nss).
    rewrite captures_lit. now apply captures_last_group.
Qed.

Lemma Dap_parse_complete (s h d : string) :
  Dap.Grammar s h d -> Dap.parse s = Ok (Dap.new h d).
Proof.
  intros (-> & (Hh & Hh1 & Hh2) & (Hd & Hd1 & Hd2)).
  unfold Dap.parse, match_, Dap.DAP_REGEX, Dap.PREFIX, Dap.SEPARATOR.
  rewrite captures_lit.
  change ("/" ++ d) with (String "/" d).
  rewrite (captures_group_then_lit _ _ _ _ _ [d]); try easy.
  - now apply every_noneOf_two.
  - change (String "/" d) with ("/" ++ d).
    rewrite captures_lit. apply captures_last_group; [easy|].
    now apply every_noneOf_two.
Qed.

Lemma Dap_parse_sound (s : string) (r : Dap.t) :
  Dap.parse s = Ok r -> Dap.Grammar s (Dap.handle r) (Dap.domain r).
Proof.
  unfold Dap.parse, match_, Dap.DAP_REGEX, Dap.PREFIX, Dap.SEPARATOR.
  cbn [captures].
  destruct (Str.stripPrefix "@" s) as [s1|] eqn:H1; [|discriminate].
  apply StrFacts.stripPrefix_sound in H1 as ->.
  destruct (plus _ _ "" s1) as [caps|] eqn:H2; [|discriminate].
  intros H; injection H as <-.
  apply RegExpFacts.plus_sound in H2 as (h & rest & caps' & -> & Hh & Hhall & Hk & ->).
  cbn [captures] in Hk.
  destruct (Str.stripPrefix "/" rest) as [s2|] eqn:H3; [|discriminate].
  apply StrFacts.stripPrefix_sound in H3 as ->.
  apply RegExpFacts.plus_sound in Hk as (d & rest' & caps'' & -> & Hd & Hdall & Hk & ->).
  apply captures_end_inv in Hk as [-> ->].
  apply every_noneOf_two in Hhall, Hdall.
  cbn. rewrite StrFacts.append_nil_r.
  repeat split; tauto.
Qed.

(** Whatever [Urn.parse] accepts, [toString] of the result is the input. *)
Lemma Urn_parse_sound (s : string) (u : Urn.t) :
  Urn.parse s = Ok u ->
  s = "urn:" ++ Urn.nid u ++ ":" ++ Urn.nss u /\
  Urn.nid u <> "" /\ Str.includes (Urn.nid u) ":" = false /\
  Urn.nss u <> "" /\ Urn.toString u = s.
Proof.
  unfold Urn.parse, match_, Urn.URN_PATTERN, Urn.PREFIX, Urn.SEPARATOR.
  cbn [captures].
  destruct (Str.stripPrefix "urn:" s) as [s1|] eqn:H1; [|discriminate].
  apply StrFacts.stripPrefix_sound in H1 as ->.
  destruct (plus _ _ "" s1) as [caps|] eqn:H2; [|discriminate].
  intros H; injection H as <-.
  apply RegExpFacts.plus_sound in H2 as (nid & rest & caps' & -> & Hn & Hnall & Hk & ->).
  cbn [captures] in Hk.
  destruct (Str.stripPrefix ":" rest) as [s2|] eqn:H3; [|discriminate].
  apply StrFacts.stripPrefix_sound in H3 as ->.
  apply RegExpFacts.plus_sound in Hk as (nss & rest' & caps'' & -> & Hs & Hsall & Hk & ->).
  apply captures_end_inv in Hk as [-> ->].
  apply every_noneOf_one in Hnall.
  cbn. rewrite StrFacts.append_nil_r.
  repeat split; assumption.
Qed.

End GrammarFacts.

(* ------------------------------------------------------------------ *)
(** *** Urn: parsing then formatting *)

(** C6, as stated, fails: [.] in [(.+)$] does not match a line terminator,
    so a namespace-specific string that contains a line feed is rejected
    although [nid] and [nss] are non-empty and [nid] has no [":"]. *)
Lemma Urn_parse_rejects_line_feed_in_nss :
  let nid := "a" in
  let nss := String "b" (String "010" "c") in
  nid <> "" /\ Str.includes nid ":" = false /\ nss <> "" /\
  Urn.parse ("urn:" ++ nid ++ ":" ++ nss)
  = Throw (mkExn InvalidUrn "Invalid URN").
Proof. cbv zeta. repeat split; try discriminate; reflexivity. Qed.

(** C6 (amended): for every non-empty [nid] without [":"] and every
    non-empty [nss] without a line terminator ([nss] may contain [":"]),
    [Urn.parse] accepts ["urn:" ++ nid ++ ":" ++ nss], returns these two
    components, and [toString] of the result is the input, character for
    character. *)
Theorem Urn_parse_toString_roundtrip (nid nss : string) :
  nid <> "" -> Str.includes nid ":" = false ->
  nss <> "" ->
  Str.every (fun c => negb (RegExp.isLineTerminator c)) nss = true ->
  exists u,
    Urn.parse ("urn:" ++ nid ++ ":" ++ nss) = Ok u /\
    Urn.nid u = nid /\ Urn.nss u = nss /\
    Urn.toString u = "urn:" ++ nid ++ ":" ++ nss.
Proof.
  intros Hnid Hcolon Hnss Hline.
  exists (Urn.new nid nss). split; [|repeat split].
  now apply GrammarFacts.Urn_parse_complete.
Qed.

Lemma Urn_parse_toString_roundtrip_witness :
  exists u,
    Urn.parse "urn:nid:nss1:nss2:nss3" = Ok u /\
    Urn.nid u = "nid" /\ Urn.nss u = "nss1:nss2:nss3" /\
    Urn.toString u = "urn:nid:nss1:nss2:nss3".
Proof.
  apply (Urn_parse_toString_roundtrip "nid" "nss1:nss2:nss3");
    first [discriminate | reflexivity].
Defined.

(* ------------------------------------------------------------------ *)
(** *** Dap: the accepted language *)

(** C7: [Dap.parse] accepts exactly the strings of the grammar
    [^@([^@/]+)/([^@/]+)$].  On a string of the grammar it returns the
    handle and the domain, and [toString] of the result is the input; on
    every other string it throws [InvalidDap] with the message
    ["Invalid DAP"]. *)
Theorem Dap_parse_accepts_exactly_the_grammar (s : string) :
  (forall h d, Dap.Grammar s h d ->
     Dap.parse s = Ok (Dap.new h d) /\ Dap.toString (Dap.new h d) = s) /\
  match Dap.parse s with
  | Ok r => Dap.Grammar s (Dap.handle r) (Dap.domain r) /\ Dap.toString r = s
  | Throw e =>
      e = mkExn InvalidDap "Invalid DAP" /\ forall h d, ~ Dap.Grammar s h d
  end.
Proof.
  split.
  - intros h d G. split; [now apply GrammarFacts.Dap_parse_complete|].
    now destruct G as (-> & _).
  - destruct (Dap.parse s) as [r|e] eqn:P.
    + pose proof (GrammarFacts.Dap_parse_sound _ _ P) as G. split; [exact G|].
      now destruct G as (-> & _).
    + split.
      * unfold Dap.parse in P.
        destruct (RegExp.match_ s Dap.DAP_REGEX); [discriminate|].
        now injection P as <-.
      * intros h d G. apply GrammarFacts.Dap_parse_complete in G. congruence.
Qed.

Lemma Dap_parse_accepts_exactly_the_grammar_witness :
  Dap.parse "@handle/domain.com" = Ok (Dap.new "handle" "domain.com") /\
  Dap.toString (Dap.new "handle" "domain.com") = "@handle/domain.com".
Proof.
  apply (proj1 (Dap_parse_accepts_exactly_the_grammar "@handle/domain.com")).
  repeat split; first [discriminate | reflexivity].
Defined.

(** The identifiers the test suite lists as invalid are rejected. *)
Example Dap_parse_rejects_listed :
  forallb (fun s => throws (Dap.parse s) InvalidDap)
    [""; "a"; "@handle"; "@handle/"; "@handle@/domain.com";
     "@@handle/domain.com"; "@handle//domain.com"; "@handle/@domain.com";
     "@handle/domain.com@"; "@handle/domain.com/"; "handle@domain.com"]
  = true.
Proof. reflexivity. Qed.

Example Urn_parse_rejects_listed :
  forallb (fun s => throws (Urn.parse s) InvalidUrn)
    [""; "invalid:nid:nss"; "invalid::nss"; "invalid:nid:"; "invalid:nid";
     "invalid:"; "invalid::"]
  = true.
Proof. reflexivity. Qed.

(** The prefix alone, an empty namespace identifier, an empty or a missing
    namespace-specific string. *)
Example Urn_parse_rejects_empty_segments :
  forallb (fun s => throws (Urn.parse s) InvalidUrn)
    ["urn:"; "urn::nss"; "urn:nid:"; "urn:nid"]
  = true.
Proof. reflexivity. Qed.

(* ------------------------------------------------------------------ *)
(** *** Constructors do not validate *)

(** C10: the constructors of [Urn] and [Dap] accept any two strings, so the
    round trip is a property of parsed values only.  A [Urn] built with a
    [nid] that contains [":"] formats to a string that parses to other
    components, and a [Dap] built with a handle that contains ["/"] formats
    to a string that [Dap.parse] rejects. *)
Theorem constructors_do_not_validate :
  (exists nid nss u,
      Str.includes nid ":" = true /\
      Urn.parse (Urn.toString (Urn.new nid nss)) = Ok u /\
      Urn.nid u <> nid /\ Urn.nss u <> nss) /\
  (exists handle domain,
      Str.includes handle "/" = true /\
      Dap.parse (Dap.toString (Dap.new handle domain))
      = Throw (mkExn InvalidDap "Invalid DAP")).
Proof.
  split.
  - exists "a:b", "c", (Urn.new "a" "b:c").
    repeat split; first [reflexivity | discriminate].
  - exists "a/b", "c". split; reflexivity.
Qed.

(* ================================================================== *)
(** ** Positional notation *)

Module RadixFacts.
Import Radix.
Local Open Scope N_scope.

Lemma ofDigits_snoc (b : N) (ds : list N) (d : N) :
  ofDigits b (ds ++ [d]) = ofDigits b ds * b + d.
Proof. unfold ofDigits. now rewrite fold_left_app. Qed.

Lemma length_toDigits (b : N) (len : nat) (n : N) :
  length (toDigits b len n) = len.
Proof.
  revert n; induction len as [|len IH]; intros n; simpl; [reflexivity|].
  rewrite length_app, IH. simpl. lia.
Qed.

Lemma toDigits_bound (b : N) (len : nat) (n : N) :
  b <> 0 -> Forall (fun d => d < b) (toDigits b len n).
Proof.
  intros Hb. revert n; induction len as [|len IH]; intros n; simpl.
  - constructor.
  - apply Forall_app. split; [apply IH|].
    constructor; [|constructor]. now apply N.mod_upper_bound.
Qed.

(** Reading back the digits of [n] gives [n] up to the [len] digits kept. *)
Lemma ofDigits_toDigits (b : N) (len : nat) (n : N) :
  ofDigits b (toDigits b len n) = n mod b ^ N.of_nat len.
Proof.
  revert n; induction len as [|len IH]; intros n.
  - simpl. now rewrite N.mod_1_r.
  - cbn [toDigits]. rewrite ofDigits_snoc, IH.
    rewrite Nat2N.inj_succ, N.pow_succ_r', N.Div0.mod_mul_r. lia.
Qed.

Lemma ofDigits_lt (b : N) (ds : list N) :
  Forall (fun d => d < b) ds -> ofDigits b ds < b ^ N.of_nat (length ds).
Proof.
  induction ds as [|d ds IH] using rev_ind; intros H.
  - unfold ofDigits. cbn [fold_left length N.of_nat]. rewrite N.pow_0_r. lia.
  - apply Forall_app in H as [Hds Hd]. inversion Hd as [|? ? Hlt _]; subst.
    rewrite ofDigits_snoc, length_app. simpl length.
    rewrite Nat.add_1_r, Nat2N.inj_succ, N.pow_succ_r'.
    specialize (IH Hds). nia.
Qed.

(** Writing the number a digit sequence denotes gives the sequence back. *)
Lemma toDigits_ofDigits (b : N) (ds : list N) :
  Forall (fun d => d < b) ds ->
  toDigits b (length ds) (ofDigits b ds) = ds.
Proof.
  induction ds as [|d ds IH] using rev_ind; intros H; [reflexivity|].
  apply Forall_app in H as [Hds Hd]. inversion Hd as [|? ? Hlt _]; subst.
  rewrite length_app. simpl length. rewrite Nat.add_1_r. cbn [toDigits].
  rewrite ofDigits_snoc.
  assert (Hb : b <> 0) by lia.
  assert (E1 : (ofDigits b ds * b + d) / b = ofDigits b ds).
  { rewrite N.div_add_l, (N.div_small d b) by assumption. lia. }
  assert (E2 : (ofDigits b ds * b + d) mod b = d).
  { rewrite N.add_comm, N.Div0.mod_add. now apply N.mod_small. }
  now rewrite E1, E2, IH.
Qed.

Lemma to_N_byteOfN (n : N) : Byte.to_N (byteOfN n) = n mod 256.
Proof.
  unfold byteOfN.
  destruct (Byte.of_N (n mod 256)) as [x|] eqn:E.
  - now apply Byte.to_of_N.
  - apply Byte.of_N_None_iff in E.
    pose proof (N.mod_upper_bound n 256). lia.
Qed.

Lemma byteOfN_to_N (x : byte) : byteOfN (Byte.to_N x) = x.
Proof.
  unfold byteOfN.
  rewrite N.mod_small by (pose proof (Byte.to_N_bounded x); lia).
  now rewrite Byte.of_to_N.
Qed.

Lemma to_N_lt (x : byte) : Byte.to_N x < 256.
Proof. pose proof (Byte.to_N_bounded x). lia. Qed.

Lemma bytes_of_values (bytes : list byte) :
  map byteOfN (map Byte.to_N bytes) = bytes.
Proof.
  induction bytes as [|x l IH]; simpl; [reflexivity|].
  now rewrite byteOfN_to_N, IH.
Qed.

Lemma values_of_bytes (ds : list N) :
  Forall (fun d => d < 256) ds -> map Byte.to_N (map byteOfN ds) = ds.
Proof.
  induction 1 as [|d l Hd _ IH]; simpl; [reflexivity|].
  now rewrite to_N_byteOfN, N.mod_small, IH.
Qed.

Lemma values_bound (bytes : list byte) :
  Forall (fun d => d < 256) (map Byte.to_N bytes).
Proof.
  induction bytes as [|x l IH]; simpl; constructor; [apply to_N_lt | exact IH].
Qed.

(** ** Hexadecimal text *)

Lemma hexChar_in (d : N) : In (hexChar d) hexAlphabet.
Proof.
  unfold hexChar.
  destruct (Nat.lt_ge_cases (N.to_nat d) (length hexAlphabet)) as [H|H].
  - now apply nth_In.
  - rewrite nth_overflow by exact H. now left.
Qed.

Lemma hexChar_all (P : ascii -> Prop) (d : N) :
  Forall P hexAlphabet -> P (hexChar d).
Proof. intros H. eapply Forall_forall; [exact H | apply hexChar_in]. Qed.

Lemma digitValue_hexChar (d : N) : d < 16 -> digitValue (hexChar d) = Some d.
Proof.
  intros H. rewrite <- (N2Nat.id d) at 2. unfold hexChar.
  assert (Hn : (N.to_nat d < 16)%nat) by lia.
  revert Hn. generalize (N.to_nat d) as n. intros n Hn.
  do 16 (destruct n as [|n]; [reflexivity|]). lia.
Qed.

Lemma hexChar_plain (d : N) :
  isWhiteSpace (hexChar d) = false /\
  (hexChar d =? "-")%char = false /\
  (hexChar d =? "+")%char = false /\
  (hexChar d =? "x")%char = false /\
  (hexChar d =? "X")%char = false.
Proof.
  apply (hexChar_all (fun c =>
    isWhiteSpace c = false /\ (c =? "-")%char = false /\
    (c =? "+")%char = false /\ (c =? "x")%char = false /\
    (c =? "X")%char = false)).
  repeat constructor.
Qed.

(** Reading hexadecimal text two digits at a time is reading bytes. *)
Lemma parseDigits_hex (bytes : list byte) (a : N) :
  parseDigits 16 (hex bytes) (Some a)
  = Some (fold_left (fun acc d => acc * 256 + d) (map Byte.to_N bytes) a).
Proof.
  revert a; induction bytes as [|x l IH]; intros a; [reflexivity|].
  cbn [hex parseDigits map fold_left].
  pose proof (to_N_lt x) as Hx.
  assert (Hhi : Byte.to_N x / 16 < 16)
    by (apply N.Div0.div_lt_upper_bound; lia).
  assert (Hlo : Byte.to_N x mod 16 < 16) by (apply N.mod_upper_bound; lia).
  rewrite !digitValue_hexChar by assumption.
  apply N.ltb_lt in Hhi as Hhi', Hlo as Hlo'. rewrite Hhi', Hlo'.
  rewrite IH. f_equal. f_equal.
  pose proof (N.Div0.div_mod (Byte.to_N x) 16). lia.
Qed.

Lemma parseDigits_hex_start (x : byte) (bytes : list byte) :
  parseDigits 16 (hex (x :: bytes)) None
  = Some (ofDigits 256 (map Byte.to_N (x :: bytes))).
Proof.
  cbn [hex parseDigits].
  pose proof (to_N_lt x) as Hx.
  assert (Hhi : Byte.to_N x / 16 < 16)
    by (apply N.Div0.div_lt_upper_bound; lia).
  assert (Hlo : Byte.to_N x mod 16 < 16) by (apply N.mod_upper_bound; lia).
  rewrite !digitValue_hexChar by assumption.
  apply N.ltb_lt in Hhi as Hhi', Hlo as Hlo'. rewrite Hhi', Hlo'.
  rewrite parseDigits_hex. unfold ofDigits. cbn [map fold_left].
  f_equal. f_equal.
  pose proof (N.Div0.div_mod (Byte.to_N x) 16). lia.
Qed.

(** [parseInt] of the hexadecimal text of a byte sequence is the number the
    bytes denote, most significant byte first. *)
Lemma parseInt16_hex (x : byte) (bytes : list byte) :
  parseInt16 (hex (x :: bytes))
  = Num (Z.of_N (ofDigits 256 (map Byte.to_N (x :: bytes)))).
Proof.
  unfold parseInt16.
  pose proof (parseDigits_hex_start x bytes) as H.
  cbn [hex trimStart] in *.
  destruct (hexChar_plain (Byte.to_N x / 16)) as (-> & -> & -> & _).
  destruct (hexChar_plain (Byte.to_N x mod 16)) as (_ & _ & _ & -> & ->).
  rewrite andb_false_r. now rewrite H.
Qed.

End RadixFacts.

(* ================================================================== *)
(** ** TypeID: the encoding and its inverse *)

Module TypeIDFacts.
Import TypeID.
Local Open Scope N_scope.

Lemma length_string_of_list_ascii (l : list ascii) :
  String.length (string_of_list_ascii l) = length l.
Proof. induction l as [|a l IH]; simpl; [reflexivity | now rewrite IH]. Qed.

Lemma charDigit_digitChar (d : N) : d < 32 -> charDigit (digitChar d) = Some d.
Proof.
  intros H. rewrite <- (N2Nat.id d) at 2. unfold digitChar.
  assert (Hn : (N.to_nat d < 32)%nat) by lia.
  revert Hn. generalize (N.to_nat d) as n. intros n Hn.
  do 32 (destruct n as [|n]; [reflexivity|]). lia.
Qed.

Lemma mapM_charDigit (ds : list N) :
  Forall (fun d => d < 32) ds -> mapM charDigit (map digitChar ds) = Some ds.
Proof.
  induction 1 as [|d l Hd _ IH]; simpl; [reflexivity|].
  now rewrite charDigit_digitChar, IH.
Qed.

Lemma length_encode (bytes : list byte) :
  String.length (encode bytes) = 26%nat.
Proof.
  unfold encode.
  now rewrite length_string_of_list_ascii, length_map,
    RadixFacts.length_toDigits.
Qed.

(** Sixteen bytes survive encoding and decoding. *)
Lemma suffix_decode_encode (bytes : list byte) :
  length bytes = 16%nat -> decode (encode bytes) = Some bytes.
Proof.
  intros Hlen. unfold decode. rewrite length_encode. cbn [Nat.eqb negb].
  unfold encode. rewrite list_ascii_of_string_of_list_ascii.
  rewrite mapM_charDigit by (apply RadixFacts.toDigits_bound; lia).
  rewrite RadixFacts.ofDigits_toDigits.
  pose proof (RadixFacts.ofDigits_lt 256 (map Byte.to_N bytes)
                (RadixFacts.values_bound bytes)) as Hlt.
  rewrite length_map, Hlen in Hlt.
  change (256 ^ N.of_nat 16) with (2 ^ 128) in Hlt.
  rewrite N.mod_small
    by (change (32 ^ N.of_nat 26) with (4 * 2 ^ 128); lia).
  apply N.ltb_lt in Hlt as Hlt'. rewrite Hlt'.
  rewrite <- (length_map Byte.to_N) in Hlen. rewrite <- Hlen.
  rewrite RadixFacts.toDigits_ofDigits by apply RadixFacts.values_bound.
  now rewrite RadixFacts.bytes_of_values.
Qed.

Lemma length_pad {A : Type} (n : nat) (d : A) (l : list A) :
  length (pad n d l) = n.
Proof.
  revert l; induction n as [|n IH]; intros l; [reflexivity|].
  destruct l; simpl; now rewrite IH.
Qed.

Lemma length_uuidBytes (now : N) (random : list byte) :
  length (uuidBytes now random) = 16%nat.
Proof.
  unfold uuidBytes.
  now rewrite length_app, length_map, RadixFacts.length_toDigits, length_pad.
Qed.

Lemma toUUID_typeid (p : string) (now : N) (random : list byte) :
  toUUID (typeid p now random) = Ok (stringify (uuidBytes now random)).
Proof.
  unfold toUUID, typeid. cbn [suffix].
  now rewrite suffix_decode_encode by apply length_uuidBytes.
Qed.

(** The first 13 characters of the UUID text, without the dash, read in
    base 16: the number the first six bytes denote. *)
Lemma timestamp_of_stringify (ts rest : list byte) :
  length ts = 6%nat ->
  Radix.parseInt16 (Str.removeFirst "-" (Str.take 13 (stringify (ts ++ rest))))
  = Num (Z.of_N (Radix.ofDigits 256 (map Byte.to_N ts))).
Proof.
  intros Hlen.
  do 6 (destruct ts as [|? ts]; [discriminate|]).
  destruct ts; [|discriminate]. clear Hlen.
  unfold stringify.
  cbn [app firstn skipn Radix.hex String.append Str.take Str.removeFirst].
  repeat match goal with
         | |- context [(Radix.hexChar ?d =? "-")%char] =>
             rewrite (proj1 (proj2 (RadixFacts.hexChar_plain d)))
         end.
  change ("-" =? "-")%char with true. cbv iota.
  apply (RadixFacts.parseInt16_hex b [b0; b1; b2; b3; b4]).
Qed.

(** ** Splitting an identifier at its last separator *)

Lemma splitLast_none (sep : ascii) (x : string) :
  Str.includes x sep = false -> splitLast sep x = None.
Proof.
  induction x as [|c x IH]; simpl; [reflexivity|].
  intros H. apply orb_false_iff in H as [Hc Hx].
  now rewrite (IH Hx), Hc.
Qed.

Lemma splitLast_app (sep : ascii) (p x : string) :
  Str.includes x sep = false ->
  splitLast sep (p ++ String sep x) = Some (p, x).
Proof.
  intros Hx. induction p as [|c p IH]; simpl.
  - now rewrite (splitLast_none _ _ Hx), Ascii.eqb_refl.
  - now rewrite IH.
Qed.

Lemma parts_with_prefix (p x : string) :
  Str.includes x "_" = false -> parts (p ++ "_" ++ x) = (p, x).
Proof.
  intros Hx. unfold parts.
  change ("_" ++ x)%string with (String "_" x).
  now rewrite splitLast_app.
Qed.

Lemma parts_without_prefix (x : string) :
  Str.includes x "_" = false -> parts x = (EmptyString, x).
Proof. intros Hx. unfold parts. now rewrite splitLast_none. Qed.

Lemma mapM_charDigit_no_underscore (l : list ascii) ds :
  mapM charDigit l = Some ds ->
  Str.includes (string_of_list_ascii l) "_" = false.
Proof.
  revert ds; induction l as [|c l IH]; intros ds H; [reflexivity|].
  simpl in *.
  destruct (charDigit c) as [d|] eqn:Hc; [|discriminate].
  destruct (mapM charDigit l) as [r|]; [|discriminate].
  rewrite (IH r eq_refl), orb_false_r.
  destruct (Ascii.eqb_spec c "_") as [->|]; [discriminate Hc | reflexivity].
Qed.

(** A string that decodes has no separator in it. *)
Lemma decode_no_underscore (x : string) :
  decode x <> None -> Str.includes x "_" = false.
Proof.
  unfold decode. intros H.
  destruct (negb (String.length x =? 26)%nat); [congruence|].
  destruct (mapM charDigit (list_ascii_of_string x)) as [ds|] eqn:E;
    [|congruence].
  apply mapM_charDigit_no_underscore in E.
  now rewrite string_of_list_ascii_of_string in E.
Qed.

Lemma decode_length (x : string) :
  decode x <> None -> String.length x = 26%nat.
Proof.
  unfold decode. intros H.
  destruct (Nat.eqb_spec (String.length x) 26); [assumption|].
  cbn in H. congruence.
Qed.

End TypeIDFacts.

Module RegistrationIdFacts.
Import TypeID.

Lemma splitLast_sound (sep : ascii) (s p q : string) :
  splitLast sep s = Some (p, q) -> s = (p ++ String sep q)%string.
Proof.
  revert p; induction s as [|c s IH]; intros p H; simpl in H; [discriminate|].
  destruct (splitLast sep s) as [[p' q']|].
  - injection H as <- <-. simpl. now rewrite (IH p' eq_refl).
  - destruct (Ascii.eqb_spec c sep) as [->|]; [|discriminate].
    now injection H as <- <-.
Qed.




Lemma decode_bytes (q : string) (bytes : list byte) :
  decode q = Some bytes -> length bytes = 16%nat.
Proof.
  unfold decode.
  destruct (negb (String.length q =? 26)%nat); [discriminate|].
  destruct (mapM charDigit (list_ascii_of_string q)) as [ds|]; [|discriminate].
  cbv zeta.
  destruct (Radix.ofDigits 32 ds <? 2 ^ 128)%N; [|discriminate].
  intros H.
  replace bytes
    with (map Radix.byteOfN (Radix.toDigits 256 16 (Radix.ofDigits 32 ds)))
    by congruence.
  now rewrite length_map, RadixFacts.length_toDigits.
Qed.

Lemma ofDigits_cons (b d : N) (ds : list N) :
  Radix.ofDigits b (d :: ds)
  = (d * b ^ N.of_nat (length ds) + Radix.ofDigits b ds)%N.
Proof.
  induction ds as [|x ds IH] using rev_ind.
  - unfold Radix.ofDigits. cbn. lia.
  - rewrite app_comm_cons.
    rewrite !RadixFacts.ofDigits_snoc, IH, length_app. simpl length.
    rewrite Nat.add_1_r, Nat2N.inj_succ, N.pow_succ_r'. lia.
Qed.

Lemma indexOf_nth (c : ascii) (l : list ascii) (d : N) :
  indexOf c l = Some d -> nth (N.to_nat d) l "0"%char = c.
Proof.
  revert d; induction l as [|a l IH]; intros d H; simpl in H; [discriminate|].
  destruct (Ascii.eqb_spec a c) as [->|].
  - injection H as <-. reflexivity.
  - destruct (indexOf c l) as [d'|]; [|discriminate].
    injection H as <-. rewrite N2Nat.inj_succ. simpl. now apply IH.
Qed.

Lemma mapM_length {A B : Type} (f : A -> option B) (l : list A) (r : list B) :
  mapM f l = Some r -> length r = length l.
Proof.
  revert r; induction l as [|a l IH]; intros r H; simpl in H.
  - now injection H as <-.
  - destruct (f a); [|discriminate].
    destruct (mapM f l) as [r'|]; [|discriminate].
    injection H as <-. simpl. now rewrite (IH r').
Qed.

(** An encoding of at most 128 bits starts with one of ["0"] to ["7"]. *)
Lemma decode_firstAbove7 (q : string) :
  decode q <> None -> firstAbove7 q = false.
Proof.
  unfold decode. intros H.
  destruct (Nat.eqb_spec (String.length q) 26) as [Hlen|]; [|now cbn in H].
  cbn [negb] in H.
  destruct (mapM charDigit (list_ascii_of_string q)) as [ds|] eqn:E;
    [|congruence].
  cbv zeta in H.
  destruct (N.ltb_spec (Radix.ofDigits 32 ds) (2 ^ 128)) as [Hn|];
    [|congruence].
  clear H. destruct q as [|c q]; [reflexivity|].
  pose proof (mapM_length _ _ _ E) as Hds.
  cbn [list_ascii_of_string mapM] in E.
  destruct (charDigit c) as [d|] eqn:Hc; [|discriminate].
  destruct (mapM charDigit (list_ascii_of_string q)) as [r|]; [|discriminate].
  injection E as <-.
  rewrite ofDigits_cons in Hn.
  assert (Hr : length r = 25%nat).
  { assert (Hq : length (list_ascii_of_string q) = String.length q).
    { rewrite <- TypeIDFacts.length_string_of_list_ascii.
      now rewrite string_of_list_ascii_of_string. }
    cbn [length list_ascii_of_string] in Hds.
    cbn [String.length] in Hlen. lia. }
  rewrite Hr in Hn. change (32 ^ N.of_nat 25)%N with (2 ^ 125)%N in Hn.
  assert (Hd : (d < 8)%N).
  { change (2 ^ 128)%N with (8 * 2 ^ 125)%N in Hn.
    assert (0 < 2 ^ 125)%N by (apply N.neq_0_lt_0; now apply N.pow_nonzero).
    nia. }
  apply indexOf_nth in Hc. subst c.
  assert (Hn8 : (N.to_nat d < 8)%nat) by lia.
  revert Hn8. generalize (N.to_nat d) as n. intros n Hn8.
  do 8 (destruct n as [|n]; [reflexivity|]). lia.
Qed.



Lemma construct_Ok_inv (p s : string) (id : t) :
  construct p s = Ok id -> id = mk p s /\ decode s <> None.
Proof.
  unfold construct.
  destruct (negb (isValidPrefix p)); [discriminate|].
  destruct (negb (String.length s =? 26)%nat); [discriminate|].
  destruct (firstAbove7 s); [discriminate|].
  destruct (decode s); [|discriminate].
  intros H; injection H as <-. split; [reflexivity | discriminate].
Qed.

Lemma construct_decodable (p s : string) :
  isValidPrefix p = true -> decode s <> None -> construct p s = Ok (mk p s).
Proof.
  intros Hp Hs. unfold construct. rewrite Hp. cbn [negb].
  rewrite (TypeIDFacts.decode_length s Hs). cbn [Nat.eqb negb].
  rewrite (decode_firstAbove7 s Hs).
  destruct (decode s); [reflexivity | congruence].
Qed.

Lemma decodable_not_empty (s : string) : decode s <> None -> s <> "".
Proof.
  intros H ->. now apply TypeIDFacts.decode_length in H.
Qed.

(** [fromString] on a prefix, the separator and a well-formed encoding. *)
Lemma fromString_decodable (p s : string) :
  p <> "" -> isValidPrefix p = true -> decode s <> None ->
  fromString (p ++ "_" ++ s) = Ok (mk p s).
Proof.
  intros Hne Hp Hs. unfold fromString.
  change ("_" ++ s)%string with (String "_" s).
  rewrite (TypeIDFacts.splitLast_app "_" p s)
    by now apply TypeIDFacts.decode_no_underscore.
  apply String.eqb_neq in Hne. rewrite Hne.
  pose proof (decodable_not_empty s Hs) as Hs0.
  apply String.eqb_neq in Hs0. rewrite Hs0.
  now apply construct_decodable.
Qed.

(** What a successful [parse] has read. *)
Lemma parse_Ok_inv (s : string) (id : RegistrationId.t) :
  RegistrationId.parse s = Ok id ->
  exists q, s = ("reg_" ++ q)%string /\
            id = RegistrationId.new (mk "reg" q) /\
            decode q <> None.
Proof.
  unfold RegistrationId.parse, RegistrationId.parse_try, fromString.
  destruct (splitLast "_" s) as [[p q]|] eqn:E.
  - apply splitLast_sound in E as ->.
    destruct (p =? "")%string; [discriminate|].
    destruct (q =? "")%string; [discriminate|].
    destruct (construct p q) as [parsed|] eqn:C; [|discriminate].
    apply construct_Ok_inv in C as [-> Hq].
    cbn [bind getType prefix].
    destruct (String.eqb_spec p "reg") as [->|]; [|discriminate].
    intros H; injection H as <-.
    exists q. now repeat split.
  - destruct (s =? "")%string; [discriminate|].
    destruct (construct "" s) as [parsed|] eqn:C; [|discriminate].
    apply construct_Ok_inv in C as [-> _]. discriminate.
Qed.

End RegistrationIdFacts.

(* ================================================================== *)
(** ** RegistrationId *)




(** The two rejections of the test suite. *)
Example RegistrationId_parse_listed :
  RegistrationId.parse "reg_1234567890abcdef"
  = Throw (mkExn InvalidRegistrationId
             "Invalid length. Suffix should have 26 characters, got 16") /\
  RegistrationId.parse "1234567890abcdef1234567890" = Throw RegistrationId.prefixCause.
Proof. split; reflexivity. Qed.

(** C9: an identifier created when the clock reads [now], below 2^48
    milliseconds, has [extractTimestamp() = now], whatever the random bits;
    so two identifiers created one millisecond apart have timestamps that
    differ by exactly 1. *)
Theorem RegistrationId_extractTimestamp_create
        (now : N) (random random' : list byte) :
  (now < 2 ^ 48)%N ->
  RegistrationId.extractTimestamp (RegistrationId.create now random)
  = Ok (Num (Z.of_N now)) /\
  ((now + 1 < 2 ^ 48)%N ->
   exists t1 t2,
     RegistrationId.extractTimestamp (RegistrationId.create now random)
     = Ok (Num t1) /\
     RegistrationId.extractTimestamp (RegistrationId.create (now + 1) random')
     = Ok (Num t2) /\
     (t2 - t1 = 1)%Z).
Proof.
  assert (E : forall n r, (n < 2 ^ 48)%N ->
    RegistrationId.extractTimestamp (RegistrationId.create n r)
    = Ok (Num (Z.of_N n))).
  { intros n r Hn.
    unfold RegistrationId.extractTimestamp, RegistrationId.create.
    cbn [RegistrationId.value].
    rewrite TypeIDFacts.toUUID_typeid. cbn [bind]. unfold TypeID.uuidBytes.
    rewrite TypeIDFacts.timestamp_of_stringify
      by now rewrite length_map, RadixFacts.length_toDigits.
    rewrite RadixFacts.values_of_bytes
      by (apply RadixFacts.toDigits_bound; discriminate).
    rewrite RadixFacts.ofDigits_toDigits.
    change (256 ^ N.of_nat 6)%N with (2 ^ 48)%N.
    now rewrite N.mod_small. }
  intros Hnow. split; [now apply E|].
  intros Hnext. exists (Z.of_N now), (Z.of_N (now + 1)).
  repeat split; [now apply E | now apply E | lia].
Qed.

Lemma RegistrationId_extractTimestamp_create_witness :
  RegistrationId.extractTimestamp (RegistrationId.create 1626307200000 [x2a])
  = Ok (Num 1626307200000) /\
  exists t1 t2,
    RegistrationId.extractTimestamp (RegistrationId.create 1626307200000 [x2a])
    = Ok (Num t1) /\
    RegistrationId.extractTimestamp
      (RegistrationId.create (1626307200000 + 1) [x07])
    = Ok (Num t2) /\
    (t2 - t1 = 1)%Z.
Proof.
  destruct (RegistrationId_extractTimestamp_create
              1626307200000 [x2a] [x07] eq_refl) as [H1 H2].
  split; [exact H1 | exact (H2 eq_refl)].
Defined.

(* ================================================================== *)
(** ** Base64url: decoding an encoding *)

Module Base64UrlFacts.
Import Base64Url.
Local Open Scope N_scope.

Lemma list_ind3 {A : Type} (P : list A -> Prop) :
  P [] -> (forall a, P [a]) -> (forall a b, P [a; b]) ->
  (forall a b c l, P l -> P (a :: b :: c :: l)) ->
  forall l, P l.
Proof.
  intros H0 H1 H2 H3.
  fix IH 1. intros [|a [|b [|c l]]];
    [exact H0 | apply H1 | apply H2 | apply H3; apply IH].
Qed.

Lemma byteOfN_eq (n : N) (y : byte) :
  n mod 256 = Byte.to_N y -> Radix.byteOfN n = y.
Proof.
  intros H. unfold Radix.byteOfN. rewrite H. now rewrite Byte.of_to_N.
Qed.

Lemma div_4096 (n : N) : n / 4096 = n / 64 / 64.
Proof. now rewrite N.Div0.div_div. Qed.

Lemma div_262144 (n : N) : n / 262144 = n / 64 / 64 / 64.
Proof. now rewrite !N.Div0.div_div. Qed.

Lemma sextets_bound (bytes : list byte) :
  Forall (fun d => d < 64) (sextets bytes).
Proof.
  induction bytes as [|a|a b|a b c l IH] using list_ind3; cbn [sextets].
  - constructor.
  - pose proof (RadixFacts.to_N_lt a).
    repeat constructor.
    + apply N.Div0.div_lt_upper_bound. lia.
    + apply N.mod_upper_bound. lia.
  - pose proof (RadixFacts.to_N_lt a). pose proof (RadixFacts.to_N_lt b).
    repeat constructor; try (apply N.mod_upper_bound; lia).
    apply N.Div0.div_lt_upper_bound. lia.
  - pose proof (RadixFacts.to_N_lt a). pose proof (RadixFacts.to_N_lt b).
    pose proof (RadixFacts.to_N_lt c).
    repeat (constructor; [first [apply N.mod_upper_bound; lia
                                | apply N.Div0.div_lt_upper_bound; lia]|]).
    exact IH.
Qed.

(** The bytes are recovered from their 6-bit groups. *)
Lemma decodeSextets_sextets (bytes : list byte) :
  decodeSextets (sextets bytes) = Some bytes.
Proof.
  induction bytes as [|a|a b|a b c l IH] using list_ind3.
  - reflexivity.
  - cbn [sextets decodeSextets].
    pose proof (RadixFacts.to_N_lt a) as Ha.
    set (n := Byte.to_N a * 16).
    assert (E : n / 64 * 64 + n mod 64 = n)
      by (pose proof (N.Div0.div_mod n 64); lia).
    rewrite E.
    assert (E0 : n mod 16 = 0)
      by (subst n; now rewrite N.Div0.mod_mul).
    rewrite E0. cbn [N.eqb].
    rewrite (byteOfN_eq (n / 16) a); [reflexivity|].
    subst n. rewrite N.div_mul by discriminate.
    apply N.mod_small, Ha.
  - cbn [sextets decodeSextets].
    pose proof (RadixFacts.to_N_lt a) as Ha.
    pose proof (RadixFacts.to_N_lt b) as Hb.
    set (n := (Byte.to_N a * 256 + Byte.to_N b) * 4).
    assert (E : (n / 4096 * 64 + n / 64 mod 64) * 64 + n mod 64 = n).
    { rewrite div_4096.
      pose proof (N.Div0.div_mod n 64). pose proof (N.Div0.div_mod (n / 64) 64).
      lia. }
    rewrite E.
    assert (E0 : n mod 4 = 0)
      by (subst n; now rewrite N.Div0.mod_mul).
    rewrite E0. cbn [N.eqb].
    rewrite (byteOfN_eq (n / 1024) a), (byteOfN_eq (n / 4) b); [reflexivity| |].
    + subst n. rewrite N.div_mul by discriminate.
      rewrite N.add_comm, N.Div0.mod_add. apply N.mod_small, Hb.
    + subst n.
      replace 1024 with (4 * 256) by reflexivity.
      rewrite <- N.Div0.div_div, N.div_mul by discriminate.
      rewrite N.div_add_l, (N.div_small _ 256 Hb), N.add_0_r by discriminate.
      apply N.mod_small, Ha.
  - cbn [sextets decodeSextets]. rewrite IH.
    pose proof (RadixFacts.to_N_lt a) as Ha.
    pose proof (RadixFacts.to_N_lt b) as Hb.
    pose proof (RadixFacts.to_N_lt c) as Hc.
    set (n := Byte.to_N a * 65536 + Byte.to_N b * 256 + Byte.to_N c).
    assert (E : ((n / 262144 * 64 + n / 4096 mod 64) * 64 + n / 64 mod 64) * 64
                + n mod 64 = n).
    { rewrite div_4096, div_262144.
      pose proof (N.Div0.div_mod n 64). pose proof (N.Div0.div_mod (n / 64) 64).
      pose proof (N.Div0.div_mod (n / 64 / 64) 64). lia. }
    rewrite E.
    rewrite (byteOfN_eq (n / 65536) a), (byteOfN_eq (n / 256) b),
      (byteOfN_eq n c); [reflexivity| | |].
    + subst n. rewrite N.add_comm.
      replace (Byte.to_N a * 65536 + Byte.to_N b * 256)
        with (256 * (Byte.to_N a * 256 + Byte.to_N b)) by lia.
      rewrite N.mul_comm, N.Div0.mod_add. apply N.mod_small, Hc.
    + subst n.
      replace (Byte.to_N a * 65536 + Byte.to_N b * 256 + Byte.to_N c)
        with ((Byte.to_N a * 256 + Byte.to_N b) * 256 + Byte.to_N c) by lia.
      rewrite N.div_add_l, (N.div_small _ 256 Hc), N.add_0_r by discriminate.
      rewrite N.add_comm, N.Div0.mod_add. apply N.mod_small, Hb.
    + subst n.
      replace (Byte.to_N a * 65536 + Byte.to_N b * 256 + Byte.to_N c)
        with (Byte.to_N a * 65536 + (Byte.to_N b * 256 + Byte.to_N c)) by lia.
      rewrite N.div_add_l by discriminate.
      rewrite (N.div_small (Byte.to_N b * 256 + Byte.to_N c) 65536) by lia.
      rewrite N.add_0_r. apply N.mod_small, Ha.
Qed.

Lemma charSextet_sextetChar (d : N) : d < 64 -> charSextet (sextetChar d) = Some d.
Proof.
  intros H. rewrite <- (N2Nat.id d) at 2. unfold sextetChar.
  assert (Hn : (N.to_nat d < 64)%nat) by lia.
  revert Hn. generalize (N.to_nat d) as n. intros n Hn.
  do 64 (destruct n as [|n]; [reflexivity|]). lia.
Qed.

Lemma mapM_charSextet (ds : list N) :
  Forall (fun d => d < 64) ds ->
  TypeID.mapM charSextet (map sextetChar ds) = Some ds.
Proof.
  induction 1 as [|d l Hd _ IH]; simpl; [reflexivity|].
  now rewrite charSextet_sextetChar, IH.
Qed.

(** [Convert.base64Url(Convert.uint8Array(bytes).toBase64Url()).toUint8Array()]
    is [bytes]. *)
Lemma sextetChar_in (d : N) : In (sextetChar d) alphabet.
Proof.
  unfold sextetChar.
  destruct (Nat.lt_ge_cases (N.to_nat d) (length alphabet)) as [H|H].
  - now apply nth_In.
  - rewrite nth_overflow by exact H. now left.
Qed.

(** The encoding has no ["."]: it can be a segment of a compact JWS. *)
Lemma encode_no_dot (bytes : list byte) : Str.includes (encode bytes) "." = false.
Proof.
  unfold encode. induction (sextets bytes) as [|d ds IH]; [reflexivity|].
  cbn [map string_of_list_ascii Str.includes]. rewrite IH, orb_false_r.
  assert (H : Forall (fun c => (c =? ".")%char = false) alphabet)
    by (repeat constructor).
  eapply Forall_forall in H; [exact H | apply sextetChar_in].
Qed.

(** The encoding is written without padding. *)
Lemma encode_no_padding (bytes : list byte) :
  Str.includes (encode bytes) "=" = false.
Proof.
  unfold encode. induction (sextets bytes) as [|d ds IH]; [reflexivity|].
  cbn [map string_of_list_ascii Str.includes]. rewrite IH, orb_false_r.
  assert (H : Forall (fun c => (c =? "=")%char = false) alphabet)
    by (repeat constructor).
  eapply Forall_forall in H; [exact H | apply sextetChar_in].
Qed.

Lemma stripPadding_no_padding (s : string) :
  Str.includes s "=" = false -> stripPadding s = s.
Proof.
  induction s as [|c s IH]; [reflexivity|].
  cbn [Str.includes stripPadding]. intros H.
  apply orb_false_iff in H as [Hc Hs]. rewrite (IH Hs), Hc.
  now destruct s.
Qed.

(** [Convert.base64Url(Convert.uint8Array(bytes).toBase64Url()).toUint8Array()]
    is [bytes]. *)
Lemma base64url_decode_encode (bytes : list byte) : decode (encode bytes) = Ok bytes.
Proof.
  unfold decode.
  rewrite stripPadding_no_padding by apply encode_no_padding.
  unfold encode. rewrite list_ascii_of_string_of_list_ascii.
  rewrite mapM_charSextet by apply sextets_bound.
  now rewrite decodeSextets_sextets.
Qed.

End Base64UrlFacts.

(* ================================================================== *)
(** ** Crypto: signing and verifying *)

Section CryptoFacts.
Context {P : Platform}.

(** The header [sign] writes, read back by [verify]. *)
Lemma header_properties (signer : Signer) :
  algorithm signer <> "" -> keyId signer <> "" ->
  Crypto.getProperty (Crypto.jwsHeaderOf signer) "alg"
  = Ok (Some (JString (algorithm signer))) /\
  Crypto.getProperty (Crypto.jwsHeaderOf signer) "kid"
  = Ok (Some (JString (keyId signer))) /\
  Crypto.nonEmptyString (Some (JString (algorithm signer)))
  = Some (algorithm signer) /\
  Crypto.nonEmptyString (Some (JString (keyId signer)))
  = Some (keyId signer).
Proof.
  intros Ha Hk. apply String.eqb_neq in Ha, Hk.
  repeat split; cbn; now rewrite ?Ha, ?Hk.
Qed.

(** Verifying a detached JWS [h..s] whose header decodes to the header of
    [signer], under a resolver that gives a public key for its key id. *)
Lemma verify_detached (signer : Signer) (key : Jwk)
      (payload sig : list byte) :
  let h := Crypto.objectToBase64Url (Crypto.jwsHeaderOf signer) in
  algorithm signer <> "" -> keyId signer <> "" ->
  base64UrlToObject h = Ok (Crypto.jwsHeaderOf signer) ->
  dereference (keyId signer) = VerificationMethod (Some key) ->
  isPublicJwk key = true ->
  Crypto.verify (JString (h ++ ".." ++ Base64Url.encode sig)) (Some payload)
  = (isValidSignature <-
       keyManagerVerify key
         (Utf8.encode (h ++ "." ++ Base64Url.encode payload)) sig ;;
     if negb isValidSignature
     then Throw (Crypto.InvalidJws_new (Some Crypto.msgIntegrity))
     else Ok (Str.before "#" (keyId signer))).
Proof.
  intros h Ha Hk Hobj Hres Hpub.
  destruct (header_properties signer Ha Hk) as (E1 & E2 & E3 & E4).
  unfold Crypto.verify.
  rewrite StrFacts.split_detached
    by (first [apply Base64UrlFacts.encode_no_dot]).
  cbn [length Nat.eqb negb nth String.length bind].
  rewrite Hobj. cbn [bind]. rewrite E1. cbn [bind]. rewrite E3, E2.
  cbn [bind]. rewrite E4, Hres, Hpub. cbn [negb].
  unfold Crypto.base64UrlToUint8Array.
  rewrite Base64UrlFacts.base64url_decode_encode. cbn [bind].
  now rewrite StrFacts.split_first.
Qed.

End CryptoFacts.

(* ------------------------------------------------------------------ *)
(** *** The failures of [verify] *)

(** Closes a branch of [verify] that throws [InvalidJws] with one of the
    listed messages. *)
Ltac invalid_jws :=
  let H := fresh in
  intros H; injection H as <-; left; split; [reflexivity | simpl; tauto].

(** Every failure of [verify] is one of: an [InvalidJws] with one of the
    eight messages; the plain [Error] for a verification method without a
    public key; the [TypeError] of reading [alg] of a [null] header; the
    failure of decoding the signature segment; a failure of the key
    manager. *)
Lemma Crypto_verify_failures (P : Platform) (jws : json)
      (detachedPayload : option (list byte)) (e : exn) :
  Crypto.verify jws detachedPayload = Throw e ->
  (name e = InvalidJws /\ In (message e) Crypto.invalidJwsCauses) \/
  e = mkExn Error Crypto.msgNoPublicKeyJwk \/
  name e = TypeError \/
  name e = SyntaxError \/
  (exists key data sig, keyManagerVerify key data sig = Throw e).
Proof.
  unfold Crypto.verify, Crypto.invalidJwsCauses.
  destruct jws as [| | |s| |];
    try invalid_jws.
  destruct (negb (length (Str.split "." s) =? 3)%nat).
  { invalid_jws. }
  set (payload0 := match detachedPayload with
                   | Some _ => _
                   | None => _
                   end).
  destruct payload0 as [payload|e0] eqn:E0; cbn [bind].
  2:{ intros H; injection H as <-. subst payload0.
      destruct detachedPayload; [|discriminate].
      destruct (negb _); [|discriminate].
      injection E0 as <-. left; split; [reflexivity|]; simpl; tauto. }
  destruct (base64UrlToObject _) as [header|]; cbn [bind].
  2:{ invalid_jws. }
  destruct (Crypto.getProperty header "alg") as [alg|e1] eqn:E1; cbn [bind].
  2:{ intros H; injection H as <-. right; right; left.
      destruct header; try discriminate. now injection E1 as <-. }
  destruct (Crypto.nonEmptyString alg).
  2:{ invalid_jws. }
  destruct (Crypto.getProperty header "kid") as [kid|e2] eqn:E2; cbn [bind].
  2:{ intros H; injection H as <-. right; right; left.
      destruct header; discriminate. }
  destruct (Crypto.nonEmptyString kid) as [kid'|].
  2:{ invalid_jws. }
  destruct (dereference kid') as [| |[key|]];
    try invalid_jws.
  2:{ intros H; injection H as <-. right; left; reflexivity. }
  destruct (negb (isPublicJwk key)).
  { intros H; injection H as <-. right; left; reflexivity. }
  unfold Crypto.base64UrlToUint8Array.
  destruct (Base64Url.decode _) as [sig|e4] eqn:E4; cbn [bind].
  2:{ intros H; injection H as <-. right; right; right; left.
      unfold Base64Url.decode in E4.
      destruct (TypeID.mapM _ _); [|now injection E4 as <-].
      destruct (Base64Url.decodeSextets _); [discriminate|].
      now injection E4 as <-. }
  destruct (keyManagerVerify key _ sig) as [ok|e3] eqn:E3; cbn [bind].
  2:{ intros H; injection H as <-. right; right; right; right.
      now exists key, (Utf8.encode (nth 0 (Str.split "." s) "" ++ "." ++ payload)), sig. }
  destruct (negb ok).
  - invalid_jws.
  - discriminate.
Qed.

(** The eight messages are pairwise different. *)
Lemma invalidJwsCauses_distinct : NoDup Crypto.invalidJwsCauses.
Proof.
  unfold Crypto.invalidJwsCauses.
  repeat (constructor; [simpl; intuition discriminate|]). constructor.
Qed.

(** A key id that dereferences to a verification method without
    [publicKeyJwk]: the failure is a plain [Error], on every platform. *)
Lemma verify_no_publicKeyJwk (P : Platform) (h p s alg kid : string) :
  Str.includes h "." = false -> Str.includes p "." = false ->
  Str.includes s "." = false ->
  base64UrlToObject h
  = Ok (JObject [("alg", JString alg); ("kid", JString kid)]) ->
  alg <> "" -> kid <> "" ->
  dereference kid = VerificationMethod None ->
  Crypto.verify (JString (h ++ "." ++ p ++ "." ++ s)) None
  = Throw (mkExn Error Crypto.msgNoPublicKeyJwk).
Proof.
  intros Hh Hp Hs Hobj Ha Hk Hres.
  apply String.eqb_neq in Ha, Hk.
  unfold Crypto.verify.
  change (h ++ "." ++ p ++ "." ++ s) with (h ++ String "." (p ++ String "." s)).
  rewrite !StrFacts.split_at_sep, StrFacts.split_no_sep by assumption.
  cbn [length Nat.eqb negb nth bind]. rewrite Hobj.
  cbn. rewrite Ha, Hk, Hres. reflexivity.
Qed.

(** C1: [verify] throws [InvalidJws], with a message of its own, for a
    non-string input, a segment count other than 3, a non-empty middle
    segment with a detached payload, an undecodable header, a missing
    [alg], a missing [kid], a [kid] that dereferences to no verification
    method, and a signature mismatch ([Crypto_verify_failures],
    [invalidJwsCauses_distinct]).  For a [kid] that dereferences to a
    verification method without usable public key material the source
    throws a plain [Error], not [InvalidJws]: here the header is
    [{alg: "ES256K", kid: "did:example:multibase#0"}] and the resolver
    returns a verification method without [publicKeyJwk]. *)
Theorem Crypto_verify_no_public_key_is_not_InvalidJws :
  let header := JObject [("alg", JString "ES256K");
                         ("kid", JString "did:example:multibase#0")] in
  let jws := JString (Crypto.objectToBase64Url header ++ "..") in
  @dereference TestDoubles.platform "did:example:multibase#0"
  = VerificationMethod None /\
  @Crypto.verify TestDoubles.platform jws None
  = Throw (mkExn Error Crypto.msgNoPublicKeyJwk) /\
  throws (@Crypto.verify TestDoubles.platform jws None) InvalidJws = false.
Proof. cbv zeta. split; [|split]; vm_compute; reflexivity. Qed.

(** The rejections of the test suite, on the test platform. *)
Example Crypto_verify_listed :
  let verify := @Crypto.verify TestDoubles.platform in
  verify (JNumber 2) None = Throw (mkExn InvalidJws Crypto.msgNotString) /\
  map (fun jws => verify (JString jws) None)
      ["one."; ".one"; "one.two"; "one.two.three.four"]
  = repeat (Throw (mkExn InvalidJws Crypto.msgNotThreeParts)) 4 /\
  verify (JString "one.two.three") None
  = Throw (mkExn InvalidJws Crypto.msgInvalidHeader) /\
  verify (JString "eyJhbGciOiJFUzI1NksiLCJraWQiOiJkaWQ6ZXhhbXBsZToxMjMjMCJ9.AQID.")
         (Some [x01; x02; x03])
  = Throw (mkExn InvalidJws Crypto.msgPayloadNotEmpty) /\
  verify (JString "eyJraWQiOiJkaWQ6ZXhhbXBsZToxMjMjMCJ9..") None
  = Throw (mkExn InvalidJws Crypto.msgMissingAlg) /\
  verify (JString "eyJhbGciOiJFUzI1NksifQ..") None
  = Throw (mkExn InvalidJws Crypto.msgMissingKid) /\
  verify (JString "eyJhbGciOiJFUzI1NksiLCJraWQiOiJkaWQ6ZXhhbXBsZToxMjMjMCJ9..") None
  = Throw (mkExn InvalidJws Crypto.msgNotVerificationMethod).
Proof.
  cbv zeta.
  split; [|split; [|split; [|split; [|split; [|split]]]]];
    vm_compute; reflexivity.
Qed.

(* ------------------------------------------------------------------ *)
(** *** Signing detached, then verifying *)




(* ================================================================== *)
(** ** Canonical form and digest *)

Module CanonicalizeFacts.
Import Canonicalize.

(** Induction on a JSON value, with the hypothesis for every element of a
    sequence and every member of an object. *)
Lemma json_induction (Q : json -> Prop) :
  Q JNull -> (forall b, Q (JBool b)) -> (forall z, Q (JNumber z)) ->
  (forall s, Q (JString s)) ->
  (forall items, Forall Q items -> Q (JArray items)) ->
  (forall members, Forall (fun kv => Q (snd kv)) members -> Q (JObject members)) ->
  forall v, Q v.
Proof.
  intros Hnull Hbool Hnum Hstr Harr Hobj.
  fix IH 1. intros [ |b|z|s|items|members].
  - exact Hnull.
  - apply Hbool.
  - apply Hnum.
  - apply Hstr.
  - apply Harr.
    exact ((fix all (l : list json) : Forall Q l :=
              match l with
              | [] => Forall_nil Q
              | x :: r => Forall_cons x (IH x) (all r)
              end) items).
  - apply Hobj.
    exact ((fix all (l : list (string * json))
            : Forall (fun kv => Q (snd kv)) l :=
              match l with
              | [] => Forall_nil _
              | kv :: r => Forall_cons kv (IH (snd kv)) (all r)
              end) members).
Qed.

(** *** The order of the keys *)

Lemma ascii_compare_trans (a b c : ascii) :
  Ascii.compare a b <> Gt -> Ascii.compare b c <> Gt ->
  Ascii.compare a c <> Gt /\
  (Ascii.compare a c = Eq -> Ascii.compare a b = Eq /\ Ascii.compare b c = Eq).
Proof.
  unfold Ascii.compare. intros H1 H2.
  change (N_of_ascii a <= N_of_ascii b)%N in H1.
  change (N_of_ascii b <= N_of_ascii c)%N in H2. split.
  - change (N_of_ascii a <= N_of_ascii c)%N. lia.
  - intros H. apply N.compare_eq_iff in H.
    split; apply N.compare_eq_iff; lia.
Qed.

Lemma compare_le_trans (s1 s2 s3 : string) :
  String.compare s1 s2 <> Gt -> String.compare s2 s3 <> Gt ->
  String.compare s1 s3 <> Gt.
Proof.
  revert s2 s3; induction s1 as [|a s1 IH]; intros [|b s2] [|c s3];
    simpl; try congruence.
  intros H12 H23.
  destruct (Ascii.compare a b) eqn:Eab; try congruence;
    destruct (Ascii.compare b c) eqn:Ebc; try congruence.
  - destruct (ascii_compare_trans a b c) as [Hac _]; try congruence.
    destruct (Ascii.compare a c) eqn:Eac; try congruence. now apply (IH s2).
  - destruct (ascii_compare_trans a b c) as [Hac Heq]; try congruence.
    destruct (Ascii.compare a c) eqn:Eac; try congruence.
    destruct Heq; congruence.
  - destruct (ascii_compare_trans a b c) as [Hac Heq]; try congruence.
    destruct (Ascii.compare a c) eqn:Eac; try congruence.
    destruct Heq; congruence.
  - destruct (ascii_compare_trans a b c) as [Hac Heq]; try congruence.
    destruct (Ascii.compare a c) eqn:Eac; try congruence.
    destruct Heq; congruence.
Qed.

Lemma leb_trans (s1 s2 s3 : string) :
  String.leb s1 s2 = true -> String.leb s2 s3 = true -> String.leb s1 s3 = true.
Proof.
  unfold String.leb. intros H12 H23.
  pose proof (compare_le_trans s1 s2 s3) as H.
  destruct (String.compare s1 s2); try discriminate;
    destruct (String.compare s2 s3); try discriminate;
    destruct (String.compare s1 s3); try reflexivity;
    exfalso; apply H; congruence.
Qed.

Lemma leb_false_le (s1 s2 : string) :
  String.leb s1 s2 = false -> String.leb s2 s1 = true.
Proof. intros H. destruct (String.leb_total s1 s2); congruence. Qed.

(** *** Sorting the members *)

Lemma leb_strict (s1 s2 : string) :
  s1 <> s2 -> String.leb s1 s2 = true -> String.leb s2 s1 = false.
Proof.
  intros Hne H. destruct (String.leb s2 s1) eqn:E; [|reflexivity].
  exfalso. apply Hne. now apply String.leb_antisym.
Qed.

(** Two members with different keys can be inserted in either order. *)
Lemma insert_comm (x y : string * json) (l : list (string * json)) :
  fst x <> fst y -> insert x (insert y l) = insert y (insert x l).
Proof.
  intros Hne.
  assert (Hne' : fst y <> fst x) by congruence.
  induction l as [|z l IH]; simpl.
  - destruct (String.leb (fst x) (fst y)) eqn:E1.
    + now rewrite (leb_strict _ _ Hne E1).
    + now rewrite (leb_false_le _ _ E1).
  - destruct (String.leb (fst y) (fst z)) eqn:Eyz;
      destruct (String.leb (fst x) (fst z)) eqn:Exz; simpl;
      rewrite ?Eyz, ?Exz.
    + destruct (String.leb (fst x) (fst y)) eqn:E1.
      * now rewrite (leb_strict _ _ Hne E1).
      * now rewrite (leb_false_le _ _ E1).
    + destruct (String.leb (fst x) (fst y)) eqn:E1.
      * rewrite (leb_trans _ _ _ E1 Eyz) in Exz. discriminate.
      * reflexivity.
    + destruct (String.leb (fst y) (fst x)) eqn:E2.
      * rewrite (leb_trans _ _ _ E2 Exz) in Eyz. discriminate.
      * reflexivity.
    + now rewrite IH.
Qed.

(** Sorting does not depend on the order the members come in. *)
Lemma sortMembers_permutation (a b : list (string * json)) :
  Permutation a b -> NoDup (map fst a) -> sortMembers a = sortMembers b.
Proof.
  induction 1 as [|x l l' Hp IH|x y l|l l' l'' Hp1 IH1 Hp2 IH2]; intros Hnd.
  - reflexivity.
  - cbn [sortMembers fold_right] in *. fold (sortMembers l) (sortMembers l').
    inversion Hnd; subst. now rewrite IH.
  - cbn [sortMembers fold_right]. fold (sortMembers l).
    apply insert_comm.
    inversion Hnd as [|? ? Hin _]; subst. intros E. apply Hin. left. now symmetry.
  - rewrite IH1 by assumption. apply IH2.
    eapply Permutation_NoDup; [apply Permutation_map, Hp1 | exact Hnd].
Qed.

Lemma filter_permutation {A : Type} (f : A -> bool) (a b : list A) :
  Permutation a b -> Permutation (filter f a) (filter f b).
Proof.
  induction 1 as [|x l l' Hp IH|x y l|l l' l'' Hp1 IH1 Hp2 IH2]; cbn [filter].
  - constructor.
  - destruct (f x); [now constructor | exact IH].
  - destruct (f x), (f y); try reflexivity. apply perm_swap.
  - now transitivity (filter f l').
Qed.

Lemma filter_keys_NoDup (f : string * json -> bool) (l : list (string * json)) :
  NoDup (map fst l) -> NoDup (map fst (filter f l)).
Proof.
  induction l as [|x l IH]; cbn [filter map]; intros H; [constructor|].
  inversion H as [|? ? Hin Hnd]; subst.
  destruct (f x); cbn [map]; [|now apply IH].
  constructor; [|now apply IH].
  intros Hx. apply Hin.
  apply in_map_iff in Hx as (y & Hy & Hiny).
  apply filter_In in Hiny as [Hiny _].
  apply in_map_iff. now exists y.
Qed.

(** The canonical value does not depend on the order of the keys of the
    objects that are reached through objects. *)
Lemma sortKeys_outside_sequences (v1 : json) :
  forall v2, DistinctKeys v1 -> SameUpToKeyOrderOutsideSequences v1 v2 ->
             sortKeys v1 = sortKeys v2.
Proof.
  induction v1 as [ |b|z|s|items IH|members IH] using json_induction;
    intros v2 Hdk Hsk; inversion Hsk; subst; try reflexivity.
  inversion Hdk as [| | | | |? Hnd Hall]; subst.
  cbn [sortKeys]. do 2 f_equal.
  set (f := fun kv : string * json => (fst kv, sortKeys (snd kv))).
  match goal with
  | Hp : Permutation members ?m, Hf : Forall2 _ ?m ?m2 |- _ =>
      rename m into permuted; rename m2 into members2;
      rename Hp into Hperm; rename Hf into Hmem
  end.
  assert (E : map f permuted = map f members2).
  { assert (Hin : forall kv, In kv permuted -> In kv members)
      by (intros kv; apply Permutation_in; now symmetry).
    clear Hperm Hsk.
    induction Hmem as [|a b l l' [Hk Hv] Hl IHl]; [reflexivity|].
    cbn [map]. f_equal.
    - unfold f. rewrite Hk. f_equal.
      rewrite Forall_forall in IH, Hall.
      apply IH; [apply Hin; now left | apply (Hall a), Hin; now left | exact Hv].
    - apply IHl. intros kv Hkv. apply Hin. now right. }
  rewrite <- E.
  apply sortMembers_permutation.
  - now apply filter_permutation, Permutation_map.
  - apply filter_keys_NoDup. rewrite map_map. cbn [f fst]. exact Hnd.
Qed.

End CanonicalizeFacts.

(* ------------------------------------------------------------------ *)
(** *** The digest *)

Lemma length_wordBytes (w : N) : length (Sha256.wordBytes w) = 4%nat.
Proof.
  unfold Sha256.wordBytes. now rewrite length_map, RadixFacts.length_toDigits.
Qed.

(** The hash is 32 bytes long, whatever the input. *)
Lemma length_Sha256_digest (data : list byte) :
  length (Sha256.digest data) = 32%nat.
Proof.
  unfold Sha256.digest, Sha256.output.
  now rewrite !length_app, !length_wordBytes.
Qed.

(** The regression pin of the test suite: the digest of
    [{hello: "world"}]. *)
Example Crypto_digest_known_good :
  map Byte.to_N (Crypto.digest (JObject [("hello", JString "world")]))
  = [147; 162; 57; 113; 169; 20; 229; 234; 203; 240; 168; 210; 81; 84; 205;
     163; 9; 195; 193; 199; 47; 187; 153; 20; 212; 124; 96; 243; 203; 104;
     21; 136]%N.
Proof. vm_compute. reflexivity. Qed.

(** C2: [Crypto.digest] does not give the same digest to every two
    payloads that are equal up to the order of the keys of their objects.
    The two payloads below differ in the order of the keys of their
    objects only, and the digests differ: the object inside the sequence
    [c] is hashed with its keys in the order it has, [x, y] in the first
    payload and [y, x] in the second. *)
Theorem Crypto_digest_key_order_inside_sequence :
  let payload1 :=
    JObject [("a", JNumber 1);
             ("b", JObject [("c", JArray [JObject [("x", JNull);
                                                   ("y", JBool true)]]);
                            ("d", JString "e")])] in
  let payload2 :=
    JObject [("b", JObject [("d", JString "e");
                            ("c", JArray [JObject [("y", JBool true);
                                                   ("x", JNull)]])]);
             ("a", JNumber 1)] in
  Canonicalize.SameUpToKeyOrder payload1 payload2 /\
  Canonicalize.sortKeys payload1
  = JObject [("a", JNumber 1);
             ("b", JObject [("c", JArray [JObject [("x", JNull);
                                                   ("y", JBool true)]]);
                            ("d", JString "e")])] /\
  Canonicalize.sortKeys payload2
  = JObject [("a", JNumber 1);
             ("b", JObject [("c", JArray [JObject [("y", JBool true);
                                                   ("x", JNull)]]);
                            ("d", JString "e")])] /\
  Radix.hex (Crypto.digest payload1) = "fcbecf696af5ce50a12ba04b6c3df80479838ec8b4a283c5c7afc483b188b532" /\
  Radix.hex (Crypto.digest payload2) = "0f78441e7a8edff9363c72b54bc9967089d1f6f97bcd72fa8c701124370b8395" /\
  Crypto.digest payload1 <> Crypto.digest payload2.
Proof.
  cbv zeta.
  split; [|split; [|split; [|split; [|split]]]].
  - repeat match goal with
           | |- Canonicalize.SameUpToKeyOrder (JObject _) _ =>
               eapply Canonicalize.SK_object; [apply perm_swap|]
           | |- Canonicalize.SameUpToKeyOrder _ _ => constructor
           | |- Forall2 _ _ _ => constructor
           | |- _ /\ _ => split; [reflexivity|]
           | |- _ => progress cbn [fst snd]
           end.
  - vm_compute. reflexivity.
  - vm_compute. reflexivity.
  - vm_compute. reflexivity.
  - vm_compute. reflexivity.
  - intros H. vm_compute in H. discriminate H.
Qed.

(* ================================================================== *)
(** ** DapRegistration *)

Section RegistrationFacts.
Context {P : Platform}.

(** A parsed identifier is the identifier that was formatted. *)
Lemma RegistrationId_parse_toString (id : RegistrationId.t) :
  TypeID.getType (RegistrationId.value id) = "reg" ->
  TypeID.decode (TypeID.suffix (RegistrationId.value id)) <> None ->
  RegistrationId.parse (RegistrationId.toString id) = Ok id.
Proof.
  destruct id as [[prefix suffix]]. cbn. intros -> Hdec.
  change (RegistrationId.toString (RegistrationId.new (TypeID.mk "reg" suffix)))
    with ("reg" ++ "_" ++ suffix).
  unfold RegistrationId.parse, RegistrationId.parse_try.
  rewrite RegistrationIdFacts.fromString_decodable;
    [reflexivity | discriminate | reflexivity | assumption].
Qed.


End RegistrationFacts.

(** C5: [verify()] of a record without signature fails with
    [InvalidDapRegistration] and the cause ["... Signature is missing"].
    With a signature it verifies the signature as a detached JWS over the
    digest of [{id, handle, did, domain}]: a failure of that verification
    is the failure of [verify()]; a signer identity other than the [did] of
    the record fails with [InvalidDapRegistration] and another cause; the
    signer identity equal to [did] is returned. *)
Theorem DapRegistration_verify_causes (P : Platform) (r : DapRegistration.t) :
  (DapRegistration.signature r = None ->
   DapRegistration.verify r
   = Throw (mkExn InvalidDapRegistration
              "Invalid DAP Registration: Signature is missing")) /\
  (forall jws,
      DapRegistration.signature r = Some jws ->
      let digest :=
        Crypto.digest
          (JObject [("id", JString (RegistrationId.toString (DapRegistration.id r)));
                    ("handle", JString (DapRegistration.handle r));
                    ("did", JString (DapRegistration.did r));
                    ("domain", JString (DapRegistration.domain r))]) in
      (forall e,
          Crypto.verify (JString jws) (Some digest) = Throw e ->
          DapRegistration.verify r = Throw e) /\
      (forall signerDid,
          Crypto.verify (JString jws) (Some digest) = Ok signerDid ->
          (signerDid <> DapRegistration.did r ->
           DapRegistration.verify r
           = Throw (mkExn InvalidDapRegistration DapRegistration.msgWrongSigner)) /\
          (signerDid = DapRegistration.did r ->
           DapRegistration.verify r = Ok signerDid))) /\
  DapRegistration.msgWrongSigner
  <> "Invalid DAP Registration: Signature is missing".
Proof.
  split; [|split].
  - intros H. unfold DapRegistration.verify. now rewrite H.
  - intros jws H digest. unfold DapRegistration.verify. rewrite H.
    change (DapRegistration.computeDigest r) with digest.
    split.
    + intros e He. now rewrite He.
    + intros signerDid Hs. rewrite Hs. cbn [bind]. split.
      * intros Hne.
        assert (E : (DapRegistration.did r =? signerDid)%string = false)
          by (apply String.eqb_neq; congruence).
        now rewrite E.
      * intros ->. now rewrite String.eqb_refl.
  - discriminate.
Qed.

Lemma DapRegistration_verify_causes_witness :
  @DapRegistration.verify TestDoubles.platform TestDoubles.unsignedRegistration
  = Throw (mkExn InvalidDapRegistration
             "Invalid DAP Registration: Signature is missing") /\
  @DapRegistration.verify TestDoubles.platform TestDoubles.forgedRegistration
  = Throw (mkExn InvalidDapRegistration DapRegistration.msgWrongSigner) /\
  @DapRegistration.verify TestDoubles.platform TestDoubles.signedRegistration
  = Ok "did:example:alice".
Proof.
  split; [|split].
  - apply (proj1 (DapRegistration_verify_causes TestDoubles.platform
                    TestDoubles.unsignedRegistration)).
    reflexivity.
  - refine (proj1 (proj2 (proj1 (proj2
              (DapRegistration_verify_causes TestDoubles.platform
                 TestDoubles.forgedRegistration)) _ eq_refl)
              "did:example:alice" _) _).
    + vm_compute. reflexivity.
    + discriminate.
  - refine (proj2 (proj2 (proj1 (proj2
              (DapRegistration_verify_causes TestDoubles.platform
                 TestDoubles.signedRegistration)) _ eq_refl)
              "did:example:alice" _) _).
    + vm_compute. reflexivity.
    + reflexivity.
Defined.



(** A record whose [did] is changed after signing: the digest changes with
    it, so the stored signature fails the integrity check of
    [Crypto.verify] before the identities are compared. *)
Example DapRegistration_tampered_did :
  let r := TestDoubles.signedRegistration in
  let tampered :=
    DapRegistration.new (DapRegistration.id r) (DapRegistration.handle r)
                        "did:example:mallory" (DapRegistration.domain r)
                        (DapRegistration.signature r) in
  @DapRegistration.verify TestDoubles.platform tampered
  = Throw (mkExn InvalidJws Crypto.msgIntegrity).
Proof. vm_compute. reflexivity. Qed.

(** The end-to-end test of the suite: create, sign, serialize, parse. *)
Example DapRegistration_end_to_end :
  @DapRegistration.sign TestDoubles.unsignedRegistration TestDoubles.alice
  = Ok TestDoubles.signedRegistration /\
  @DapRegistration.parse TestDoubles.platform
    (inl (DapRegistration.serialize TestDoubles.signedRegistration))
  = Some (Ok TestDoubles.signedRegistration) /\
  @DapRegistration.parse TestDoubles.platform
    (inl (DapRegistration.serialize TestDoubles.unsignedRegistration))
  = Some (Throw (mkExn InvalidDapRegistration
                   "Invalid DAP Registration: Signature is missing")).
Proof. split; [|split]; vm_compute; reflexivity. Qed.

(* ================================================================== *)
(** * Further properties of the sources *)

(* ------------------------------------------------------------------ *)
(** ** Urn and Dap: the accepted strings and the constructors *)

Module IdentifierFacts.
Import RegExp.

Lemma Urn_parse_grammar (s : string) (u : Urn.t) :
  Urn.parse s = Ok u -> Urn.Grammar s (Urn.nid u) (Urn.nss u).
Proof.
  unfold Urn.parse, match_, Urn.URN_PATTERN, Urn.PREFIX, Urn.SEPARATOR.
  cbn [captures].
  destruct (Str.stripPrefix "urn:" s) as [s1|] eqn:H1; [|discriminate].
  apply StrFacts.stripPrefix_sound in H1 as ->.
  destruct (plus _ _ "" s1) as [caps|] eqn:H2; [|discriminate].
  intros H; injection H as <-.
  apply RegExpFacts.plus_sound in H2
    as (nid & rest & caps' & -> & Hn & Hnall & Hk & ->).
  cbn [captures] in Hk.
  destruct (Str.stripPrefix ":" rest) as [s2|] eqn:H3; [|discriminate].
  apply StrFacts.stripPrefix_sound in H3 as ->.
  apply RegExpFacts.plus_sound in Hk
    as (nss & rest' & caps'' & -> & Hs & Hsall & Hk & ->).
  apply GrammarFacts.captures_end_inv in Hk as [-> ->].
  apply GrammarFacts.every_noneOf_one in Hnall.
  cbn. rewrite StrFacts.append_nil_r.
  repeat split; assumption.
Qed.

Lemma Urn_grammar_parse (s nid nss : string) :
  Urn.Grammar s nid nss -> Urn.parse s = Ok (Urn.new nid nss).
Proof.
  intros (-> & Hn & Hc & Hs & Hl).
  now apply GrammarFacts.Urn_parse_complete.
Qed.

(** Two readings of a text as [a ++ "/" ++ b] agree when one of them has
    no separator in either part. *)
Lemma split_once_unique (sep : ascii) (a' b' a b : string) :
  Str.includes a' sep = false -> Str.includes b' sep = false ->
  (a' ++ String sep b' = a ++ String sep b)%string ->
  a = a' /\ b = b'.
Proof.
  revert a; induction a' as [|c a' IH]; intros a Ha' Hb' E.
  - destruct a as [|x a]; simpl in E.
    + injection E as ->. now split.
    + injection E as <- ->. exfalso.
      clear -Hb'. induction a as [|y a IHa]; simpl in Hb'.
      * now rewrite Ascii.eqb_refl in Hb'.
      * apply orb_false_iff in Hb' as [_ Hb']. auto.
  - simpl in Ha'. apply orb_false_iff in Ha' as [Hc Ha'].
    destruct a as [|x a]; simpl in E.
    + injection E as -> _. now rewrite Ascii.eqb_refl in Hc.
    + injection E as -> E. destruct (IH a Ha' Hb' E) as [-> ->]. now split.
Qed.

End IdentifierFacts.

(** X1: [Urn.parse] accepts exactly the strings ["urn:" nid ":" nss] with
    a non-empty [nid] without [":"] and a non-empty [nss] without line
    terminator.  On such a string it returns [nid] and [nss], and
    [toString] of the result is the input; on every other string it throws
    [InvalidUrn] with the message ["Invalid URN"]. *)
Theorem Urn_parse_accepts_exactly_the_grammar (s : string) :
  match Urn.parse s with
  | Ok u => Urn.Grammar s (Urn.nid u) (Urn.nss u) /\ Urn.toString u = s
  | Throw e =>
      e = mkExn InvalidUrn "Invalid URN" /\
      forall nid nss, ~ Urn.Grammar s nid nss
  end.
Proof.
  destruct (Urn.parse s) as [u|e] eqn:E.
  - pose proof (IdentifierFacts.Urn_parse_grammar _ _ E) as G.
    split; [exact G|].
    destruct G as (Hs & _). rewrite Hs.
    unfold Urn.parse in E.
    destruct (RegExp.match_ s Urn.URN_PATTERN); [|discriminate].
    injection E as <-. reflexivity.
  - split.
    + unfold Urn.parse in E.
      destruct (RegExp.match_ s Urn.URN_PATTERN); [discriminate|].
      now injection E as <-.
    + intros nid nss G.
      apply IdentifierFacts.Urn_grammar_parse in G. congruence.
Qed.

(** X2: a [Urn] or a [Dap] built with its constructor survives formatting
    and parsing exactly when its components are well formed: a non-empty
    [nid] without [":"] and a non-empty [nss] without line terminator for
    a [Urn], a non-empty handle and a non-empty domain without ["@"] or
    ["/"] for a [Dap].  For a [Dap] with another component the formatted
    text is rejected; it never parses to another value. *)
Theorem constructor_round_trip_iff (a b : string) :
  (Urn.parse (Urn.toString (Urn.new a b)) = Ok (Urn.new a b) <->
   (a <> "" /\ Str.includes a ":" = false /\ b <> "" /\
    Str.every (fun c => negb (RegExp.isLineTerminator c)) b = true)) /\
  (Dap.parse (Dap.toString (Dap.new a b)) = Ok (Dap.new a b) <->
   (Dap.segment a /\ Dap.segment b)) /\
  (~ (Dap.segment a /\ Dap.segment b) ->
   Dap.parse (Dap.toString (Dap.new a b))
   = Throw (mkExn InvalidDap "Invalid DAP")).
Proof.
  assert (D : forall r, Dap.parse (Dap.toString (Dap.new a b)) = Ok r ->
                        r = Dap.new a b /\ Dap.segment a /\ Dap.segment b).
  { intros r E. apply GrammarFacts.Dap_parse_sound in E.
    destruct E as (E & Hh & Hd).
    unfold Dap.toString, Dap.PREFIX, Dap.SEPARATOR in E. cbn in E.
    injection E as E.
    destruct Hh as (Hh0 & Hh1 & Hh2), Hd as (Hd0 & Hd1 & Hd2).
    destruct (IdentifierFacts.split_once_unique "/" _ _ a b Hh2 Hd2 (eq_sym E))
      as [-> ->].
    destruct r as [h d]. cbn. repeat split; assumption. }
  split; [|split].
  - split.
    + intros E. apply IdentifierFacts.Urn_parse_grammar in E.
      cbn in E. destruct E as (_ & H). exact H.
    + intros (Ha & Hc & Hb & Hl).
      now apply GrammarFacts.Urn_parse_complete.
  - split.
    + intros E. apply D in E. tauto.
    + intros [Ha Hb]. apply GrammarFacts.Dap_parse_complete.
      split; [reflexivity | split; assumption].
  - intros Hn.
    destruct (Dap.parse (Dap.toString (Dap.new a b))) as [r|e] eqn:E.
    + destruct (D r eq_refl) as (_ & H). tauto.
    + unfold Dap.parse in E.
      destruct (RegExp.match_ _ Dap.DAP_REGEX); [discriminate|].
      now injection E as <-.
Qed.

Lemma constructor_round_trip_iff_witness :
  Urn.parse (Urn.toString (Urn.new "nid" "nss1:nss2")) = Ok (Urn.new "nid" "nss1:nss2") /\
  Dap.parse (Dap.toString (Dap.new "handle" "domain.com"))
  = Ok (Dap.new "handle" "domain.com") /\
  Dap.parse (Dap.toString (Dap.new "a@b" "domain.com"))
  = Throw (mkExn InvalidDap "Invalid DAP").
Proof.
  split; [|split].
  - apply (proj1 (constructor_round_trip_iff "nid" "nss1:nss2")).
    repeat split; first [discriminate | reflexivity].
  - apply (proj1 (proj2 (constructor_round_trip_iff "handle" "domain.com"))).
    repeat split; first [discriminate | reflexivity].
  - apply (proj2 (proj2 (constructor_round_trip_iff "a@b" "domain.com"))).
    intros [(_ & H & _) _]. discriminate H.
Defined.



(** X4: with the TypeID codec as modelled, every identifier
    [RegistrationId.parse] returns has a creation time: [extractTimestamp]
    and [extractDate] do not throw on it and give a number, never [NaN],
    between 0 and 2^48 - 1. *)
Theorem RegistrationId_parsed_has_timestamp (s : string) (id : RegistrationId.t) :
  RegistrationId.parse s = Ok id ->
  exists t : Z,
    RegistrationId.extractTimestamp id = Ok (Num t) /\
    RegistrationId.extractDate id = Ok (Num t) /\
    (0 <= t < 2 ^ 48)%Z.
Proof.
  intros E.
  apply RegistrationIdFacts.parse_Ok_inv in E as (q & -> & -> & Hq).
  destruct (TypeID.decode q) as [bytes|] eqn:D; [|congruence].
  pose proof (RegistrationIdFacts.decode_bytes _ _ D) as Hlen.
  exists (Z.of_N (Radix.ofDigits 256 (map Byte.to_N (firstn 6 bytes)))).
  assert (T : RegistrationId.extractTimestamp
                (RegistrationId.new (TypeID.mk "reg" q))
              = Ok (Num (Z.of_N (Radix.ofDigits 256
                                   (map Byte.to_N (firstn 6 bytes)))))).
  { unfold RegistrationId.extractTimestamp, TypeID.toUUID.
    cbn [RegistrationId.value TypeID.suffix]. rewrite D. cbn [bind].
    rewrite <- (firstn_skipn 6 bytes) at 1.
    rewrite TypeIDFacts.timestamp_of_stringify; [reflexivity|].
    rewrite length_firstn. lia. }
  split; [exact T|]. split; [exact T|].
  assert (B : (Radix.ofDigits 256 (map Byte.to_N (firstn 6 bytes))
               < 256 ^ N.of_nat (length (map Byte.to_N (firstn 6 bytes))))%N).
  { apply RadixFacts.ofDigits_lt. apply RadixFacts.values_bound. }
  rewrite length_map, length_firstn, Hlen in B.
  change (256 ^ N.of_nat (Nat.min 6 16))%N with (2 ^ 48)%N in B.
  lia.
Qed.

Lemma RegistrationId_parsed_has_timestamp_witness :
  exists t : Z,
    RegistrationId.extractTimestamp
      (RegistrationId.new (TypeID.mk "reg" "01fakqd1000w00000000000000"))
    = Ok (Num t) /\
    RegistrationId.extractDate
      (RegistrationId.new (TypeID.mk "reg" "01fakqd1000w00000000000000"))
    = Ok (Num t) /\
    (0 <= t < 2 ^ 48)%Z.
Proof.
  apply (RegistrationId_parsed_has_timestamp "reg_01fakqd1000w00000000000000").
  vm_compute. reflexivity.
Defined.

(** X5: with the TypeID codec as modelled, an identifier made by
    [RegistrationId.create], whatever the clock and the random source give,
    is written by [toString] as ["reg_"] and 26 characters, and
    [RegistrationId.parse] of that text gives the identifier back. *)
Theorem RegistrationId_create_parses_back (now : N) (random : list byte) :
  let id := RegistrationId.create now random in
  RegistrationId.parse (RegistrationId.toString id) = Ok id /\
  String.length (RegistrationId.toString id) = 30%nat /\
  Str.stripPrefix "reg_" (RegistrationId.toString id)
  = Some (TypeID.suffix (RegistrationId.value id)).
Proof.
  intros id. split; [|split].
  - apply RegistrationId_parse_toString; [reflexivity|].
    unfold id, RegistrationId.create, TypeID.typeid. cbn [RegistrationId.value TypeID.suffix].
    rewrite TypeIDFacts.suffix_decode_encode by apply TypeIDFacts.length_uuidBytes.
    discriminate.
  - change (RegistrationId.toString id)
      with ("reg_" ++ TypeID.encode (TypeID.uuidBytes now random)).
    cbn [String.length append]. now rewrite TypeIDFacts.length_encode.
  - change (RegistrationId.toString id)
      with ("reg_" ++ TypeID.encode (TypeID.uuidBytes now random)).
    now rewrite StrFacts.stripPrefix_append.
Qed.

(* ------------------------------------------------------------------ *)
(** ** Crypto: the compact form [sign] writes and [verify] reads *)

Module SplitFacts.
Import Str.

Lemma length_split (sep : ascii) (s : string) :
  length (split sep s) = S (count sep s).
Proof.
  induction s as [|c s IH]; simpl; [reflexivity|].
  destruct (c =? sep)%char; simpl; [now rewrite IH|].
  destruct (split sep s) as [|h t]; simpl in *; [discriminate|exact IH].
Qed.

Lemma count_app (c : ascii) (a b : string) :
  count c (a ++ b) = (count c a + count c b)%nat.
Proof.
  induction a as [|x a IH]; simpl; [reflexivity|].
  destruct (x =? c)%char; simpl; now rewrite IH.
Qed.

Lemma count_includes (c : ascii) (s : string) :
  count c s = O <-> includes s c = false.
Proof.
  induction s as [|x s IH]; simpl; [tauto|].
  destruct (x =? c)%char; simpl; [split; discriminate | exact IH].
Qed.

(** What the pieces of [split] say about the text. *)
Lemma split_cons_inv (sep : ascii) (s h : string) (t : list string) :
  split sep s = h :: t ->
  includes h sep = false /\
  match t with
  | [] => s = h
  | _ :: _ => exists r, s = (h ++ String sep r)%string /\ split sep r = t
  end.
Proof.
  revert h t; induction s as [|c s IH]; intros h t H; simpl in H.
  - injection H as <- <-. now split.
  - destruct (Ascii.eqb_spec c sep) as [->|Hc].
    + injection H as <- <-. split; [reflexivity|].
      pose proof (StrFacts.split_not_nil sep s) as Hne.
      destruct (split sep s) as [|h' t'] eqn:E; [contradiction|].
      exists s. now split.
    + destruct (split sep s) as [|h' t'] eqn:E.
      * now destruct (StrFacts.split_not_nil sep s).
      * injection H as <- <-.
        destruct (IH h' t' eq_refl) as [Hh Ht].
        split.
        { simpl. apply Ascii.eqb_neq in Hc. now rewrite Hc, Hh. }
        destruct t' as [|h2 t2].
        { now rewrite Ht. }
        destruct Ht as (r & -> & Hr). exists r. now split.
Qed.

Lemma split_three_inv (sep : ascii) (s a b c : string) :
  split sep s = [a; b; c] ->
  s = (a ++ String sep (b ++ String sep c))%string /\
  includes a sep = false /\ includes b sep = false /\ includes c sep = false.
Proof.
  intros H.
  apply split_cons_inv in H as (Ha & r1 & -> & H).
  apply split_cons_inv in H as (Hb & r2 & -> & H).
  apply split_cons_inv in H as (Hc & ->).
  now repeat split.
Qed.

Lemma split_three (sep : ascii) (a b c : string) :
  includes a sep = false -> includes b sep = false ->
  includes c sep = false ->
  split sep (a ++ String sep (b ++ String sep c)) = [a; b; c].
Proof.
  intros Ha Hb Hc.
  now rewrite !StrFacts.split_at_sep, StrFacts.split_no_sep.
Qed.

Lemma before_no_sep (sep : ascii) (s : string) :
  includes (before sep s) sep = false.
Proof.
  induction s as [|c s IH]; simpl; [reflexivity|].
  destruct (c =? sep)%char eqn:E; [reflexivity|].
  simpl. now rewrite E, IH.
Qed.

End SplitFacts.

Lemma Ok_inj {A : Type} (x y : A) : Ok x = Ok y -> x = y.
Proof. intros H. now injection H. Qed.

Section JwsFacts.
Context {P : Platform}.

(** A detached JWS is verified as the compact JWS with the payload in the
    middle. *)
Lemma verify_detached_eq (h s : string) (payload : list byte) :
  Str.includes h "." = false -> Str.includes s "." = false ->
  Crypto.verify (JString (h ++ ".." ++ s)) (Some payload)
  = Crypto.verify
      (JString (h ++ "." ++ Base64Url.encode payload ++ "." ++ s)) None.
Proof.
  intros Hh Hs. unfold Crypto.verify.
  rewrite StrFacts.split_detached by assumption.
  change (h ++ "." ++ Base64Url.encode payload ++ "." ++ s)
    with (h ++ String "." (Base64Url.encode payload ++ String "." s)).
  rewrite SplitFacts.split_three
    by first [assumption | apply Base64UrlFacts.encode_no_dot].
  reflexivity.
Qed.

(** The text with a count of ["."] other than two. *)
Lemma verify_not_three_parts (s : string)
      (detachedPayload : option (list byte)) :
  Str.count "." s <> 2%nat ->
  Crypto.verify (JString s) detachedPayload
  = Throw (Crypto.InvalidJws_new (Some Crypto.msgNotThreeParts)).
Proof.
  intros H. unfold Crypto.verify.
  rewrite SplitFacts.length_split.
  destruct (Nat.eqb_spec (S (Str.count "." s)) 3) as [E|_]; [lia|].
  reflexivity.
Qed.

End JwsFacts.

(** X6: when [Crypto.sign] returns, its text has exactly three parts
    between ["."]: the header of the signer's algorithm and key id in
    base64url, the payload in base64url (the empty string when [detached]
    is set), and the signature in base64url.  In both modes the bytes
    handed to the signer are the header part, ["."], and the payload in
    base64url. *)
Theorem Crypto_sign_three_parts (did : BearerDid) (payload : list byte)
        (detached : bool) (jws : string) :
  Crypto.sign did payload detached = Ok jws ->
  exists signer sig,
    let h := Crypto.objectToBase64Url (Crypto.jwsHeaderOf signer) in
    getSigner did = Ok signer /\
    signBytes signer (Utf8.encode (h ++ "." ++ Base64Url.encode payload))
    = Ok sig /\
    Str.split "." jws
    = [h; if detached then "" else Base64Url.encode payload;
       Base64Url.encode sig].
Proof.
  unfold Crypto.sign.
  destruct (getSigner did) as [signer|] eqn:Hs; [|discriminate].
  cbn [bind].
  destruct (signBytes signer _) as [sig|] eqn:Hb; [|discriminate].
  cbn [bind]. intros H.
  exists signer, sig. cbv zeta. split; [reflexivity|]. split; [exact Hb|].
  destruct detached; apply Ok_inj in H; rewrite <- H.
  - apply StrFacts.split_detached;
      first [apply Base64UrlFacts.encode_no_dot].
  - apply (SplitFacts.split_three ".");
      first [apply Base64UrlFacts.encode_no_dot].
Qed.

Lemma Crypto_sign_three_parts_witness :
  exists signer sig,
    let h := Crypto.objectToBase64Url (Crypto.jwsHeaderOf signer) in
    getSigner TestDoubles.alice = Ok signer /\
    signBytes signer (Utf8.encode (h ++ "." ++ Base64Url.encode [x01; x02; x03]))
    = Ok sig /\
    Str.split "." TestDoubles.aliceJws
    = [h; if false then "" else Base64Url.encode [x01; x02; x03];
       Base64Url.encode sig].
Proof.
  apply (Crypto_sign_three_parts TestDoubles.alice [x01; x02; x03] false
           TestDoubles.aliceJws).
  vm_compute. reflexivity.
Defined.

(** X7: what a successful [Crypto.verify] has checked.  When it returns a
    DID, the JWS is a string of three parts [h.p.s] without further
    ["."], with [p] empty when a detached payload is given; [h] decodes to
    a header with non-empty strings [alg] and [kid]; [kid] dereferences to
    a verification method with a public key; the base64url decoder, which
    drops ["="] at the end of the text, reads [s] as the signature bytes;
    the key manager accepted these bytes over [h], ["."] and the payload
    in base64url (the detached one when given, [p] otherwise); and the DID
    is [kid] up to its first ["#"], so it holds no ["#"]. *)
Theorem Crypto_verify_Ok_inv (P : Platform) (jws : json)
        (detachedPayload : option (list byte)) (did : string) :
  Crypto.verify jws detachedPayload = Ok did ->
  exists (h p s : string) (header : json) (alg kid : string) (key : Jwk)
         (sig : list byte),
    jws = JString (h ++ "." ++ p ++ "." ++ s) /\
    Str.includes h "." = false /\ Str.includes p "." = false /\
    Str.includes s "." = false /\
    (detachedPayload <> None -> p = "") /\
    base64UrlToObject h = Ok header /\
    Crypto.getProperty header "alg" = Ok (Some (JString alg)) /\ alg <> "" /\
    Crypto.getProperty header "kid" = Ok (Some (JString kid)) /\ kid <> "" /\
    dereference kid = VerificationMethod (Some key) /\
    isPublicJwk key = true /\
    Base64Url.decode s = Ok sig /\
    keyManagerVerify key
      (Utf8.encode (h ++ "." ++ match detachedPayload with
                                | Some detached => Base64Url.encode detached
                                | None => p
                                end)) sig = Ok true /\
    did = Str.before "#" kid /\ Str.includes did "#" = false.
Proof.
  unfold Crypto.verify.
  destruct jws as [| | |text| |]; try discriminate.
  destruct (Str.split "." text) as [|h [|p [|s [|x l]]]] eqn:Hsplit;
    try discriminate.
  apply SplitFacts.split_three_inv in Hsplit as (-> & Hh & Hp & Hs).
  cbn [length Nat.eqb negb nth].
  set (payload := match detachedPayload with
                  | Some detached => Base64Url.encode detached
                  | None => p
                  end).
  assert (Hpay : (detachedPayload <> None -> p = "") /\
                 match detachedPayload with
                 | Some detached =>
                     if negb (String.length p =? 0)%nat
                     then Throw (Crypto.InvalidJws_new
                                   (Some Crypto.msgPayloadNotEmpty))
                     else Ok (Base64Url.encode detached)
                 | None => Ok p
                 end = Ok payload
                 \/ exists e, match detachedPayload with
                 | Some detached =>
                     if negb (String.length p =? 0)%nat
                     then Throw (Crypto.InvalidJws_new
                                   (Some Crypto.msgPayloadNotEmpty))
                     else Ok (Base64Url.encode detached)
                 | None => Ok p
                 end = Throw e).
  { subst payload. destruct detachedPayload as [d|].
    - destruct p as [|c p]; cbn.
      + left. now split.
      + right. now eexists.
    - left. split; [congruence | reflexivity]. }
  destruct Hpay as [[Hempty ->]|[e ->]]; [|discriminate].
  cbn [bind].
  destruct (base64UrlToObject h) as [header|] eqn:Hobj; [|discriminate].
  cbn [bind].
  destruct (Crypto.getProperty header "alg") as [alg|] eqn:Halg;
    [|discriminate].
  cbn [bind].
  destruct alg as [[| | |alg| |]|]; try discriminate.
  cbn [Crypto.nonEmptyString].
  destruct (String.eqb_spec alg "") as [|Halg0]; [discriminate|].
  destruct (Crypto.getProperty header "kid") as [kid|] eqn:Hkid;
    [|discriminate].
  cbn [bind].
  destruct kid as [[| | |kid| |]|]; try discriminate.
  cbn [Crypto.nonEmptyString].
  destruct (String.eqb_spec kid "") as [|Hkid0]; [discriminate|].
  destruct (dereference kid) as [| |[key|]] eqn:Hres; try discriminate.
  destruct (isPublicJwk key) eqn:Hpub; [|discriminate].
  cbn [negb]. unfold Crypto.base64UrlToUint8Array.
  destruct (Base64Url.decode s) as [sig|] eqn:Hsig; [|discriminate].
  cbn [bind].
  destruct (keyManagerVerify key _ sig) as [[|]|] eqn:Hver; try discriminate.
  cbn [bind negb]. intros H. apply Ok_inj in H.
  rewrite StrFacts.split_first in H. subst did.
  exists h, p, s, header, alg, kid, key, sig.
  repeat (split; [first [reflexivity | assumption]|]).
  apply SplitFacts.before_no_sep.
Qed.

Lemma Crypto_verify_Ok_inv_witness :
  exists (h p s : string) (header : json) (alg kid : string)
         (key : @Jwk TestDoubles.platform) (sig : list byte),
    JString TestDoubles.aliceDetachedJws
    = JString (h ++ "." ++ p ++ "." ++ s) /\
    Str.includes h "." = false /\ Str.includes p "." = false /\
    Str.includes s "." = false /\
    (Some [x01; x02; x03] <> None -> p = "") /\
    @base64UrlToObject TestDoubles.platform h = Ok header /\
    Crypto.getProperty header "alg" = Ok (Some (JString alg)) /\ alg <> "" /\
    Crypto.getProperty header "kid" = Ok (Some (JString kid)) /\ kid <> "" /\
    @dereference TestDoubles.platform kid = VerificationMethod (Some key) /\
    @isPublicJwk TestDoubles.platform key = true /\
    Base64Url.decode s = Ok sig /\
    @keyManagerVerify TestDoubles.platform key
      (Utf8.encode (h ++ "." ++ match Some [x01; x02; x03] with
                                | Some detached => Base64Url.encode detached
                                | None => p
                                end)) sig = Ok true /\
    "did:example:alice" = Str.before "#" kid /\
    Str.includes "did:example:alice" "#" = false.
Proof.
  apply (Crypto_verify_Ok_inv TestDoubles.platform
           (JString TestDoubles.aliceDetachedJws) (Some [x01; x02; x03])
           "did:example:alice").
  vm_compute. reflexivity.
Defined.

(** X8: a detached JWS [h..s] with its payload is verified exactly as the
    compact JWS [h.p.s] that has the payload in base64url in the middle:
    the two calls return the same DID or throw the same exception, for
    every [h] and [s] and on every platform. *)
Theorem Crypto_verify_detached_as_attached (P : Platform) (h s : string)
        (payload : list byte) :
  Crypto.verify (JString (h ++ ".." ++ s)) (Some payload)
  = Crypto.verify
      (JString (h ++ "." ++ Base64Url.encode payload ++ "." ++ s)) None.
Proof.
  assert (C1 : Str.count "." (h ++ ".." ++ s)
               = (Str.count "." h + 2 + Str.count "." s)%nat).
  { change (h ++ ".." ++ s) with (h ++ String "." ("" ++ String "." s)).
    rewrite SplitFacts.count_app. cbn [Str.count Ascii.eqb Bool.eqb append].
    lia. }
  assert (C2 : Str.count "." (h ++ "." ++ Base64Url.encode payload ++ "." ++ s)
               = (Str.count "." h + 2 + Str.count "." s)%nat).
  { change (h ++ "." ++ Base64Url.encode payload ++ "." ++ s)
      with (h ++ String "." (Base64Url.encode payload ++ String "." s)).
    rewrite SplitFacts.count_app. cbn [Str.count Ascii.eqb Bool.eqb].
    rewrite SplitFacts.count_app. cbn [Str.count Ascii.eqb Bool.eqb].
    rewrite (proj2 (SplitFacts.count_includes "." (Base64Url.encode payload))
               (Base64UrlFacts.encode_no_dot payload)).
    lia. }
  destruct (Str.includes h ".") eqn:Hh; [|destruct (Str.includes s ".") eqn:Hs].
  3:{ now apply verify_detached_eq. }
  - assert (Str.count "." h <> 0%nat)
      by (intros E; apply SplitFacts.count_includes in E; congruence).
    rewrite (verify_not_three_parts (h ++ ".." ++ s)) by lia.
    rewrite (verify_not_three_parts
               (h ++ "." ++ Base64Url.encode payload ++ "." ++ s)) by lia.
    reflexivity.
  - assert (Str.count "." s <> 0%nat)
      by (intros E; apply SplitFacts.count_includes in E; congruence).
    rewrite (verify_not_three_parts (h ++ ".." ++ s)) by lia.
    rewrite (verify_not_three_parts
               (h ++ "." ++ Base64Url.encode payload ++ "." ++ s)) by lia.
    reflexivity.
Qed.

(** X9: the round trip of [sign] and [verify] for a JWS that carries its
    payload.  Under the hypotheses of the detached round trip, [sign]
    without [detached] returns [h.p.s] with [p] the payload in base64url,
    and [verify] of that text without detached payload returns the
    signer's key id up to its first ["#"]. *)
Theorem sign_attached_then_verify (P : Platform) (did : BearerDid)
        (signer : Signer) (key : Jwk) (payload sig : list byte) :
  let headerB64 := Crypto.objectToBase64Url (Crypto.jwsHeaderOf signer) in
  let data := Utf8.encode (headerB64 ++ "." ++ Base64Url.encode payload) in
  let jws := headerB64 ++ "." ++ Base64Url.encode payload ++ "."
             ++ Base64Url.encode sig in
  getSigner did = Ok signer ->
  algorithm signer <> "" -> keyId signer <> "" ->
  signBytes signer data = Ok sig ->
  base64UrlToObject headerB64 = Ok (Crypto.jwsHeaderOf signer) ->
  dereference (keyId signer) = VerificationMethod (Some key) ->
  isPublicJwk key = true ->
  keyManagerVerify key data sig = Ok true ->
  Crypto.sign did payload false = Ok jws /\
  Crypto.verify (JString jws) None = Ok (Str.before "#" (keyId signer)).
Proof.
  intros h data jws Hsigner Ha Hk Hsig Hobj Hres Hpub Hver.
  split.
  - unfold Crypto.sign. rewrite Hsigner. cbn [bind].
    fold h. fold data. rewrite Hsig. reflexivity.
  - unfold jws, h.
    rewrite <- verify_detached_eq
      by first [apply Base64UrlFacts.encode_no_dot].
    rewrite (verify_detached signer key) by assumption.
    fold h. fold data. rewrite Hver. reflexivity.
Qed.

Lemma sign_attached_then_verify_witness :
  let payload := [x01; x02; x03] in
  let headerB64 :=
    Crypto.objectToBase64Url (Crypto.jwsHeaderOf TestDoubles.aliceSigner) in
  let data := Utf8.encode (headerB64 ++ "." ++ Base64Url.encode payload) in
  let sig := TestDoubles.toySign TestDoubles.aliceKey data in
  let jws := headerB64 ++ "." ++ Base64Url.encode payload ++ "."
             ++ Base64Url.encode sig in
  Crypto.sign TestDoubles.alice payload false = Ok jws /\
  @Crypto.verify TestDoubles.platform (JString jws) None
  = Ok (Str.before "#" "did:example:alice#0").
Proof.
  cbv zeta.
  apply (sign_attached_then_verify TestDoubles.platform TestDoubles.alice
           TestDoubles.aliceSigner TestDoubles.aliceKey [x01; x02; x03]
           (TestDoubles.toySign TestDoubles.aliceKey
              (Utf8.encode
                 (Crypto.objectToBase64Url
                    (Crypto.jwsHeaderOf TestDoubles.aliceSigner)
                  ++ "." ++ Base64Url.encode [x01; x02; x03])))).
  - reflexivity.
  - discriminate.
  - discriminate.
  - reflexivity.
  - vm_compute. reflexivity.
  - reflexivity.
  - reflexivity.
  - vm_compute. reflexivity.
Defined.

(** X10: the rejections of [Crypto.verify] that come before the header is
    decoded, and so hold on every platform.  A value that is no string is
    rejected with "Expected Compact JWS in string format"; a string whose
    number of ["."] is not two, the empty string among them, with
    "Expected Compact JWS with 3 parts"; and a string [h.p.t] with a
    non-empty [p], when a detached payload is given, with "Expected
    detached JWS with empty payload".  Each is an [InvalidJws]. *)
Theorem Crypto_verify_rejects_malformed (P : Platform) :
  (forall jws detachedPayload,
      (forall s, jws <> JString s) ->
      Crypto.verify jws detachedPayload
      = Throw (mkExn InvalidJws Crypto.msgNotString)) /\
  (forall s detachedPayload,
      Str.count "." s <> 2%nat ->
      Crypto.verify (JString s) detachedPayload
      = Throw (mkExn InvalidJws Crypto.msgNotThreeParts)) /\
  (forall h p t payload,
      Str.includes h "." = false -> Str.includes p "." = false ->
      Str.includes t "." = false -> p <> "" ->
      Crypto.verify (JString (h ++ "." ++ p ++ "." ++ t)) (Some payload)
      = Throw (mkExn InvalidJws Crypto.msgPayloadNotEmpty)).
Proof.
  split; [|split].
  - intros jws dp Hjws.
    destruct jws as [| | |s| |]; try reflexivity.
    now destruct (Hjws s).
  - intros s dp Hs. now apply verify_not_three_parts.
  - intros h p t payload Hh Hp Ht Hne.
    unfold Crypto.verify.
    change (h ++ "." ++ p ++ "." ++ t) with (h ++ String "." (p ++ String "." t)).
    rewrite SplitFacts.split_three by assumption.
    cbn [length Nat.eqb negb nth].
    destruct p as [|c p]; [congruence|]. reflexivity.
Qed.

(* ------------------------------------------------------------------ *)
(** ** DapRegistration: signing, verifying and parsing a record *)

Section RegistrationRecordFacts.
Context {P : Platform}.

(** The DID [Crypto.verify] returns is the text before a ["#"]. *)
Lemma Crypto_verify_Ok_no_hash (jws : json)
      (detachedPayload : option (list byte)) (did : string) :
  Crypto.verify jws detachedPayload = Ok did ->
  Str.includes did "#" = false.
Proof.
  unfold Crypto.verify.
  destruct jws as [| | |text| |]; try discriminate.
  destruct (negb _); [discriminate|].
  destruct (match detachedPayload with Some _ => _ | None => _ end);
    [|discriminate].
  cbn [bind].
  destruct (base64UrlToObject _); [|discriminate]. cbn [bind].
  destruct (Crypto.getProperty _ "alg"); [|discriminate]. cbn [bind].
  destruct (Crypto.nonEmptyString _); [|discriminate].
  destruct (Crypto.getProperty _ "kid"); [|discriminate]. cbn [bind].
  destruct (Crypto.nonEmptyString _) as [kid|]; [|discriminate].
  destruct (dereference kid) as [| |[key|]]; try discriminate.
  destruct (negb (isPublicJwk key)); [discriminate|].
  destruct (Crypto.base64UrlToUint8Array _); [|discriminate]. cbn [bind].
  destruct (keyManagerVerify _ _ _) as [[|]|]; try discriminate.
  cbn [bind negb]. intros H. apply Ok_inj in H. subst did.
  rewrite StrFacts.split_first. apply SplitFacts.before_no_sep.
Qed.

(** What a successful [DapRegistration.verify] has checked. *)
Lemma verify_Ok_inv (r : DapRegistration.t) (signer : string) :
  DapRegistration.verify r = Ok signer ->
  signer = DapRegistration.did r /\
  exists jws,
    DapRegistration.signature r = Some jws /\
    Crypto.verify (JString jws) (Some (DapRegistration.computeDigest r))
    = Ok (DapRegistration.did r).
Proof.
  unfold DapRegistration.verify.
  destruct (DapRegistration.signature r) as [jws|]; [|discriminate].
  destruct (Crypto.verify _ _) as [d|] eqn:E; [|discriminate]. cbn [bind].
  destruct (String.eqb_spec (DapRegistration.did r) d) as [<-|];
    [|discriminate].
  cbn [negb]. intros H. apply Ok_inj in H. subst signer.
  split; [reflexivity|]. exists jws. now split.
Qed.

End RegistrationRecordFacts.

(** X11: signing a record and verifying it.  Under the hypotheses of the
    detached round trip of [Crypto], for the digest of the record,
    [DapRegistration.sign] returns the record with the same [id],
    [handle], [did] and [domain] and the detached JWS as [signature],
    whatever signature the record had.  [verify] of the signed record
    returns the record's [did] when that is the signer's key id up to its
    first ["#"], and otherwise throws [InvalidDapRegistration] with
    "Expected registration to be signed by the specified DID". *)
Theorem DapRegistration_sign_then_verify (P : Platform)
        (r : DapRegistration.t) (bearer : BearerDid) (signer : Signer)
        (key : Jwk) (sig : list byte) :
  let headerB64 := Crypto.objectToBase64Url (Crypto.jwsHeaderOf signer) in
  let data :=
    Utf8.encode (headerB64 ++ "."
                 ++ Base64Url.encode (DapRegistration.computeDigest r)) in
  let signed :=
    DapRegistration.new (DapRegistration.id r) (DapRegistration.handle r)
                        (DapRegistration.did r) (DapRegistration.domain r)
                        (Some (headerB64 ++ ".." ++ Base64Url.encode sig)) in
  getSigner bearer = Ok signer ->
  algorithm signer <> "" -> keyId signer <> "" ->
  signBytes signer data = Ok sig ->
  base64UrlToObject headerB64 = Ok (Crypto.jwsHeaderOf signer) ->
  dereference (keyId signer) = VerificationMethod (Some key) ->
  isPublicJwk key = true ->
  keyManagerVerify key data sig = Ok true ->
  @DapRegistration.sign r bearer = Ok signed /\
  DapRegistration.verify signed
  = if (DapRegistration.did r =? Str.before "#" (keyId signer))%string
    then Ok (DapRegistration.did r)
    else Throw (mkExn InvalidDapRegistration DapRegistration.msgWrongSigner).
Proof.
  intros h data signed Hsigner Ha Hk Hsig Hobj Hres Hpub Hver.
  split.
  - unfold DapRegistration.sign, Crypto.sign. rewrite Hsigner. cbn [bind].
    fold h. fold data. rewrite Hsig. reflexivity.
  - unfold DapRegistration.verify, signed.
    cbn [DapRegistration.signature DapRegistration.did].
    change (DapRegistration.computeDigest (DapRegistration.new _ _ _ _ _))
      with (DapRegistration.computeDigest r).
    unfold h. rewrite (verify_detached signer key) by assumption.
    fold h. fold data. rewrite Hver. cbn [bind negb].
    destruct (String.eqb_spec (DapRegistration.did r)
                              (Str.before "#" (keyId signer))) as [E|_];
      [|reflexivity].
    cbn [negb]. now rewrite E.
Qed.

Lemma DapRegistration_sign_then_verify_witness :
  let r := TestDoubles.unsignedRegistration in
  let headerB64 :=
    Crypto.objectToBase64Url (Crypto.jwsHeaderOf TestDoubles.aliceSigner) in
  let data :=
    Utf8.encode (headerB64 ++ "."
                 ++ Base64Url.encode (DapRegistration.computeDigest r)) in
  let sig := TestDoubles.toySign TestDoubles.aliceKey data in
  let signed :=
    DapRegistration.new (DapRegistration.id r) (DapRegistration.handle r)
                        (DapRegistration.did r) (DapRegistration.domain r)
                        (Some (headerB64 ++ ".." ++ Base64Url.encode sig)) in
  @DapRegistration.sign r TestDoubles.alice = Ok signed /\
  @DapRegistration.verify TestDoubles.platform signed
  = if (DapRegistration.did r
        =? Str.before "#" (keyId TestDoubles.aliceSigner))%string
    then Ok (DapRegistration.did r)
    else Throw (mkExn InvalidDapRegistration DapRegistration.msgWrongSigner).
Proof.
  cbv zeta.
  apply (DapRegistration_sign_then_verify TestDoubles.platform
           TestDoubles.unsignedRegistration TestDoubles.alice
           TestDoubles.aliceSigner TestDoubles.aliceKey
           (TestDoubles.toySign TestDoubles.aliceKey
              (Utf8.encode
                 (Crypto.objectToBase64Url
                    (Crypto.jwsHeaderOf TestDoubles.aliceSigner)
                  ++ "."
                  ++ Base64Url.encode
                       (DapRegistration.computeDigest
                          TestDoubles.unsignedRegistration))))).
  - reflexivity.
  - discriminate.
  - discriminate.
  - reflexivity.
  - vm_compute. reflexivity.
  - reflexivity.
  - reflexivity.
  - vm_compute. reflexivity.
Defined.

(** X12: [DapRegistration.parse] returns only verified records.  When it
    returns a record, the request had a signature, the record has the
    request's [handle], [did], [domain] and [signature], its [id] is
    written by [toString] as the request's [id], and the record's own
    [verify] succeeds with the record's [did]. *)
Theorem DapRegistration_parse_Ok_inv (P : Platform)
        (rawRequest : string + DapRegistration.RegistrationModel)
        (r : DapRegistration.t) :
  DapRegistration.parse rawRequest = Some (Ok r) ->
  exists request,
    DapRegistration.rawToRegistrationRequest rawRequest = Ok (Some request) /\
    RegistrationId.toString (DapRegistration.id r)
    = DapRegistration.m_id request /\
    DapRegistration.handle r = DapRegistration.m_handle request /\
    DapRegistration.did r = DapRegistration.m_did request /\
    DapRegistration.domain r = DapRegistration.m_domain request /\
    DapRegistration.signature r = DapRegistration.m_signature request /\
    DapRegistration.signature r <> None /\
    DapRegistration.verify r = Ok (DapRegistration.did r).
Proof.
  unfold DapRegistration.parse.
  destruct (DapRegistration.rawToRegistrationRequest rawRequest)
    as [[request|]|]; try discriminate.
  2:{ destruct (DapRegistration.isNullRequest rawRequest); discriminate. }
  destruct (RegistrationId.parse (DapRegistration.m_id request)) as [i|] eqn:Hid;
    [|discriminate].
  cbn [bind].
  destruct (DapRegistration.verify _) as [d|] eqn:Hv; [|discriminate].
  cbn [bind]. intros H.
  assert (E : DapRegistration.new i (DapRegistration.m_handle request)
                (DapRegistration.m_did request)
                (DapRegistration.m_domain request)
                (DapRegistration.m_signature request) = r) by congruence.
  clear H. subst r. exists request.
  cbn [DapRegistration.id DapRegistration.handle DapRegistration.did
       DapRegistration.domain DapRegistration.signature].
  destruct (verify_Ok_inv _ _ Hv) as (Hd & jws & Hsig & _).
  cbn [DapRegistration.did DapRegistration.signature] in Hd, Hsig.
  apply RegistrationIdFacts.parse_Ok_inv in Hid as (q & Hq & -> & _).
  repeat split; try reflexivity.
  - now rewrite Hq.
  - congruence.
  - now rewrite Hv, Hd.
Qed.

Lemma DapRegistration_parse_Ok_inv_witness :
  exists request,
    @DapRegistration.rawToRegistrationRequest TestDoubles.platform
      (inl (DapRegistration.serialize TestDoubles.signedRegistration))
    = Ok (Some request) /\
    RegistrationId.toString (DapRegistration.id TestDoubles.signedRegistration)
    = DapRegistration.m_id request /\
    DapRegistration.handle TestDoubles.signedRegistration
    = DapRegistration.m_handle request /\
    DapRegistration.did TestDoubles.signedRegistration
    = DapRegistration.m_did request /\
    DapRegistration.domain TestDoubles.signedRegistration
    = DapRegistration.m_domain request /\
    DapRegistration.signature TestDoubles.signedRegistration
    = DapRegistration.m_signature request /\
    DapRegistration.signature TestDoubles.signedRegistration <> None /\
    @DapRegistration.verify TestDoubles.platform TestDoubles.signedRegistration
    = Ok (DapRegistration.did TestDoubles.signedRegistration).
Proof.
  apply (DapRegistration_parse_Ok_inv TestDoubles.platform
           (inl (DapRegistration.serialize TestDoubles.signedRegistration))
           TestDoubles.signedRegistration).
  vm_compute. reflexivity.
Defined.

(** X13: [DapRegistration.verify] returns nothing but the record's own
    [did], and only for a record that has a signature and whose [did]
    holds no ["#"]: the signer is the key id up to its first ["#"], so a
    record that names a DID URL with a fragment never verifies. *)
Theorem DapRegistration_verify_returns_own_did (P : Platform)
        (r : DapRegistration.t) (signer : string) :
  DapRegistration.verify r = Ok signer ->
  signer = DapRegistration.did r /\
  DapRegistration.signature r <> None /\
  Str.includes (DapRegistration.did r) "#" = false.
Proof.
  intros H. destruct (verify_Ok_inv _ _ H) as (-> & jws & Hsig & Hv).
  split; [reflexivity|]. split; [congruence|].
  now apply Crypto_verify_Ok_no_hash in Hv.
Qed.

Lemma DapRegistration_verify_returns_own_did_witness :
  "did:example:alice" = DapRegistration.did TestDoubles.signedRegistration /\
  DapRegistration.signature TestDoubles.signedRegistration <> None /\
  Str.includes (DapRegistration.did TestDoubles.signedRegistration) "#" = false.
Proof.
  apply (DapRegistration_verify_returns_own_did TestDoubles.platform
           TestDoubles.signedRegistration "did:example:alice").
  vm_compute. reflexivity.
Defined.

(** X15: the exceptions that leave [DapRegistration.parse], for a request
    of the declared type [RegistrationRequest], as an object or as JSON
    text, and for the text that parses to [null].  A failure is an
    [InvalidDapRegistration] (the text is no JSON, the signature is
    missing, or the signer is not the record's DID), the
    [InvalidRegistrationId] of the id, a [TypeError] (reading [id] of
    [null], or [alg] of a [null] header), or a failure of
    [Crypto.verify]: an [InvalidJws] with one of its eight messages, the
    plain [Error] for a verification method without public key, the
    [SyntaxError] of a signature that is no base64url, or an exception of
    the key manager. *)
Theorem DapRegistration_parse_failure_kinds (P : Platform)
        (rawRequest : string + DapRegistration.RegistrationModel) (e : exn) :
  DapRegistration.parse rawRequest = Some (Throw e) ->
  (name e = InvalidDapRegistration /\
   (message e = DapRegistration.msgSignatureMissing \/
    message e = DapRegistration.msgWrongSigner \/
    exists text err,
      rawRequest = inl text /\ JSON_parse text = Throw err /\
      message e = "Failed to parse DAP registration: " ++ message err)) \/
  name e = InvalidRegistrationId \/
  (name e = InvalidJws /\ In (message e) Crypto.invalidJwsCauses) \/
  e = mkExn Error Crypto.msgNoPublicKeyJwk \/
  name e = TypeError \/
  name e = SyntaxError \/
  (exists key data sig, keyManagerVerify key data sig = Throw e).
Proof.
  assert (V : forall request i,
    (_ <- DapRegistration.verify
            (DapRegistration.new i (DapRegistration.m_handle request)
               (DapRegistration.m_did request)
               (DapRegistration.m_domain request)
               (DapRegistration.m_signature request)) ;;
     Ok (DapRegistration.new i (DapRegistration.m_handle request)
           (DapRegistration.m_did request)
           (DapRegistration.m_domain request)
           (DapRegistration.m_signature request))) = Throw e ->
    (name e = InvalidDapRegistration /\
     (message e = DapRegistration.msgSignatureMissing \/
      message e = DapRegistration.msgWrongSigner \/
      exists text err,
        rawRequest = inl text /\ JSON_parse text = Throw err /\
        message e = "Failed to parse DAP registration: " ++ message err)) \/
    name e = InvalidRegistrationId \/
    (name e = InvalidJws /\ In (message e) Crypto.invalidJwsCauses) \/
    e = mkExn Error Crypto.msgNoPublicKeyJwk \/
    name e = TypeError \/
    name e = SyntaxError \/
    (exists key data sig, keyManagerVerify key data sig = Throw e)).
  { intros request i.
    unfold DapRegistration.verify. cbn [DapRegistration.signature].
    destruct (DapRegistration.m_signature request) as [jws|].
    2:{ intros H. injection H as <-. left. split; [reflexivity|]. now left. }
    destruct (Crypto.verify _ _) as [d|e1] eqn:Hv; cbn [bind].
    2:{ intros H. injection H as <-.
        right; right. exact (Crypto_verify_failures P _ _ _ Hv). }
    destruct (negb _); [|discriminate].
    intros H. injection H as <-. left. split; [reflexivity|]. right; now left. }
  assert (I : forall s, RegistrationId.parse s = Throw e ->
                        name e = InvalidRegistrationId).
  { intros s Hid. unfold RegistrationId.parse in Hid.
    destruct (RegistrationId.parse_try _); [discriminate|].
    now injection Hid as <-. }
  unfold DapRegistration.parse, DapRegistration.rawToRegistrationRequest,
    DapRegistration.isNullRequest.
  destruct rawRequest as [text|request].
  - destruct (JSON_parse text) as [v|err] eqn:Hjson.
    2:{ intros H. injection H as <-. left. split; [reflexivity|].
        right; right. now exists text, err. }
    destruct (DapRegistration.asRegistrationRequest v) as [request|].
    2:{ destruct v; try discriminate.
        intros H. injection H as <-. do 4 right. now left. }
    destruct (RegistrationId.parse _) as [i|e0] eqn:Hid; cbn [bind].
    2:{ intros H. injection H as <-. right; left. now apply I in Hid. }
    intros H. injection H as H. now apply (V request i).
  - destruct (RegistrationId.parse _) as [i|e0] eqn:Hid; cbn [bind].
    2:{ intros H. injection H as <-. right; left. now apply I in Hid. }
    intros H. injection H as H. now apply (V request i).
Qed.

Lemma DapRegistration_parse_failure_kinds_witness :
  let e := mkExn InvalidDapRegistration DapRegistration.msgSignatureMissing in
  (name e = InvalidDapRegistration /\
   (message e = DapRegistration.msgSignatureMissing \/
    message e = DapRegistration.msgWrongSigner \/
    exists text err,
      @inl string DapRegistration.RegistrationModel
           (DapRegistration.serialize TestDoubles.unsignedRegistration)
      = inl text /\
      @JSON_parse TestDoubles.platform text = Throw err /\
      message e = "Failed to parse DAP registration: " ++ message err)) \/
  name e = InvalidRegistrationId \/
  (name e = InvalidJws /\ In (message e) Crypto.invalidJwsCauses) \/
  e = mkExn Error Crypto.msgNoPublicKeyJwk \/
  name e = TypeError \/
  name e = SyntaxError \/
  (exists key data sig,
      @keyManagerVerify TestDoubles.platform key data sig = Throw e).
Proof.
  cbv zeta.
  apply (DapRegistration_parse_failure_kinds TestDoubles.platform
           (inl (DapRegistration.serialize TestDoubles.unsignedRegistration))
           (mkExn InvalidDapRegistration DapRegistration.msgSignatureMissing)).
  vm_compute. reflexivity.
Defined.

(* ------------------------------------------------------------------ *)
(** ** Crypto.digest: the order of the keys *)

(** X16: with [canonicalize] and the hash as modelled, [Crypto.digest]
    returns 32 bytes and gives the same digest to two payloads that are the
    same up to the order of the keys of the objects reached through
    objects only, the payload itself among them; the sequences of the two
    payloads are the same. *)
Theorem Crypto_digest_key_order_outside_sequences (payload1 payload2 : json) :
  Canonicalize.DistinctKeys payload1 ->
  Canonicalize.SameUpToKeyOrderOutsideSequences payload1 payload2 ->
  Crypto.digest payload1 = Crypto.digest payload2 /\
  length (Crypto.digest payload1) = 32%nat.
Proof.
  intros Hdk Hsame. split; [|apply length_Sha256_digest].
  unfold Crypto.digest, Canonicalize.canonicalize.
  now rewrite (CanonicalizeFacts.sortKeys_outside_sequences _ _ Hdk Hsame).
Qed.

Lemma Crypto_digest_key_order_outside_sequences_witness :
  let items := JArray [JObject [("y", JBool true); ("x", JNull)]; JNumber 2] in
  let payload1 :=
    JObject [("a", JNumber 1);
             ("b", JObject [("c", items); ("d", JString "e")])] in
  let payload2 :=
    JObject [("b", JObject [("d", JString "e"); ("c", items)]);
             ("a", JNumber 1)] in
  Crypto.digest payload1 = Crypto.digest payload2 /\
  length (Crypto.digest payload1) = 32%nat.
Proof.
  cbv zeta.
  apply Crypto_digest_key_order_outside_sequences.
  - repeat match goal with
           | |- Canonicalize.DistinctKeys _ => constructor
           | |- Forall _ _ => constructor
           | |- NoDup _ => constructor
           | |- ~ In _ _ => simpl; intuition discriminate
           | |- _ => progress cbn [map fst snd]
           end.
  - eapply Canonicalize.SO_object; [apply perm_swap|].
    constructor; [split; [reflexivity|]|].
    + cbn [snd]. eapply Canonicalize.SO_object; [apply perm_swap|].
      repeat constructor.
    + repeat constructor.
Defined.

(* ------------------------------------------------------------------ *)
(** ** The models of the packages on sample inputs *)

(** The decoder of base64url: padding at the end is dropped; a character
    outside the alphabet and left-over bits are the two failures. *)
Example Base64Url_decode_listed :
  map Base64Url.decode ["AQID"; "AQID="; "AQ"; "AQ=="; ""]
  = [Ok [x01; x02; x03]; Ok [x01; x02; x03]; Ok [x01]; Ok [x01]; Ok []] /\
  map Base64Url.decode ["A"; "AR"; "A.ID"; "AQ=D"]
  = [Throw Base64Url.unexpectedEndOfData; Throw Base64Url.unexpectedEndOfData;
     Throw Base64Url.nonBase64UrlCharacter;
     Throw Base64Url.nonBase64UrlCharacter].
Proof. split; vm_compute; reflexivity. Qed.

(** A detached JWS followed by ["="] verifies as the JWS does. *)
Example Crypto_verify_padded_signature :
  @Crypto.verify TestDoubles.platform
    (JString (TestDoubles.aliceDetachedJws ++ "=")) (Some [x01; x02; x03])
  = Ok "did:example:alice" /\
  throws (@Crypto.verify TestDoubles.platform
            (JString (TestDoubles.aliceDetachedJws ++ "!"))
            (Some [x01; x02; x03])) SyntaxError = true.
Proof. split; vm_compute; reflexivity. Qed.

(** The canonical object lists the keys that are array indices first, in
    the order of the numbers, then the other keys in the order of their
    code units; an object inside a sequence keeps its order. *)
Example Canonicalize_sortKeys_listed :
  Canonicalize.sortKeys
    (JObject [("b", JNumber 1); ("10", JNumber 2); ("2", JNumber 3);
              ("01", JNumber 4); ("B", JArray [JObject [("z", JNull);
                                                        ("a", JNull)]])])
  = JObject [("2", JNumber 3); ("10", JNumber 2); ("01", JNumber 4);
             ("B", JArray [JObject [("z", JNull); ("a", JNull)]]);
             ("b", JNumber 1)] /\
  Crypto.digest (JObject [("a", JNumber 1); ("b", JNumber 2)])
  = Crypto.digest (JObject [("b", JNumber 2); ("a", JNumber 1)]).
Proof. split; vm_compute; reflexivity. Qed.

(** The rejections of [RegistrationId.parse] that come before the length
    of the encoding is looked at, and the one of an encoding of more than
    128 bits. *)
Example RegistrationId_parse_other_causes :
  map (fun s => throws (RegistrationId.parse s) InvalidRegistrationId)
      ["reg_"; "Usr_123"; "_01fakqd1000w00000000000000";
       "reg_81fakqd1000w00000000000000"; ""]
  = [true; true; true; true; true] /\
  map (fun s => Str.contains "Invalid length"
                  (match RegistrationId.parse s with
                   | Ok _ => EmptyString
                   | Throw e => message e
                   end))
      ["reg_"; "Usr_123"; "_01fakqd1000w00000000000000";
       "reg_81fakqd1000w00000000000000"; "reg_123"]
  = [false; false; false; false; true].
Proof. split; vm_compute; reflexivity. Qed.

(** The text [null] is no request: reading its [id] is a [TypeError]. *)
Example DapRegistration_parse_null :
  option_map (fun r => throws r TypeError)
             (@DapRegistration.parse TestDoubles.platform (inl "null"))
  = Some true.
Proof. vm_compute. reflexivity. Qed.
